(** * mcp-optimist: the three Python analyzers, embedded and verified

    Source files embedded here:
      - [src/python/performance_analyzer.py]  (module [Performance])
      - [src/python/quality_analyzer.py]      (module [Quality])
      - [src/python/refactoring_analyzer.py]  (module [Refactoring])

    The analyzers read a file, call [ast.parse], walk the tree with
    [ast.walk] and print one JSON document.  A Python syntax tree is
    modelled the way the [ast] module presents it: a class name, the
    named fields in [_fields] order, and the position attributes.
    [ast.iter_child_nodes] and [ast.walk] are transcribed from the
    standard library, because the traversal order they produce is
    observable in the reports. *)

From Stdlib Require Import List String Ascii ZArith Lia Bool Permutation.
From Stdlib Require Import Sorted.
From Stdlib Require Import DecimalString DecimalZ.
From Stdlib Require DecimalFacts.
Import ListNotations.

Open Scope string_scope.
Open Scope Z_scope.
Open Scope list_scope.

(** String concatenation, as [+] on Python strings and the pieces of an
    f-string. *)
Infix "+++" := String.append (right associativity, at level 60).

(* ================================================================= *)
(** ** Python exceptions and the error monad *)

(** The exceptions the [try] block of [analyze_file] can see.  The first
    three are the failures of [open]/[read] and [ast.parse]; the next two
    are what attribute access and [len] raise on an object of the wrong
    shape; [ValueError] is what [int] raises; [OtherError] stands for
    any other [Exception] with its message. *)
Inductive exn : Type :=
| OSError (errno : Z) (strerror filename : string)
| UnicodeDecodeError (encoding detail : string)
| SyntaxError (msg filename : string) (line : Z)
| AttributeError (obj attr : string)
| TypeError (msg : string)
| ValueError (msg : string)
| OtherError (msg : string).

Inductive result (A : Type) : Type :=
| Ok (a : A)
| Raise (e : exn).
Arguments Ok {A} a.
Arguments Raise {A} e.

Definition bind {A B} (c : result A) (k : A -> result B) : result B :=
  match c with
  | Ok a => k a
  | Raise e => Raise e
  end.

Notation "x <- c ;; k" := (bind c (fun x => k))
  (at level 61, c at next level, right associativity).

(** [for x in l: body] over a state, where the body may raise. *)
Fixpoint foldM {S A} (body : S -> A -> result S) (l : list A) (s : S)
  : result S :=
  match l with
  | [] => Ok s
  | x :: l' => s' <- body s x ;; foldM body l' s'
  end.

(** The code point of a character. *)
Definition code (c : ascii) : Z := Z.of_nat (nat_of_ascii c).

Definition code_between (lo hi : Z) (c : ascii) : bool :=
  (lo <=? code c) && (code c <=? hi).

(** [c in s]. *)
Fixpoint occurs (c : ascii) (s : string) : bool :=
  match s with
  | EmptyString => false
  | String a rest => Ascii.eqb a c || occurs c rest
  end.

(** The decimal numeral of an integer: what [str(n)] returns when it
    returns. *)
Definition decimal (z : Z) : string := NilZero.string_of_int (Z.to_int z).

(** The number of digits of that numeral, the sign apart. *)
Definition digit_count (z : Z) : Z :=
  Z.of_nat (String.length (decimal (Z.abs z))).

(** [sys.int_info.default_max_str_digits]: CPython converts between
    [int] and [str] in base 10 only up to this many digits, in either
    direction; the analyzers leave the limit at its default. *)
Definition int_max_str_digits : Z := 4300.

Definition str_limit_message : string :=
  "Exceeds the limit (" +++ decimal int_max_str_digits
  +++ " digits) for integer string conversion; "
  +++ "use sys.set_int_max_str_digits() to increase the limit".

Definition int_limit_message (digits : Z) : string :=
  "Exceeds the limit (" +++ decimal int_max_str_digits
  +++ " digits) for integer string conversion: value has "
  +++ decimal digits +++ " digits; "
  +++ "use sys.set_int_max_str_digits() to increase the limit".

(** [str(n)], and [{n}] in an f-string, for an [int] of any size: a
    [ValueError] when the numeral has more digits than the limit.  The
    lengths and line numbers the analyzers print are machine integers
    ([len] returns a [Py_ssize_t], the parser stores line numbers as C
    [int]s), far below the limit: for those the numeral is taken
    directly with [decimal]. *)
Definition str_int (z : Z) : result string :=
  if digit_count z >? int_max_str_digits
  then Raise (ValueError str_limit_message)
  else Ok (decimal z).

Definition double_quote : ascii := ascii_of_nat 34.

(** [str.isprintable] on one character below U+0100. *)
Definition isprintable (c : ascii) : bool :=
  code_between 32 126 c
  || (code_between 161 255 c && negb (code c =? 173)).

Definition hex_digit (n : Z) : ascii :=
  ascii_of_nat (Z.to_nat (if n <? 10 then 48 + n else 87 + n)).

Definition repr_char (quote c : ascii) : string :=
  if Ascii.eqb c quote || Ascii.eqb c "\" then String "\" (String c EmptyString)
  else if code c =? 9 then "\t"
  else if code c =? 10 then "\n"
  else if code c =? 13 then "\r"
  else if isprintable c then String c EmptyString
  else "\x" +++ String (hex_digit (code c / 16))
                 (String (hex_digit (code c mod 16)) EmptyString).

(** [repr(s)] for a [str] of characters below U+0100: single quotes
    unless the text has one and no double quote; the quote and the
    backslash escaped; tab, newline and return by letter; every other
    character that is not printable as [\xhh]. *)
Definition py_repr (s : string) : string :=
  let quote := if occurs "'" s && negb (occurs double_quote s)
               then double_quote else "'"%char in
  String quote
    (fold_right (fun c rest => repr_char quote c +++ rest)
       (String quote EmptyString) (list_ascii_of_string s)).

(** The part of a path after its last [/]: what [SyntaxError.__str__]
    shows of the file name. *)
Fixpoint basename (path : string) : string :=
  match path with
  | EmptyString => EmptyString
  | String c rest =>
      if occurs "/" rest then basename rest
      else if Ascii.eqb c "/" then rest
      else path
  end.

(** [str(e)], after CPython's formatting of each class: an [OSError]
    raised by [open] prints its errno, message and the [repr] of the
    file name; a decoding error names the codec; a [SyntaxError] raised
    by [ast.parse] with a file name appends the base name and the
    line. *)
Definition str_exn (e : exn) : string :=
  match e with
  | OSError errno strerror filename =>
      "[Errno " +++ decimal errno +++ "] " +++ strerror +++ ": "
      +++ py_repr filename
  | UnicodeDecodeError encoding detail =>
      "'" +++ encoding +++ "' codec can't decode " +++ detail
  | SyntaxError msg filename line =>
      msg +++ " (" +++ basename filename +++ ", line " +++ decimal line +++ ")"
  | AttributeError obj attr =>
      "'" +++ obj +++ "' object has no attribute '" +++ attr +++ "'"
  | TypeError msg => msg
  | ValueError msg => msg
  | OtherError msg => msg
  end.

(** The failures of reading and parsing: I/O, decoding, syntax. *)
Definition read_or_parse_failure (e : exn) : bool :=
  match e with
  | OSError _ _ _ | UnicodeDecodeError _ _ | SyntaxError _ _ _ => true
  | _ => false
  end.

(* ================================================================= *)
(** ** Syntax trees as the [ast] module presents them *)

(** Values a [Constant] node, an identifier field or an optional field
    can hold.  [COther] is a float, complex, bytes or Ellipsis literal,
    kept by its printed form. *)
Inductive constant : Type :=
| CNone
| CBool (b : bool)
| CInt (z : Z)
| CStr (s : string)
| COther (repr : string).

(** A node is an instance of a class with its fields in [_fields] order.
    [lineno] and [end_lineno] are [None] for the classes that carry no
    position (Module, arguments, operators, expression contexts). *)
#[local] Set Warnings "-register-all".
Inductive ast : Type :=
| AST (cls : string) (fields : list (string * value))
      (lineno end_lineno : option Z)
with value : Type :=
| VNode (n : ast)
| VList (items : list value)
| VConst (c : constant).

Definition cls (n : ast) : string := let 'AST c _ _ _ := n in c.
Definition fields (n : ast) : list (string * value) :=
  let 'AST _ fs _ _ := n in fs.
Definition lineno (n : ast) : option Z := let 'AST _ _ l _ := n in l.
Definition end_lineno (n : ast) : option Z := let 'AST _ _ _ e := n in e.

Definition isinstance (n : ast) (c : string) : bool := String.eqb (cls n) c.

Fixpoint assoc {V} (k : string) (l : list (string * V)) : option V :=
  match l with
  | [] => None
  | (k', v) :: l' => if String.eqb k k' then Some v else assoc k l'
  end.

Definition hasattr (n : ast) (name : string) : bool :=
  match assoc name (fields n) with Some _ => true | None => false end.

Definition getattr (n : ast) (name : string) : result value :=
  match assoc name (fields n) with
  | Some v => Ok v
  | None => Raise (AttributeError (cls n) name)
  end.

(** [v.name] where [v] is any field value. *)
Definition getattr_value (v : value) (name : string) : result value :=
  match v with
  | VNode n => getattr n name
  | VList _ => Raise (AttributeError "list" name)
  | VConst CNone => Raise (AttributeError "NoneType" name)
  | VConst (CBool _) => Raise (AttributeError "bool" name)
  | VConst (CInt _) => Raise (AttributeError "int" name)
  | VConst (CStr _) => Raise (AttributeError "str" name)
  | VConst (COther _) => Raise (AttributeError "object" name)
  end.

Definition hasattr_value (v : value) (name : string) : bool :=
  match v with
  | VNode n => hasattr n name
  | _ => false
  end.

Definition isinstance_value (v : value) (c : string) : bool :=
  match v with
  | VNode n => isinstance n c
  | _ => false
  end.

Definition node_lineno (n : ast) : result Z :=
  match lineno n with
  | Some l => Ok l
  | None => Raise (AttributeError (cls n) "lineno")
  end.

(** [len(v)]. *)
Definition py_len (v : value) : result Z :=
  match v with
  | VList l => Ok (Z.of_nat (List.length l))
  | VConst (CStr s) => Ok (Z.of_nat (String.length s))
  | VNode n => Raise (TypeError ("object of type '" +++ cls n +++ "' has no len()"))
  | VConst _ => Raise (TypeError "object has no len()")
  end.

(** The items [for x in v] visits. *)
Definition py_iter (v : value) : result (list value) :=
  match v with
  | VList l => Ok l
  | VConst (CStr s) =>
      Ok (map (fun c => VConst (CStr (String c EmptyString))) (list_ascii_of_string s))
  | VNode n => Raise (TypeError ("'" +++ cls n +++ "' object is not iterable"))
  | VConst _ => Raise (TypeError "object is not iterable")
  end.

(** Truth value of [v] in [if not v]. *)
Definition truthy (v : value) : bool :=
  match v with
  | VNode _ => true
  | VList l => match l with [] => false | _ => true end
  | VConst CNone => false
  | VConst (CBool b) => b
  | VConst (CInt z) => negb (z =? 0)
  | VConst (CStr s) => match s with EmptyString => false | _ => true end
  | VConst (COther _) => true
  end.

(** [ast.iter_child_nodes]: for each field in order, the field itself
    when it is a node, or its items that are nodes when it is a list. *)
Definition field_child_nodes (v : value) : list ast :=
  match v with
  | VNode n => [n]
  | VList items =>
      flat_map (fun item => match item with VNode n => [n] | _ => [] end) items
  | VConst _ => []
  end.

Definition iter_child_nodes (n : ast) : list ast :=
  flat_map (fun f => field_child_nodes (snd f)) (fields n).

(** The nodes of a subtree, the node first and then its children's
    subtrees in order.  Its length is the size of the subtree. *)
Fixpoint preorder (n : ast) : list ast :=
  n :: match n with
       | AST _ fs _ _ =>
           (fix in_fields (fs : list (string * value)) : list ast :=
              match fs with
              | [] => []
              | (_, v) :: fs' =>
                  match v with
                  | VNode c => preorder c
                  | VList items =>
                      (fix in_items (l : list value) : list ast :=
                         match l with
                         | [] => []
                         | VNode c :: l' => preorder c ++ in_items l'
                         | _ :: l' => in_items l'
                         end) items
                  | VConst _ => []
                  end ++ in_fields fs'
              end) fs
       end.

Definition size (n : ast) : nat := List.length (preorder n).

(** [ast.walk]: a queue, initially the root; pop the left end, append
    the node's children at the right end, yield the node.  The fuel is
    the number of pops; [size] of the root is enough (lemma
    [walk_queue_Permutation] below). *)
Fixpoint walk_queue (fuel : nat) (todo : list ast) : list ast :=
  match fuel, todo with
  | S fuel', node :: rest =>
      node :: walk_queue fuel' (rest ++ iter_child_nodes node)
  | _, _ => []
  end.

Definition walk (node : ast) : list ast := walk_queue (size node) [node].

(** Typed reads of the attributes the analyzers use.  [ast.parse] stores
    identifiers as [str]; on any other value the model raises, which
    sends the run to the [except] branch. *)
Definition getattr_str (n : ast) (name : string) : result string :=
  v <- getattr n name ;;
  match v with
  | VConst (CStr s) => Ok s
  | _ => Raise (TypeError ("attribute '" +++ name +++ "' is not a str"))
  end.

(** [len(node.args.args)]. *)
Definition len_args_args (node : ast) : result Z :=
  args <- getattr node "args" ;;
  args_args <- getattr_value args "args" ;;
  py_len args_args.

(* ================================================================= *)
(** ** The environment and the printed document *)

(** [open(file_path).read()] and [ast.parse(content, filename=...)]. *)
Record env : Type := {
  open_read : string -> result string;
  ast_parse : string -> string -> result ast
}.

(** What [json.dumps] is given.  [JDiv a b] is the float [a / b] of
    Python's true division, kept as the quotient it was computed from. *)
Inductive json : Type :=
| JNull
| JInt (z : Z)
| JDiv (num den : Z)
| JStr (s : string)
| JList (l : list json)
| JObj (members : list (string * json)).

Definition len {A} (l : list A) : Z := Z.of_nat (List.length l).

(* ================================================================= *)
(** ** performance_analyzer.py *)

Module Performance.

Record loop_entry : Type := {
  loop_type : string;
  loop_depth : Z;
  loop_line : Z
}.

Record function_entry : Type := {
  fn_name : string;
  fn_line : Z;
  fn_params : Z
}.

Record concat_issue : Type := {
  issue_line : Z;
  issue_variable : string
}.

(** The local variables of [analyze_file] during the walk. *)
Record state : Type := {
  loops : list loop_entry;
  functions : list function_entry;
  string_concat_issues : list concat_issue;
  loop_stack : list Z
}.

Definition initial : state :=
  {| loops := []; functions := []; string_concat_issues := [];
     loop_stack := [] |}.

(** Lines 41-46: the body of [for child in ast.walk(node)]. *)
Definition check_child (issues : list concat_issue) (child : ast)
  : result (list concat_issue) :=
  if isinstance child "AugAssign" then
    op <- getattr child "op" ;;
    if isinstance_value op "Add" then
      value <- getattr child "value" ;;
      if hasattr_value value "value" then
        inner <- getattr_value value "value" ;;
        match inner with
        | VConst (CStr _) =>
            line <- node_lineno child ;;
            Ok (issues ++ [ {| issue_line := line;
                               issue_variable := "string_var" |} ])
        | _ => Ok issues
        end
      else Ok issues
    else Ok issues
  else Ok issues.

(** Lines 20-48: the body of [for node in ast.walk(tree)]. *)
Definition visit (st : state) (node : ast) : result state :=
  if isinstance node "FunctionDef" then
    name <- getattr_str node "name" ;;
    line <- node_lineno node ;;
    params <- len_args_args node ;;
    Ok {| loops := loops st;
          functions := functions st ++
            [ {| fn_name := name; fn_line := line; fn_params := params |} ];
          string_concat_issues := string_concat_issues st;
          loop_stack := loop_stack st |}
  else if isinstance node "For" || isinstance node "While" then
    let depth := len (loop_stack st) + 1 in
    let pushed := loop_stack st ++ [depth] in
    let loop_type := if isinstance node "For" then "for" else "while" in
    line <- node_lineno node ;;
    let loops' := loops st ++
      [ {| loop_type := loop_type; loop_depth := depth; loop_line := line |} ] in
    issues' <- foldM check_child (walk node) (string_concat_issues st) ;;
    Ok {| loops := loops';
          functions := functions st;
          string_concat_issues := issues';
          loop_stack := removelast pushed |}
  else Ok st.

Definition collect (tree : ast) : result state :=
  foldM visit (walk tree) initial.

Definition json_of_loop (l : loop_entry) : json :=
  JObj [ ("type", JStr (loop_type l)); ("depth", JInt (loop_depth l));
         ("line", JInt (loop_line l)); ("column", JInt 0) ].

Definition json_of_function (f : function_entry) : json :=
  JObj [ ("name", JStr (fn_name f)); ("line", JInt (fn_line f));
         ("params", JInt (fn_params f)) ].

Definition json_of_issue (i : concat_issue) : json :=
  JObj [ ("line", JInt (issue_line i));
         ("variable", JStr (issue_variable i)) ].

(** Lines 50-54. *)
Definition report (st : state) : json :=
  JObj [ ("loops", JList (map json_of_loop (loops st)));
         ("functions", JList (map json_of_function (functions st)));
         ("stringConcatIssues",
          JList (map json_of_issue (string_concat_issues st))) ].

(** Lines 58-63. *)
Definition error_report (e : exn) : json :=
  JObj [ ("error", JStr (str_exn e));
         ("loops", JList []);
         ("functions", JList []);
         ("stringConcatIssues", JList []) ].

(** Lines 8-48: the [try] block up to the report, or the exception
    the [except] branch catches. *)
Definition findings (E : env) (file_path : string) : result state :=
  content <- open_read E file_path ;;
  tree <- ast_parse E content file_path ;;
  collect tree.

(** The document [analyze_file] prints. *)
Definition analyze_file (E : env) (file_path : string) : json :=
  match findings E file_path with
  | Ok st => report st
  | Raise e => error_report e
  end.

End Performance.

(* ================================================================= *)
(** ** quality_analyzer.py *)

(** [max(l, key=key)] keeps the first item whose key is largest: a later
    item replaces the current one only when its key is strictly
    greater.  [None] stands for the [default]. *)
Fixpoint max_from {A} (key : A -> Z) (best : A) (l : list A) : A :=
  match l with
  | [] => best
  | x :: l' => max_from key (if key x >? key best then x else best) l'
  end.

Definition py_max {A} (key : A -> Z) (l : list A) : option A :=
  match l with
  | [] => None
  | x :: l' => Some (max_from key x l')
  end.

Definition sum (l : list Z) : Z := fold_left Z.add l 0.

Module Quality.

(** Lines 6-13. *)
Definition count_decision (complexity : Z) (child : ast) : result Z :=
  if isinstance child "If" || isinstance child "For"
     || isinstance child "While" || isinstance child "With"
     || isinstance child "Try" || isinstance child "ExceptHandler"
  then Ok (complexity + 1)
  else if isinstance child "BoolOp" then
    values <- getattr child "values" ;;
    n <- py_len values ;;
    if n >? 1 then Ok (complexity + (n - 1)) else Ok complexity
  else Ok complexity.

Definition calculate_cyclomatic_complexity (node : ast) : result Z :=
  foldM count_decision (walk node) 1.

(** Lines 15-20. *)
Definition calculate_cognitive_complexity (node : ast) : Z :=
  fold_left
    (fun complexity child =>
       if isinstance child "If" || isinstance child "For"
          || isinstance child "While" || isinstance child "Try"
       then complexity + 1 else complexity)
    (walk node) 0.

Record function_entry : Type := {
  fn_name : string;
  fn_line : Z;
  cyclomatic : Z;
  cognitive : Z;
  nestingDepth : Z;
  decisionPoints : Z
}.

Record smell : Type := {
  smell_type : string;
  smell_line : Z;
  description : string;
  severity : string
}.

Record smells : Type := {
  godObjects : list smell;
  longParameterLists : list smell;
  longMethods : list smell;
  magicNumbers : list smell;
  emptyCatches : list smell
}.

Definition no_smells : smells :=
  {| godObjects := []; longParameterLists := []; longMethods := [];
     magicNumbers := []; emptyCatches := [] |}.

(** Lines 31-43: the body of the first walk. *)
Definition visit_function (functions : list function_entry) (node : ast)
  : result (list function_entry) :=
  if isinstance node "FunctionDef" then
    cyclomatic <- calculate_cyclomatic_complexity node ;;
    let cognitive := calculate_cognitive_complexity node in
    let nesting := 0 in
    name <- getattr_str node "name" ;;
    line <- node_lineno node ;;
    Ok (functions ++
        [ {| fn_name := name; fn_line := line; cyclomatic := cyclomatic;
             cognitive := cognitive; nestingDepth := nesting;
             decisionPoints := cyclomatic - 1 |} ])
  else Ok functions.

(** Lines 55-61.  The count is a length and is printed with
    [decimal]. *)
Definition check_parameters (sm : smells) (node : ast) : result smells :=
  params <- len_args_args node ;;
  if params >? 5 then
    line <- node_lineno node ;;
    name <- getattr_str node "name" ;;
    Ok {| godObjects := godObjects sm;
          longParameterLists := longParameterLists sm ++
            [ {| smell_type := "LONG_PARAMETER_LIST";
                 smell_line := line;
                 description := "Function " +++ name +++ " has "
                                +++ decimal params +++ " parameters";
                 severity := "medium" |} ];
          longMethods := longMethods sm;
          magicNumbers := magicNumbers sm;
          emptyCatches := emptyCatches sm |}
  else Ok sm.

(** Lines 63-71.  [hasattr(node, 'end_lineno') and node.end_lineno] is
    false when the attribute is missing, [None] or zero.  The span is a
    difference of line numbers and is printed with [decimal]. *)
Definition check_length (sm : smells) (node : ast) : result smells :=
  match end_lineno node with
  | Some last =>
      if last =? 0 then Ok sm
      else
        first <- node_lineno node ;;
        let lines := last - first in
        if lines >? 50 then
          name <- getattr_str node "name" ;;
          Ok {| godObjects := godObjects sm;
                longParameterLists := longParameterLists sm;
                longMethods := longMethods sm ++
                  [ {| smell_type := "LONG_METHOD";
                       smell_line := first;
                       description := "Function " +++ name +++ " is "
                                      +++ decimal lines +++ " lines long";
                       severity := "medium" |} ];
                magicNumbers := magicNumbers sm;
                emptyCatches := emptyCatches sm |}
        else Ok sm
  | None => Ok sm
  end.

(** Lines 74-81: the body of [for handler in node.handlers]. *)
Definition check_handler (sm : smells) (handler : value) : result smells :=
  body <- getattr_value handler "body" ;;
  if negb (truthy body) then
    let line := match handler with
                | VNode h => match lineno h with Some l => l | None => 0 end
                | _ => 0
                end in
    Ok {| godObjects := godObjects sm;
          longParameterLists := longParameterLists sm;
          longMethods := longMethods sm;
          magicNumbers := magicNumbers sm;
          emptyCatches := emptyCatches sm ++
            [ {| smell_type := "EMPTY_CATCH";
                 smell_line := line;
                 description := "Empty except block";
                 severity := "low" |} ] |}
  else Ok sm.

(** Lines 83-89.  [isinstance(v, int)] holds for an [int] and for a
    [bool]; [True > 10] and [False > 10] are false.  The literal can be
    of any size (a hexadecimal literal has no length limit), so the
    f-string that prints it can raise. *)
Definition check_constant (sm : smells) (node : ast) : result smells :=
  v <- getattr node "value" ;;
  match v with
  | VConst (CInt z) =>
      if z >? 10 then
        let line := match lineno node with Some l => l | None => 0 end in
        value <- str_int z ;;
        Ok {| godObjects := godObjects sm;
              longParameterLists := longParameterLists sm;
              longMethods := longMethods sm;
              magicNumbers := magicNumbers sm ++
                [ {| smell_type := "MAGIC_NUMBER";
                     smell_line := line;
                     description := "Magic number: " +++ value;
                     severity := "low" |} ];
              emptyCatches := emptyCatches sm |}
      else Ok sm
  | _ => Ok sm
  end.

(** Lines 54-89: the body of the second walk. *)
Definition visit_smell (sm : smells) (node : ast) : result smells :=
  if isinstance node "FunctionDef" then
    sm' <- check_parameters sm node ;;
    check_length sm' node
  else if isinstance node "Try" then
    handlers <- getattr node "handlers" ;;
    items <- py_iter handlers ;;
    foldM check_handler items sm
  else if isinstance node "Constant" then
    check_constant sm node
  else Ok sm.

Definition collect (tree : ast) : result (list function_entry * smells) :=
  functions <- foldM visit_function (walk tree) [] ;;
  sm <- foldM visit_smell (walk tree) no_smells ;;
  Ok (functions, sm).

Definition json_of_function (f : function_entry) : json :=
  JObj [ ("name", JStr (fn_name f)); ("line", JInt (fn_line f));
         ("cyclomatic", JInt (cyclomatic f));
         ("cognitive", JInt (cognitive f));
         ("nestingDepth", JInt (nestingDepth f));
         ("decisionPoints", JInt (decisionPoints f)) ].

Definition json_of_smell (s : smell) : json :=
  JObj [ ("type", JStr (smell_type s)); ("line", JInt (smell_line s));
         ("description", JStr (description s));
         ("severity", JStr (severity s)) ].

(** [sum(...) / len(functions) if functions else 0]. *)
Definition average (values : list Z) : json :=
  match values with
  | [] => JInt 0
  | _ => JDiv (sum values) (len values)
  end.

(** [max((f['cyclomatic'] for f in functions), default=0)]. *)
Definition maxComplexity (functions : list function_entry) : Z :=
  match py_max (fun c => c) (map cyclomatic functions) with
  | Some c => c
  | None => 0
  end.

(** [max(functions, key=lambda f: f['cyclomatic'],
         default={'name': None})['name']]. *)
Definition mostComplexFunction (functions : list function_entry)
  : option string :=
  match py_max cyclomatic functions with
  | Some f => Some (fn_name f)
  | None => None
  end.

Definition json_of_name (name : option string) : json :=
  match name with
  | Some s => JStr s
  | None => JNull
  end.

(** Lines 91-110. *)
Definition report (functions : list function_entry) (sm : smells) : json :=
  JObj [
    ("complexity", JObj [
       ("functions", JList (map json_of_function functions));
       ("totalFunctions", JInt (len functions));
       ("averageComplexity", average (map cyclomatic functions));
       ("maxComplexity", JInt (maxComplexity functions));
       ("averageCognitive", average (map cognitive functions));
       ("totalDecisionPoints", JInt (sum (map decisionPoints functions)));
       ("mostComplexFunction", json_of_name (mostComplexFunction functions)) ]);
    ("smells", JObj [
       ("godObjects", JList (map json_of_smell (godObjects sm)));
       ("longParameterLists", JList (map json_of_smell (longParameterLists sm)));
       ("longMethods", JList (map json_of_smell (longMethods sm)));
       ("magicNumbers", JList (map json_of_smell (magicNumbers sm)));
       ("emptyCatches", JList (map json_of_smell (emptyCatches sm)));
       ("classMetrics", JObj [ ("total", JInt 0); ("large", JInt 0) ]);
       ("functionMetrics", JObj [ ("total", JInt (len functions));
                                  ("long", JInt (len (longMethods sm))) ]) ]) ].

(** Lines 114-134. *)
Definition error_report (e : exn) : json :=
  JObj [
    ("error", JStr (str_exn e));
    ("complexity", JObj [
       ("functions", JList []);
       ("totalFunctions", JInt 0);
       ("averageComplexity", JInt 0);
       ("maxComplexity", JInt 0);
       ("averageCognitive", JInt 0);
       ("totalDecisionPoints", JInt 0);
       ("mostComplexFunction", JNull) ]);
    ("smells", JObj [
       ("godObjects", JList []);
       ("longParameterLists", JList []);
       ("longMethods", JList []);
       ("magicNumbers", JList []);
       ("emptyCatches", JList []);
       ("classMetrics", JObj [ ("total", JInt 0); ("large", JInt 0) ]);
       ("functionMetrics", JObj [ ("total", JInt 0); ("long", JInt 0) ]) ]) ].

(** Lines 24-89: the [try] block up to the report, or the exception
    the [except] branch catches. *)
Definition findings (E : env) (file_path : string)
  : result (list function_entry * smells) :=
  content <- open_read E file_path ;;
  tree <- ast_parse E content file_path ;;
  collect tree.

Definition analyze_file (E : env) (file_path : string) : json :=
  match findings E file_path with
  | Ok (functions, sm) => report functions sm
  | Raise e => error_report e
  end.

End Quality.

(* ================================================================= *)
(** ** Text: lines, trimming, the magic-number pattern *)

(** A Python [str] is modelled by a Rocq [string], one [ascii] per
    character: the characters below U+0100, classified as Python
    classifies them. *)

(** [str.isspace] on one character. *)
Definition isspace (c : ascii) : bool :=
  code_between 9 13 c || code_between 28 32 c
  || (code c =? 133) || (code c =? 160).

(** [\d]: a decimal digit. *)
Definition isdigit (c : ascii) : bool := code_between 48 57 c.

(** [\w]: an alphanumeric character or the underscore. *)
Definition isword (c : ascii) : bool :=
  code_between 48 57 c || code_between 65 90 c || code_between 97 122 c
  || (code c =? 95)
  || (code c =? 170) || (code c =? 181) || (code c =? 186)
  || code_between 178 179 c || (code c =? 185) || code_between 188 190 c
  || code_between 192 214 c || code_between 216 246 c
  || code_between 248 255 c.

Definition newline : ascii := ascii_of_nat 10.
Definition nl : string := String newline EmptyString.

(** [content.split('\n')]. *)
Fixpoint split_lines (content : string) : list string :=
  match content with
  | EmptyString => [EmptyString]
  | String c rest =>
      if Ascii.eqb c newline then EmptyString :: split_lines rest
      else match split_lines rest with
           | line :: lines => String c line :: lines
           | [] => [String c EmptyString]
           end
  end.

Fixpoint lstrip (s : string) : string :=
  match s with
  | String c rest => if isspace c then lstrip rest else s
  | EmptyString => EmptyString
  end.

Fixpoint rstrip (s : string) : string :=
  match s with
  | String c rest =>
      match rstrip rest with
      | EmptyString => if isspace c then EmptyString else String c EmptyString
      | kept => String c kept
      end
  | EmptyString => EmptyString
  end.

(** [s.strip()]. *)
Definition strip (s : string) : string := rstrip (lstrip s).

(** [s.startswith(p)]. *)
Definition startswith (s p : string) : bool := String.prefix p s.

(** [enumerate(l)]. *)
Fixpoint enumerate_from {A} (i : Z) (l : list A) : list (Z * A) :=
  match l with
  | [] => []
  | x :: l' => (i, x) :: enumerate_from (i + 1) l'
  end.

Definition enumerate {A} (l : list A) : list (Z * A) := enumerate_from 0 l.

(** The fragment of regular expressions the analyzer uses, with the
    backtracking semantics of [re]: alternatives are tried left to
    right, a repetition takes as many characters as it can and gives
    them back one at a time. *)
Inductive charclass : Type :=
| Digit
| Range (lo hi : Z).

Inductive regex : Type :=
| WordBoundary
| Class (c : charclass)
| AtLeast (min : nat) (c : charclass)
| Seq (r1 r2 : regex)
| Alt (r1 r2 : regex).

Definition in_class (c : charclass) (a : ascii) : bool :=
  match c with
  | Digit => isdigit a
  | Range lo hi => code_between lo hi a
  end.

Definition word_before (prev : option ascii) : bool :=
  match prev with Some a => isword a | None => false end.

Definition word_here (s : string) : bool :=
  match s with String a _ => isword a | EmptyString => false end.

(** A position in the subject: the character before it, the text from
    it on, and the number of characters matched so far. *)
Definition continuation : Type := option ascii -> string -> nat -> option nat.

Fixpoint match_at_least (c : charclass) (min : nat) (prev : option ascii)
  (s : string) (n : nat) (k : continuation) : option nat :=
  match s with
  | String a rest =>
      if in_class c a then
        match match_at_least c (Nat.pred min) (Some a) rest (S n) k with
        | Some r => Some r
        | None => match min with O => k prev s n | _ => None end
        end
      else match min with O => k prev s n | _ => None end
  | EmptyString => match min with O => k prev s n | _ => None end
  end.

Fixpoint match_re (r : regex) (prev : option ascii) (s : string) (n : nat)
  (k : continuation) : option nat :=
  match r with
  | WordBoundary =>
      if xorb (word_before prev) (word_here s) then k prev s n else None
  | Class c =>
      match s with
      | String a rest => if in_class c a then k (Some a) rest (S n) else None
      | EmptyString => None
      end
  | AtLeast min c => match_at_least c min prev s n k
  | Seq r1 r2 => match_re r1 prev s n (fun p' s' n' => match_re r2 p' s' n' k)
  | Alt r1 r2 =>
      match match_re r1 prev s n k with
      | Some m => Some m
      | None => match_re r2 prev s n k
      end
  end.

(** [re.search(r, s).group()]: the match at the leftmost position that
    has one. *)
Fixpoint search_from (r : regex) (prev : option ascii) (s : string)
  : option string :=
  match match_re r prev s 0%nat (fun _ _ n => Some n) with
  | Some n => Some (substring 0 n s)
  | None =>
      match s with
      | String a rest => search_from r (Some a) rest
      | EmptyString => None
      end
  end.

Definition re_search (r : regex) (s : string) : option string :=
  search_from r None s.

(** [r'\b\d{3,}\b|\b[1-9]\d{2,}\b']. *)
Definition magic_pattern : regex :=
  Alt (Seq WordBoundary (Seq (AtLeast 3 Digit) WordBoundary))
      (Seq WordBoundary
           (Seq (Class (Range 49 57)) (Seq (AtLeast 2 Digit) WordBoundary))).

(** [int(s)].  The analyzer applies it only to what the pattern matched,
    a run of decimal digits; the model raises on any other text.  The
    digits are read as a decimal numeral, leading zeros included; a run
    of more digits than the limit is refused with a [ValueError] that
    tells its length. *)
Definition invalid_literal (s : string) : string :=
  "invalid literal for int() with base 10: " +++ py_repr s.

Definition py_int (s : string) : result Z :=
  match NilZero.uint_of_string s with
  | Some digits =>
      if Z.of_nat (String.length s) >? int_max_str_digits
      then Raise (ValueError (int_limit_message (Z.of_nat (String.length s))))
      else Ok (Z.of_uint digits)
  | None => Raise (ValueError (invalid_literal s))
  end.

(* ================================================================= *)
(** ** refactoring_analyzer.py *)

Module Refactoring.

Record opportunity : Type := {
  opp_type : string;
  description : string;
  priority : string;
  location_file : string;
  location_line : Z;
  suggestion : string;
  impact : string;
  example : string
}.

(** Lines 23-31; the span, a difference of line numbers, is printed
    with [decimal]. *)
Definition long_function (file_path name : string) (lines_count line : Z)
  : opportunity :=
  {| opp_type := "LONG_FUNCTION";
     description := "Function " +++ name +++ " is "
                    +++ decimal lines_count +++ " lines long";
     priority := "medium";
     location_file := file_path;
     location_line := line;
     suggestion := "Break this function into smaller, focused functions";
     impact := "Improves code maintainability and testability";
     example := "def process_data(data):" +++ nl
                +++ "    validate(data)" +++ nl
                +++ "    transform(data)" +++ nl
                +++ "    return data" +++ nl +++ nl
                +++ "def validate(data):" +++ nl
                +++ "    # validation logic" +++ nl +++ nl
                +++ "def transform(data):" +++ nl
                +++ "    # transform logic" |}.

(** Lines 35-43; the count, a length, is printed with [decimal]. *)
Definition long_parameter_list (file_path name : string) (params line : Z)
  : opportunity :=
  {| opp_type := "LONG_PARAMETER_LIST";
     description := "Function " +++ name +++ " has "
                    +++ decimal params +++ " parameters";
     priority := "medium";
     location_file := file_path;
     location_line := line;
     suggestion := "Use a parameter object or **kwargs";
     impact := "Makes function calls more readable";
     example := "def process(config, data, options):" +++ nl
                +++ "    # ..." +++ nl +++ nl
                +++ "# Instead:" +++ nl
                +++ "def process(params):" +++ nl
                +++ "    config = params['config']" +++ nl
                +++ "    data = params['data']" +++ nl
                +++ "    options = params['options']" |}.

(** Lines 49-57; the length is printed with [decimal]. *)
Definition long_line (file_path line : string) (i : Z) : opportunity :=
  {| opp_type := "LONG_LINE";
     description := "Line is " +++ decimal (Z.of_nat (String.length line))
                    +++ " characters - exceeds 100 char limit";
     priority := "low";
     location_file := file_path;
     location_line := i + 1;
     suggestion := "Break into multiple lines for better readability";
     impact := "Improves code readability and maintainability";
     example := "result = some_very_long_function_call(" +++ nl
                +++ "    with_many_parameters," +++ nl
                +++ "    and_more_parameters" +++ nl
                +++ ")" |}.

(** Lines 64-72; [num] is the text the f-strings print for [{num}]. *)
Definition magic_number (file_path num : string) (i : Z) : opportunity :=
  {| opp_type := "MAGIC_NUMBER";
     description := "Magic number " +++ num
                    +++ " found - should be named constant";
     priority := "low";
     location_file := file_path;
     location_line := i + 1;
     suggestion := "Extract to a named constant";
     impact := "Makes code more maintainable and self-documenting";
     example := "MAX_RETRIES = " +++ num +++ nl
                +++ "# Instead of using " +++ num +++ " directly" |}.

(** Lines 18-43: the body of [for node in ast.walk(tree)]. *)
Definition visit (file_path : string) (opportunities : list opportunity)
  (node : ast) : result (list opportunity) :=
  if isinstance node "FunctionDef" then
    after_length <-
      match end_lineno node with
      | Some last =>
          if last =? 0 then Ok opportunities
          else
            first <- node_lineno node ;;
            let lines_count := last - first in
            if lines_count >? 30 then
              name <- getattr_str node "name" ;;
              Ok (opportunities
                  ++ [long_function file_path name lines_count first])
            else Ok opportunities
      | None => Ok opportunities
      end ;;
    params <- len_args_args node ;;
    if params >? 5 then
      name <- getattr_str node "name" ;;
      line <- node_lineno node ;;
      Ok (after_length ++ [long_parameter_list file_path name params line])
    else Ok after_length
  else Ok opportunities.

(** Line 48 and line 61: [line.strip().startswith('#')]. *)
Definition is_comment (line : string) : bool := startswith (strip line) "#".

(** Line 63: [[0, 1, -1, 2, 10, 100, 1000]]. *)
Definition allow_list : list Z := [0; 1; -1; 2; 10; 100; 1000].

Definition member (x : Z) (l : list Z) : bool := existsb (Z.eqb x) l.

(** Lines 46-72: the body of [for i, line in enumerate(lines)].  Line
    62 can raise: [int] refuses a match of more than 4300 digits.  The
    three [{num}] of lines 66 and 71 print the same number; the model
    prints it once. *)
Definition visit_line (file_path : string)
  (opportunities : list opportunity) (numbered : Z * string)
  : result (list opportunity) :=
  let '(i, line) := numbered in
  let after_length :=
    if (Z.of_nat (String.length line) >? 100) && negb (is_comment line)
    then opportunities ++ [long_line file_path line i]
    else opportunities in
  match re_search magic_pattern line with
  | Some matched =>
      if negb (is_comment line) then
        num <- py_int matched ;;
        if negb (member num allow_list) then
          shown <- str_int num ;;
          Ok (after_length ++ [magic_number file_path shown i])
        else Ok after_length
      else Ok after_length
  | None => Ok after_length
  end.

Definition type_in (types : list string) (o : opportunity) : bool :=
  existsb (String.eqb (opp_type o)) types.

(** Lines 75-81. *)
Definition filter_focus (focus_area : string)
  (opportunities : list opportunity) : list opportunity :=
  if negb (String.eqb focus_area "all") then
    if String.eqb focus_area "performance" then
      filter (type_in ["LONG_FUNCTION"]) opportunities
    else if String.eqb focus_area "maintainability" then
      filter (type_in ["LONG_FUNCTION"; "LONG_PARAMETER_LIST"; "MAGIC_NUMBER"])
             opportunities
    else if String.eqb focus_area "readability" then
      filter (type_in ["LONG_LINE"; "MAGIC_NUMBER"]) opportunities
    else opportunities
  else opportunities.

(** Lines 12-72: everything found, before the focus filter. *)
Definition detect (file_path : string) (lines : list string) (tree : ast)
  : result (list opportunity) :=
  found <- foldM (visit file_path) (walk tree) [] ;;
  foldM (visit_line file_path) (enumerate lines) found.

Definition json_of_opportunity (o : opportunity) : json :=
  JObj [ ("type", JStr (opp_type o));
         ("description", JStr (description o));
         ("priority", JStr (priority o));
         ("location", JObj [ ("file", JStr (location_file o));
                             ("line", JInt (location_line o)) ]);
         ("suggestion", JStr (suggestion o));
         ("impact", JStr (impact o));
         ("example", JStr (example o)) ].

Definition with_priority (p : string) (l : list opportunity)
  : list opportunity :=
  filter (fun o => String.eqb (priority o) p) l.

(** Lines 83-92. *)
Definition report (focus_area : string) (opportunities : list opportunity)
  : json :=
  JObj [ ("opportunities", JList (map json_of_opportunity opportunities));
         ("totalOpportunities", JInt (len opportunities));
         ("priorityBreakdown",
          JObj [ ("high", JInt (len (with_priority "high" opportunities)));
                 ("medium", JInt (len (with_priority "medium" opportunities)));
                 ("low", JInt (len (with_priority "low" opportunities))) ]);
         ("focusArea", JStr focus_area) ].

(** Lines 96-102. *)
Definition error_report (focus_area : string) (e : exn) : json :=
  JObj [ ("error", JStr (str_exn e));
         ("opportunities", JList []);
         ("totalOpportunities", JInt 0);
         ("priorityBreakdown",
          JObj [ ("high", JInt 0); ("medium", JInt 0); ("low", JInt 0) ]);
         ("focusArea", JStr focus_area) ].

(** The opportunity list the report is built from, or the exception
    the [except] branch catches. *)
Definition opportunities_of (E : env) (file_path focus_area : string)
  : result (list opportunity) :=
  content <- open_read E file_path ;;
  let lines := split_lines content in
  tree <- ast_parse E content file_path ;;
  found <- detect file_path lines tree ;;
  Ok (filter_focus focus_area found).

Definition analyze_file (E : env) (file_path focus_area : string) : json :=
  match opportunities_of E file_path focus_area with
  | Ok opportunities => report focus_area opportunities
  | Raise e => error_report focus_area e
  end.

End Refactoring.

(* ================================================================= *)
(** ** What [ast.parse] guarantees *)

(** The part of Python's abstract grammar the analyzers rely on, as a
    check on one node. *)

Definition attr_is (n : ast) (name : string) (p : value -> bool) : bool :=
  match assoc name (fields n) with
  | Some v => p v
  | None => false
  end.

Definition has_position (n : ast) : bool :=
  match lineno n with Some _ => true | None => false end.

Definition is_identifier (v : value) : bool :=
  match v with VConst (CStr _) => true | _ => false end.

Definition is_node (v : value) : bool :=
  match v with VNode _ => true | _ => false end.

Definition is_list (v : value) : bool :=
  match v with VList _ => true | _ => false end.

(** [FunctionDef(identifier name, arguments args, ...)] with a position;
    [arguments(arg* posonlyargs, arg* args, ...)]. *)
Definition grammar_FunctionDef (n : ast) : bool :=
  attr_is n "name" is_identifier && has_position n
  && attr_is n "args"
       (fun a => match a with
                 | VNode an => isinstance an "arguments" && attr_is an "args" is_list
                 | _ => false
                 end).

(** [AugAssign(expr target, operator op, expr value)] with a position. *)
Definition grammar_AugAssign (n : ast) : bool :=
  has_position n && attr_is n "op" is_node && attr_is n "value" is_node.

(** [BoolOp(boolop op, expr* values)]: [a and b], [a or b or c] have at
    least two operands. *)
Definition grammar_BoolOp (n : ast) : bool :=
  attr_is n "values"
    (fun v => match v with VList l => 2 <=? len l | _ => false end).

(** [ExceptHandler(expr? type, identifier? name, stmt* body)]: an
    [except] clause is followed by a block, and a block has at least one
    statement. *)
Definition grammar_ExceptHandler (h : value) : bool :=
  match h with
  | VNode hn =>
      isinstance hn "ExceptHandler"
      && attr_is hn "body"
           (fun b => match b with VList (_ :: _) => true | _ => false end)
  | _ => false
  end.

(** [Try(stmt* body, excepthandler* handlers, ...)]. *)
Definition grammar_Try (n : ast) : bool :=
  attr_is n "handlers"
    (fun v => match v with
              | VList hs => forallb grammar_ExceptHandler hs
              | _ => false
              end).

(** [Constant(constant value, string? kind)]. *)
Definition grammar_Constant (n : ast) : bool :=
  attr_is n "value" (fun v => match v with VConst _ => true | _ => false end).

(** Only a [Constant] holds a [str] in a field called [value]; in every
    other class that field is a node or [None]. *)
Definition grammar_value_field (n : ast) : bool :=
  match assoc "value" (fields n) with
  | Some (VConst (CStr _)) => isinstance n "Constant"
  | _ => true
  end.

Definition well_formed_node (n : ast) : bool :=
  implb (isinstance n "FunctionDef") (grammar_FunctionDef n)
  && implb (isinstance n "For" || isinstance n "While") (has_position n)
  && implb (isinstance n "AugAssign") (grammar_AugAssign n)
  && implb (isinstance n "BoolOp") (grammar_BoolOp n)
  && implb (isinstance n "Try") (grammar_Try n)
  && implb (isinstance n "Constant") (grammar_Constant n)
  && grammar_value_field n.

(** A tree [ast.parse] can return: every node of it follows the
    grammar. *)
Definition parsed (tree : ast) : bool := forallb well_formed_node (walk tree).

(* ================================================================= *)
(** ** Reading a tree back: the attributes as total functions *)

(** On a parsed tree the reads below never take their default. *)

Definition name_of (n : ast) : string :=
  match getattr_str n "name" with Ok s => s | Raise _ => EmptyString end.

Definition line_of (n : ast) : Z :=
  match lineno n with Some l => l | None => 0 end.

(** The list [node.args.args]: the parameters that are neither
    positional-only, nor keyword-only, nor [*args], nor [**kwargs]. *)
Definition plain_parameters (n : ast) : list value :=
  match getattr n "args" with
  | Ok (VNode a) =>
      match getattr a "args" with
      | Ok (VList l) => l
      | _ => []
      end
  | _ => []
  end.

Definition is_FunctionDef (n : ast) : bool := isinstance n "FunctionDef".

Definition is_loop (n : ast) : bool :=
  isinstance n "For" || isinstance n "While".

(** A literal string: a [Constant] whose value is a [str]. *)
Definition literal_string (v : value) : bool :=
  match v with
  | VNode c =>
      isinstance c "Constant" && attr_is c "value" is_identifier
  | _ => false
  end.

(** [target += "..."]: an augmented assignment with operator [Add] whose
    right-hand operand is a literal string. *)
Definition string_add_assign (n : ast) : bool :=
  isinstance n "AugAssign"
  && attr_is n "op" (fun op => isinstance_value op "Add")
  && attr_is n "value" literal_string.

(** The integer a [Constant] node holds, when it holds an [int] that is
    not a [bool]. *)
Definition int_literal (n : ast) : option Z :=
  if isinstance n "Constant" then
    match assoc "value" (fields n) with
    | Some (VConst (CInt z)) => Some z
    | _ => None
    end
  else None.

(* ================================================================= *)
(** ** Building trees: the node classes with their [_fields] *)

Module Build.

Definition nodes (l : list ast) : value := VList (map VNode l).

Definition optional (o : option ast) : value :=
  match o with Some n => VNode n | None => VConst CNone end.

Definition none : value := VConst CNone.

Definition at_line (line : Z) (c : string) (fs : list (string * value))
  : ast := AST c fs (Some line) (Some line).

Definition block (line last : Z) (c : string)
  (fs : list (string * value)) : ast := AST c fs (Some line) (Some last).

Definition marker (c : string) : ast := AST c [] None None.

Definition ctx_Load : ast := marker "Load".
Definition ctx_Store : ast := marker "Store".

Definition mkModule (body : list ast) : ast :=
  AST "Module" [("body", nodes body); ("type_ignores", VList [])] None None.

Definition mkName (line : Z) (id : string) (ctx : ast) : ast :=
  at_line line "Name" [("id", VConst (CStr id)); ("ctx", VNode ctx)].

Definition mkConstant (line : Z) (c : constant) : ast :=
  at_line line "Constant" [("value", VConst c); ("kind", none)].

Definition mkarg (line : Z) (name : string) : ast :=
  at_line line "arg"
    [("arg", VConst (CStr name)); ("annotation", none);
     ("type_comment", none)].

Definition mkarguments (posonlyargs args : list ast) (vararg : option ast)
  (kwonlyargs : list ast) (kwarg : option ast) : ast :=
  AST "arguments"
    [("posonlyargs", nodes posonlyargs); ("args", nodes args);
     ("vararg", optional vararg); ("kwonlyargs", nodes kwonlyargs);
     ("kw_defaults", VList (map (fun _ => none) kwonlyargs));
     ("kwarg", optional kwarg); ("defaults", VList [])] None None.

Definition mkFunctionDef (line last : Z) (name : string) (args : ast)
  (body : list ast) : ast :=
  block line last "FunctionDef"
    [("name", VConst (CStr name)); ("args", VNode args);
     ("body", nodes body); ("decorator_list", VList []);
     ("returns", none); ("type_comment", none)].

Definition mkClassDef (line last : Z) (name : string) (body : list ast)
  : ast :=
  block line last "ClassDef"
    [("name", VConst (CStr name)); ("bases", VList []);
     ("keywords", VList []); ("body", nodes body);
     ("decorator_list", VList [])].

Definition mkFor (line last : Z) (target iter : ast) (body : list ast)
  : ast :=
  block line last "For"
    [("target", VNode target); ("iter", VNode iter); ("body", nodes body);
     ("orelse", VList []); ("type_comment", none)].

Definition mkWhile (line last : Z) (test : ast) (body : list ast) : ast :=
  block line last "While"
    [("test", VNode test); ("body", nodes body); ("orelse", VList [])].

Definition mkIf (line last : Z) (test : ast) (body orelse : list ast)
  : ast :=
  block line last "If"
    [("test", VNode test); ("body", nodes body); ("orelse", nodes orelse)].

Definition mkTry (line last : Z) (body handlers : list ast) : ast :=
  block line last "Try"
    [("body", nodes body); ("handlers", nodes handlers);
     ("orelse", VList []); ("finalbody", VList [])].

Definition mkExceptHandler (line last : Z) (type : option ast)
  (body : list ast) : ast :=
  block line last "ExceptHandler"
    [("type", optional type); ("name", none); ("body", nodes body)].

Definition mkAssign (line : Z) (target value : ast) : ast :=
  at_line line "Assign"
    [("targets", nodes [target]); ("value", VNode value);
     ("type_comment", none)].

Definition mkAugAssign (line : Z) (target op value : ast) : ast :=
  at_line line "AugAssign"
    [("target", VNode target); ("op", VNode op); ("value", VNode value)].

Definition mkReturn (line : Z) (value : option ast) : ast :=
  at_line line "Return" [("value", optional value)].

Definition mkPass (line : Z) : ast := at_line line "Pass" [].

Definition mkExpr (line : Z) (value : ast) : ast :=
  at_line line "Expr" [("value", VNode value)].

Definition mkBoolOp (line : Z) (op : ast) (values : list ast) : ast :=
  at_line line "BoolOp" [("op", VNode op); ("values", nodes values)].

Definition mkBinOp (line : Z) (left op right : ast) : ast :=
  at_line line "BinOp"
    [("left", VNode left); ("op", VNode op); ("right", VNode right)].

Definition mkUnaryOp (line : Z) (op operand : ast) : ast :=
  at_line line "UnaryOp" [("op", VNode op); ("operand", VNode operand)].

Definition mkCompare (line : Z) (left op right : ast) : ast :=
  at_line line "Compare"
    [("left", VNode left); ("ops", nodes [op]);
     ("comparators", nodes [right])].

Definition mkCall (line : Z) (func : ast) (args : list ast) : ast :=
  at_line line "Call"
    [("func", VNode func); ("args", nodes args); ("keywords", VList [])].

Definition mkAttribute (line : Z) (value : ast) (attr : string) (ctx : ast)
  : ast :=
  at_line line "Attribute"
    [("value", VNode value); ("attr", VConst (CStr attr));
     ("ctx", VNode ctx)].

Definition mkList (line : Z) (elts : list ast) (ctx : ast) : ast :=
  at_line line "List" [("elts", nodes elts); ("ctx", VNode ctx)].

End Build.

(* ================================================================= *)
(** ** Sample programs *)

Module Samples.
Import Build.

Definition unlines (l : list string) : string :=
  fold_right (fun line rest => line +++ nl +++ rest) EmptyString l.

(** A loop inside a loop inside a function. *)
Definition nested_source : string :=
  unlines [ "def f(rows):";
            "    for row in rows:";
            "        for x in row:";
            "            pass" ].

Definition nested_tree : ast :=
  mkModule
    [ mkFunctionDef 1 4 "f" (mkarguments [] [mkarg 1 "rows"] None [] None)
        [ mkFor 2 4 (mkName 2 "row" ctx_Store) (mkName 2 "rows" ctx_Load)
            [ mkFor 3 4 (mkName 3 "x" ctx_Store) (mkName 3 "row" ctx_Load)
                [ mkPass 4 ] ] ] ].

(** Two loops side by side. *)
Definition siblings_source : string :=
  unlines [ "for a in xs:";
            "    pass";
            "while ys:";
            "    pass" ].

Definition siblings_tree : ast :=
  mkModule
    [ mkFor 1 2 (mkName 1 "a" ctx_Store) (mkName 1 "xs" ctx_Load) [ mkPass 2 ];
      mkWhile 3 4 (mkName 3 "ys" ctx_Load) [ mkPass 4 ] ].

(** A method declared above a module-level function. *)
Definition method_first_source : string :=
  unlines [ "class A:";
            "    def m(self):";
            "        pass";
            "def f():";
            "    pass" ].

Definition method_first_tree : ast :=
  mkModule
    [ mkClassDef 1 3 "A"
        [ mkFunctionDef 2 3 "m" (mkarguments [] [mkarg 2 "self"] None [] None)
            [ mkPass 3 ] ];
      mkFunctionDef 4 5 "f" (mkarguments [] [] None [] None) [ mkPass 5 ] ].

(** String building in nested loops. *)
Definition concat_source : string :=
  unlines [ "s = ''";
            "for row in rows:";
            "    s += '['";
            "    for x in row:";
            "        s += 'x'";
            "        n += 1" ].

Definition concat_tree : ast :=
  mkModule
    [ mkAssign 1 (mkName 1 "s" ctx_Store) (mkConstant 1 (CStr EmptyString));
      mkFor 2 6 (mkName 2 "row" ctx_Store) (mkName 2 "rows" ctx_Load)
        [ mkAugAssign 3 (mkName 3 "s" ctx_Store) (marker "Add")
            (mkConstant 3 (CStr "["));
          mkFor 4 6 (mkName 4 "x" ctx_Store) (mkName 4 "row" ctx_Load)
            [ mkAugAssign 5 (mkName 5 "s" ctx_Store) (marker "Add")
                (mkConstant 5 (CStr "x"));
              mkAugAssign 6 (mkName 6 "n" ctx_Store) (marker "Add")
                (mkConstant 6 (CInt 1)) ] ] ].

(** Nine parameters, two of them plain; and six plain parameters. *)
Definition parameters_source : string :=
  unlines [ "def many(a, b, /, c, d, *rest, e, f, g, **extra):";
            "    pass";
            "def six(a, b, c, d, e, f):";
            "    pass" ].

Definition parameters_tree : ast :=
  mkModule
    [ mkFunctionDef 1 2 "many"
        (mkarguments [mkarg 1 "a"; mkarg 1 "b"] [mkarg 1 "c"; mkarg 1 "d"]
           (Some (mkarg 1 "rest"))
           [mkarg 1 "e"; mkarg 1 "f"; mkarg 1 "g"]
           (Some (mkarg 1 "extra")))
        [ mkPass 2 ];
      mkFunctionDef 3 4 "six"
        (mkarguments []
           [mkarg 3 "a"; mkarg 3 "b"; mkarg 3 "c"; mkarg 3 "d"; mkarg 3 "e";
            mkarg 3 "f"] None [] None)
        [ mkPass 4 ] ].

(** A handler, and a condition with three operands. *)
Definition guarded_source : string :=
  unlines [ "def g(a, b, c):";
            "    try:";
            "        if a and b and c:";
            "            return 1";
            "    except ValueError:";
            "        pass";
            "    return 0" ].

Definition guarded_tree : ast :=
  mkModule
    [ mkFunctionDef 1 7 "g"
        (mkarguments [] [mkarg 1 "a"; mkarg 1 "b"; mkarg 1 "c"] None [] None)
        [ mkTry 2 6
            [ mkIf 3 4
                (mkBoolOp 3 (marker "And")
                   [mkName 3 "a" ctx_Load; mkName 3 "b" ctx_Load; mkName 3 "c" ctx_Load])
                [ mkReturn 4 (Some (mkConstant 4 (CInt 1))) ] [] ]
            [ mkExceptHandler 5 6 (Some (mkName 5 "ValueError" ctx_Load))
                [ mkPass 6 ] ];
          mkReturn 7 (Some (mkConstant 7 (CInt 0))) ] ].

(** A function without branching. *)
Definition straight_function : ast :=
  mkFunctionDef 1 2 "h" (mkarguments [] [mkarg 1 "x"] None [] None)
    [ mkReturn 2 (Some (mkName 2 "x" ctx_Load)) ].

Definition straight_tree : ast := mkModule [straight_function].

(** Lines 1-17 of [tests/fixtures/python/sample.py]: [calculate_total]
    and [process_data]. *)
Definition fixture_source : string :=
  unlines [ "def calculate_total(items):";
            "    total = 0";
            "    for item in items:";
            "        if item > 0:";
            "            total += item";
            "    return total";
            EmptyString;
            "def process_data(data, config, options, logger, cache):";
            "    if not data:";
            "        return None";
            "    ";
            "    result = []";
            "    for i in range(1000):  # Magic number";
            "        if i % 2 == 0:";
            "            result.append(i * 2)";
            "    ";
            "    return result" ].

Definition calculate_total : ast :=
  mkFunctionDef 1 6 "calculate_total"
    (mkarguments [] [mkarg 1 "items"] None [] None)
    [ mkAssign 2 (mkName 2 "total" ctx_Store) (mkConstant 2 (CInt 0));
      mkFor 3 5 (mkName 3 "item" ctx_Store) (mkName 3 "items" ctx_Load)
        [ mkIf 4 5
            (mkCompare 4 (mkName 4 "item" ctx_Load) (marker "Gt")
               (mkConstant 4 (CInt 0)))
            [ mkAugAssign 5 (mkName 5 "total" ctx_Store) (marker "Add")
                (mkName 5 "item" ctx_Load) ] [] ];
      mkReturn 6 (Some (mkName 6 "total" ctx_Load)) ].

Definition process_data : ast :=
  mkFunctionDef 8 17 "process_data"
    (mkarguments []
       [mkarg 8 "data"; mkarg 8 "config"; mkarg 8 "options";
        mkarg 8 "logger"; mkarg 8 "cache"] None [] None)
    [ mkIf 9 10 (mkUnaryOp 9 (marker "Not") (mkName 9 "data" ctx_Load))
        [ mkReturn 10 (Some (mkConstant 10 CNone)) ] [];
      mkAssign 12 (mkName 12 "result" ctx_Store) (mkList 12 [] ctx_Load);
      mkFor 13 15 (mkName 13 "i" ctx_Store)
        (mkCall 13 (mkName 13 "range" ctx_Load) [mkConstant 13 (CInt 1000)])
        [ mkIf 14 15
            (mkCompare 14
               (mkBinOp 14 (mkName 14 "i" ctx_Load) (marker "Mod")
                  (mkConstant 14 (CInt 2)))
               (marker "Eq") (mkConstant 14 (CInt 0)))
            [ mkExpr 15
                (mkCall 15
                   (mkAttribute 15 (mkName 15 "result" ctx_Load) "append" ctx_Load)
                   [mkBinOp 15 (mkName 15 "i" ctx_Load) (marker "Mult")
                      (mkConstant 15 (CInt 2))]) ] [] ];
      mkReturn 17 (Some (mkName 17 "result" ctx_Load)) ].

Definition fixture_tree : ast := mkModule [calculate_total; process_data].

(** A comment line of 112 characters, a statement of 101 and one of
    100. *)
Fixpoint repeat_char (n : nat) (c : ascii) : string :=
  match n with
  | O => EmptyString
  | S n' => String c (repeat_char n' c)
  end.

Definition widths_source : string :=
  unlines [ "# " +++ repeat_char 110 "c";
            "y = '" +++ repeat_char 95 "a" +++ "'";
            "z = '" +++ repeat_char 94 "a" +++ "'" ].

Definition widths_tree : ast :=
  mkModule
    [ mkAssign 2 (mkName 2 "y" ctx_Store)
        (mkConstant 2 (CStr (repeat_char 95 "a")));
      mkAssign 3 (mkName 3 "z" ctx_Store)
        (mkConstant 3 (CStr (repeat_char 94 "a"))) ].

(** A line with a number outside the allow-list and lines with
    numbers inside it. *)
Definition numbers_source : string :=
  unlines [ "size = 4096";
            "limit = 1000";
            "step = 100" ].

Definition numbers_tree : ast :=
  mkModule
    [ mkAssign 1 (mkName 1 "size" ctx_Store) (mkConstant 1 (CInt 4096));
      mkAssign 2 (mkName 2 "limit" ctx_Store) (mkConstant 2 (CInt 1000));
      mkAssign 3 (mkName 3 "step" ctx_Store) (mkConstant 3 (CInt 100)) ].

(** A function of 60 lines and one of 41. *)
Definition passes (first : Z) (count : nat) : list ast :=
  map (fun i => mkPass (first + Z.of_nat i)) (seq 0 count).

Definition lengths_source : string :=
  unlines ("def long():" :: repeat "    pass" 59
           ++ "def medium():" :: repeat "    pass" 40).

Definition lengths_tree : ast :=
  mkModule
    [ mkFunctionDef 1 60 "long" (mkarguments [] [] None [] None)
        (passes 2 59);
      mkFunctionDef 61 101 "medium" (mkarguments [] [] None [] None)
        (passes 62 40) ].

(** A function above a hexadecimal literal of 3600 digits, which is a
    number of 4335 decimal digits. *)
Definition huge_literal_source : string :=
  unlines [ "def f():";
            "    pass";
            "x = 0x" +++ repeat_char 3600 "f" ].

Definition huge_literal_tree : ast :=
  mkModule
    [ mkFunctionDef 1 2 "f" (mkarguments [] [] None [] None) [ mkPass 2 ];
      mkAssign 3 (mkName 3 "x" ctx_Store)
        (mkConstant 3 (CInt (16 ^ 3600 - 1))) ].

(** A statement followed by a comment that holds a run of 4301
    digits. *)
Definition long_run_source : string :=
  unlines [ "x = 5 # " +++ repeat_char 4301 "1" ].

Definition long_run_tree : ast :=
  mkModule
    [ mkAssign 1 (mkName 1 "x" ctx_Store) (mkConstant 1 (CInt 5)) ].

(** Six parameters, all positional-only. *)
Definition positional_source : string :=
  unlines [ "def only(a, b, c, d, e, f, /):";
            "    pass" ].

Definition positional_tree : ast :=
  mkModule
    [ mkFunctionDef 1 2 "only"
        (mkarguments
           [mkarg 1 "a"; mkarg 1 "b"; mkarg 1 "c"; mkarg 1 "d"; mkarg 1 "e";
            mkarg 1 "f"] [] None [] None)
        [ mkPass 2 ] ].

(** An indented comment line of 114 characters, a statement of 101 and
    one of 100. *)
Definition margins_source : string :=
  unlines [ "    # " +++ repeat_char 108 "c";
            "y = '" +++ repeat_char 95 "a" +++ "'";
            "z = '" +++ repeat_char 94 "a" +++ "'" ].

Definition margins_tree : ast :=
  mkModule
    [ mkAssign 2 (mkName 2 "y" ctx_Store)
        (mkConstant 2 (CStr (repeat_char 95 "a")));
      mkAssign 3 (mkName 3 "z" ctx_Store)
        (mkConstant 3 (CStr (repeat_char 94 "a"))) ].

(** A function of 40 lines with six parameters, a number and a long
    line: one finding of each type. *)
Definition mixed_source : string :=
  unlines ("def big(a, b, c, d, e, f):" :: repeat "    pass" 39
           ++ [ "size = 4096";
                "y = '" +++ repeat_char 95 "a" +++ "'" ]).

Definition mixed_tree : ast :=
  mkModule
    [ mkFunctionDef 1 40 "big"
        (mkarguments []
           [mkarg 1 "a"; mkarg 1 "b"; mkarg 1 "c"; mkarg 1 "d"; mkarg 1 "e";
            mkarg 1 "f"] None [] None)
        (passes 2 39);
      mkAssign 41 (mkName 41 "size" ctx_Store) (mkConstant 41 (CInt 4096));
      mkAssign 42 (mkName 42 "y" ctx_Store)
        (mkConstant 42 (CStr (repeat_char 95 "a"))) ].

(** An environment holding one file. *)
Definition one_file (path source : string) (tree : ast) : env :=
  {| open_read := fun p =>
       if String.eqb p path then Ok source
       else Raise (OSError 2 "No such file or directory" p);
     ast_parse := fun content filename =>
       if String.eqb content source then Ok tree
       else Raise (SyntaxError "invalid syntax" filename 1) |}.

(** An environment whose one file reads and does not parse. *)
Definition unparsable_file (path source : string) (line : Z) : env :=
  {| open_read := fun p =>
       if String.eqb p path then Ok source
       else Raise (OSError 2 "No such file or directory" p);
     ast_parse := fun content filename =>
       Raise (SyntaxError "invalid syntax" filename line) |}.

End Samples.

(* ================================================================= *)
(** ** Definitions used to state the results *)

(** The number of nodes in the subtrees of a queue: the pops [ast.walk]
    needs to empty it. *)
Definition total_size (q : list ast) : nat := List.length (flat_map preorder q).

(** What the performance walk records for a loop node, a function
    definition and a string concatenation. *)
Definition recorded_loop (n : ast) : Performance.loop_entry :=
  {| Performance.loop_type := if isinstance n "For" then "for" else "while";
     Performance.loop_depth := 1;
     Performance.loop_line := line_of n |}.

Definition recorded_function (n : ast) : Performance.function_entry :=
  {| Performance.fn_name := name_of n;
     Performance.fn_line := line_of n;
     Performance.fn_params := len (plain_parameters n) |}.

Definition recorded_issue (n : ast) : Performance.concat_issue :=
  {| Performance.issue_line := line_of n;
     Performance.issue_variable := "string_var" |}.

(** The findings of one loop: the string concatenations of its subtree,
    nested loops included, in the order the walk meets them. *)
Definition issues_in_loop (loop : ast) : list Performance.concat_issue :=
  map recorded_issue (filter string_add_assign (walk loop)).

(** Cyclomatic complexity in the specification's words: start at 1; one
    for each conditional, loop of either kind, context-manager block,
    try block and exception-handler clause in the subtree; N-1 for each
    boolean combination with N operands. *)
Definition is_branch (n : ast) : bool :=
  isinstance n "If" || isinstance n "For" || isinstance n "While"
  || isinstance n "With" || isinstance n "Try"
  || isinstance n "ExceptHandler".

Definition operands (n : ast) : Z :=
  match assoc "values" (fields n) with
  | Some (VList l) => len l
  | _ => 0
  end.

Definition decision_points (n : ast) : Z :=
  if is_branch n then 1
  else if isinstance n "BoolOp" then operands n - 1
  else 0.

Definition spec_cyclomatic (function : ast) : Z :=
  1 + sum (map decision_points (preorder function)).

(** What the quality walks record. *)
Definition measured_function (n : ast) : Quality.function_entry :=
  {| Quality.fn_name := name_of n;
     Quality.fn_line := line_of n;
     Quality.cyclomatic := spec_cyclomatic n;
     Quality.cognitive := Quality.calculate_cognitive_complexity n;
     Quality.nestingDepth := 0;
     Quality.decisionPoints := spec_cyclomatic n - 1 |}.

Definition has_long_parameter_list (n : ast) : bool :=
  is_FunctionDef n && (len (plain_parameters n) >? 5).

(** The parameters a caller can pass by position, [*args] apart: the
    positional-only ones, [node.args.posonlyargs], followed by
    [node.args.args]. *)
Definition positional_only_parameters (n : ast) : list value :=
  match getattr n "args" with
  | Ok (VNode a) =>
      match getattr a "posonlyargs" with
      | Ok (VList l) => l
      | _ => []
      end
  | _ => []
  end.

Definition positional_parameters (n : ast) : list value :=
  positional_only_parameters n ++ plain_parameters n.

(** The parameter-count claim as the specification words it: the
    reported count of each function is the number of its positional
    parameters. *)
Definition counts_positional_parameters (tree : ast)
  (st : Performance.state) : Prop :=
  map Performance.fn_params (Performance.functions st)
  = map (fun n => len (positional_parameters n))
        (filter is_FunctionDef (walk tree)).

Definition parameter_smell (n : ast) : Quality.smell :=
  {| Quality.smell_type := "LONG_PARAMETER_LIST";
     Quality.smell_line := line_of n;
     Quality.description :=
       "Function " +++ name_of n +++ " has "
       +++ decimal (len (plain_parameters n)) +++ " parameters";
     Quality.severity := "medium" |}.

(** [end_lineno - lineno] when [end_lineno] is set and not zero. *)
Definition line_span (n : ast) : option Z :=
  match end_lineno n with
  | Some last => if last =? 0 then None else Some (last - line_of n)
  | None => None
  end.

Definition span_exceeds (limit : Z) (n : ast) : bool :=
  is_FunctionDef n
  && match line_span n with Some lines => lines >? limit | None => false end.

Definition span_of (n : ast) : Z :=
  match line_span n with Some lines => lines | None => 0 end.

Definition method_smell (n : ast) : Quality.smell :=
  {| Quality.smell_type := "LONG_METHOD";
     Quality.smell_line := line_of n;
     Quality.description :=
       "Function " +++ name_of n +++ " is "
       +++ decimal (span_of n) +++ " lines long";
     Quality.severity := "medium" |}.

(** The quality analyzer's test on a literal: an [int] above 10. *)
Definition is_magic (n : ast) : bool :=
  match int_literal n with Some z => z >? 10 | None => false end.

Definition magic_value (n : ast) : Z :=
  match int_literal n with Some z => z | None => 0 end.

Definition magic_smell_of (line value : Z) : Quality.smell :=
  {| Quality.smell_type := "MAGIC_NUMBER";
     Quality.smell_line := line;
     Quality.description := "Magic number: " +++ decimal value;
     Quality.severity := "low" |}.

Definition magic_smell (n : ast) : Quality.smell :=
  magic_smell_of (line_of n) (magic_value n).

(** The magic-number pattern consumes decimal digits only, so [int]
    accepts what it matched.  [matched_so_far subject rest n]: the
    matcher stands [n] characters into [subject], all of them digits,
    with [rest] ahead. *)
Fixpoint all_digits (s : string) : bool :=
  match s with
  | EmptyString => true
  | String a rest => isdigit a && all_digits rest
  end.

Definition matched_so_far (subject rest : string) (n : nat) : Prop :=
  exists pre,
    subject = pre +++ rest /\ String.length pre = n /\ all_digits pre = true.

Definition digit_class (c : charclass) : bool :=
  match c with
  | Digit => true
  | Range lo hi => (48 <=? lo) && (hi <=? 57)
  end.

Fixpoint digits_only (r : regex) : bool :=
  match r with
  | WordBoundary => true
  | Class c => digit_class c
  | AtLeast _ c => digit_class c
  | Seq r1 r2 => digits_only r1 && digits_only r2
  | Alt r1 r2 => digits_only r1 && digits_only r2
  end.

Fixpoint min_length (r : regex) : nat :=
  match r with
  | WordBoundary => 0
  | Class _ => 1
  | AtLeast min _ => min
  | Seq r1 r2 => min_length r1 + min_length r2
  | Alt r1 r2 => Nat.min (min_length r1) (min_length r2)
  end.

(** [int(s)] as a number. *)
Definition int_value (s : string) : Z :=
  match py_int s with Ok z => z | Raise _ => 0 end.

(** An integer [str] can print: its numeral has no more digits than the
    limit. *)
Definition within_limit (z : Z) : bool :=
  digit_count z <=? int_max_str_digits.

(** The quality analyzer prints the integer literals above 10; they can
    all be printed when none of them is beyond the limit. *)
Definition literal_within_limit (n : ast) : bool :=
  implb (is_magic n) (within_limit (magic_value n)).

Definition literals_within_limit (tree : ast) : bool :=
  forallb literal_within_limit (walk tree).

(** The text line 62 hands to [int]: what the pattern matched, on a
    line that is not a comment line. *)
Definition digit_run (line : string) : option string :=
  if Refactoring.is_comment line then None
  else re_search magic_pattern line.

Definition run_too_long (line : string) : bool :=
  match digit_run line with
  | Some matched => Z.of_nat (String.length matched) >? int_max_str_digits
  | None => false
  end.

(** The first digit run [int] refuses, going down the lines. *)
Definition first_long_run (lines : list string) : option string :=
  match find run_too_long lines with
  | Some line => digit_run line
  | None => None
  end.

Definition digit_runs_within_limit (content : string) : bool :=
  forallb (fun line => negb (run_too_long line)) (split_lines content).

(** What the refactoring analyzer finds at one node and on one line. *)
Definition tree_opportunities (file_path : string) (n : ast)
  : list Refactoring.opportunity :=
  (if span_exceeds 30 n
   then [Refactoring.long_function file_path (name_of n) (span_of n) (line_of n)]
   else [])
  ++ (if has_long_parameter_list n
      then [Refactoring.long_parameter_list file_path (name_of n)
              (len (plain_parameters n)) (line_of n)]
      else []).

(** Line 48: longer than 100 characters and not a comment line. *)
Definition flags_long_line (line : string) : bool :=
  (Z.of_nat (String.length line) >? 100) && negb (Refactoring.is_comment line).

(** Lines 60-63: the number the line is reported for, if any. *)
Definition flagged_number (line : string) : option Z :=
  match re_search magic_pattern line with
  | Some matched =>
      if negb (Refactoring.is_comment line)
         && negb (Refactoring.member (int_value matched) Refactoring.allow_list)
      then Some (int_value matched)
      else None
  | None => None
  end.

Definition line_opportunities (file_path : string) (numbered : Z * string)
  : list Refactoring.opportunity :=
  (if flags_long_line (snd numbered)
   then [Refactoring.long_line file_path (snd numbered) (fst numbered)]
   else [])
  ++ match flagged_number (snd numbered) with
     | Some num =>
         [Refactoring.magic_number file_path (decimal num) (fst numbered)]
     | None => []
     end.

(** The nodes of a subtree that add to the complexity. *)
Definition deciding (n : ast) : bool := is_branch n || isinstance n "BoolOp".

(** The claim on [mostComplexFunction] as the specification words it:
    a function of highest complexity and, among those, of lowest
    declaration line; null without functions. *)
Definition lowest_line_among_most_complex
  (functions : list Quality.function_entry) (reported : option string) : Prop :=
  match functions with
  | [] => reported = None
  | _ =>
      exists f,
        In f functions /\ reported = Some (Quality.fn_name f)
        /\ (forall g, In g functions ->
              Quality.cyclomatic g <= Quality.cyclomatic f)
        /\ (forall g, In g functions ->
              Quality.cyclomatic g = Quality.cyclomatic f ->
              Quality.fn_line f <= Quality.fn_line g)
  end.

(** What the code does: the first function, in the order of the list,
    whose complexity no other exceeds. *)
Definition first_among_most_complex
  (functions : list Quality.function_entry) (reported : option string) : Prop :=
  match functions with
  | [] => reported = None
  | _ =>
      exists before f after,
        functions = before ++ f :: after
        /\ reported = Some (Quality.fn_name f)
        /\ Forall (fun g => Quality.cyclomatic g < Quality.cyclomatic f) before
        /\ Forall (fun g => Quality.cyclomatic g <= Quality.cyclomatic f) after
  end.

(** An opportunity whose type is one of [types]. *)
Definition has_type (types : list string) (o : Refactoring.opportunity)
  : bool :=
  if in_dec string_dec (Refactoring.opp_type o) types then true else false.

(** The focus areas in the specification's words: the opportunity types
    each area keeps; [None] for ["all"] and for any other value. *)
Definition focus_types (focus_area : string) : option (list string) :=
  if String.eqb focus_area "performance" then Some ["LONG_FUNCTION"]
  else if String.eqb focus_area "maintainability" then
    Some ["LONG_FUNCTION"; "LONG_PARAMETER_LIST"; "MAGIC_NUMBER"]
  else if String.eqb focus_area "readability" then
    Some ["LONG_LINE"; "MAGIC_NUMBER"]
  else None.

Definition restrict_to_focus (focus_area : string)
  (every : list Refactoring.opportunity) : list Refactoring.opportunity :=
  match focus_types focus_area with
  | Some types => filter (Refactoring.type_in types) every
  | None => every
  end.

(** The specification's comment line: the first character of the line
    that is not whitespace is the comment marker. *)
Fixpoint first_visible (line : string) : option ascii :=
  match line with
  | EmptyString => None
  | String c rest => if isspace c then first_visible rest else Some c
  end.

Definition comment_line (line : string) : bool :=
  match first_visible line with
  | Some c => Ascii.eqb c "#"
  | None => false
  end.

(** The focus areas whose report shows long lines. *)
Definition keeps_long_lines (focus_area : string) : bool :=
  match focus_types focus_area with
  | Some types => existsb (String.eqb "LONG_LINE") types
  | None => true
  end.

(** The opportunity list a refactoring report is built from; empty when
    the run ends in the [except] branch. *)
Definition refactoring_found (E : env) (path focus_area : string)
  : list Refactoring.opportunity :=
  match Refactoring.opportunities_of E path focus_area with
  | Ok found => found
  | Raise _ => []
  end.

(** The report of a run shows a long line at line [number]. *)
Definition reports_long_line (E : env) (path focus_area : string)
  (number : Z) : Prop :=
  exists o,
    In o (refactoring_found E path focus_area)
    /\ Refactoring.opp_type o = "LONG_LINE"
    /\ Refactoring.location_line o = number.

(** The long-line claim as the specification words it: a line that is
    not a comment line is reported exactly when it is longer than 100
    characters. *)
Definition long_lines_reported (E : env) (path focus_area content : string)
  : Prop :=
  forall i line,
    nth_error (split_lines content) i = Some line ->
    comment_line line = false ->
    reports_long_line E path focus_area (Z.of_nat i + 1)
    <-> (100 < String.length line)%nat.

(** The magic-number findings of the two reports; none when the run
    ends in the [except] branch. *)
Definition quality_magic_numbers (E : env) (path : string)
  : list Quality.smell :=
  match Quality.findings E path with
  | Ok (_, sm) => Quality.magicNumbers sm
  | Raise _ => []
  end.

Definition refactoring_magic_numbers (E : env) (path focus_area : string)
  : list Refactoring.opportunity :=
  match Refactoring.opportunities_of E path focus_area with
  | Ok found => filter (Refactoring.type_in ["MAGIC_NUMBER"]) found
  | Raise _ => []
  end.

(** A report shows the value [v] as a magic number. *)
Definition quality_reports (v : Z) (E : env) (path : string) : Prop :=
  exists s,
    In s (quality_magic_numbers E path)
    /\ Quality.description s = "Magic number: " +++ decimal v.

Definition refactoring_reports (v : Z) (E : env) (path focus_area : string)
  : Prop :=
  exists o,
    In o (refactoring_magic_numbers E path focus_area)
    /\ Refactoring.description o
       = "Magic number " +++ decimal v +++ " found - should be named constant".

(** The allow-list claim as the specification words it. *)
Definition allow_list_in_both_reports (E : env) (path focus_area : string)
  : Prop :=
  forall v, In v [0; 1; 2; 10; 100; 1000] ->
    ~ quality_reports v E path /\ ~ refactoring_reports v E path focus_area.

(** A magic-number finding of the quality analyzer is an integer
    literal above 10. *)
Definition above_10 (s : Quality.smell) : Prop :=
  exists line z, s = magic_smell_of line z /\ 10 < z.

(** A magic-number finding of the refactoring analyzer carries a
    number outside the allow-list. *)
Definition outside_allow_list (path : string) (o : Refactoring.opportunity)
  : Prop :=
  Refactoring.type_in ["MAGIC_NUMBER"] o = true ->
  exists num i,
    o = Refactoring.magic_number path (decimal num) i
    /\ ~ In num Refactoring.allow_list.

(** The schema of a document: which keys it has, and under each key an
    object, a collection or a scalar. *)
Inductive shape : Type :=
| Scalar
| Collection
| Object (members : list (string * shape)).

Fixpoint shape_of (j : json) : shape :=
  match j with
  | JObj members =>
      Object ((fix each (ms : list (string * json)) : list (string * shape) :=
                 match ms with
                 | [] => []
                 | (k, v) :: ms' => (k, shape_of v) :: each ms'
                 end) members)
  | JList _ => Collection
  | _ => Scalar
  end.

(** The shape of a report with the [error] key put in front. *)
Definition with_error (s : shape) : shape :=
  match s with
  | Object members => Object (("error", Scalar) :: members)
  | _ => s
  end.

(** Every collection of the document is empty and every number in it is
    the integer zero. *)
Fixpoint defaults_only (j : json) : bool :=
  match j with
  | JNull => true
  | JInt z => z =? 0
  | JDiv _ _ => false
  | JStr _ => true
  | JList l => match l with [] => true | _ :: _ => false end
  | JObj members =>
      (fix each (ms : list (string * json)) : bool :=
         match ms with
         | [] => true
         | (_, v) :: ms' => defaults_only v && each ms'
         end) members
  end.

Definition member_of (key : string) (j : json) : option json :=
  match j with
  | JObj members => assoc key members
  | _ => None
  end.

(** Reading the file raises [e], or reading succeeds and parsing raises
    [e]. *)
Definition fails_with (E : env) (path : string) (e : exn) : Prop :=
  open_read E path = Raise e
  \/ exists content,
       open_read E path = Ok content /\ ast_parse E content path = Raise e.

(** The keys of the three success reports, as the dictionaries of
    lines 50-54, 91-110 and 83-92 lay them out. *)
Definition performance_schema : shape :=
  Object [ ("loops", Collection); ("functions", Collection);
           ("stringConcatIssues", Collection) ].

Definition quality_schema : shape :=
  Object [
    ("complexity", Object [
       ("functions", Collection); ("totalFunctions", Scalar);
       ("averageComplexity", Scalar); ("maxComplexity", Scalar);
       ("averageCognitive", Scalar); ("totalDecisionPoints", Scalar);
       ("mostComplexFunction", Scalar) ]);
    ("smells", Object [
       ("godObjects", Collection); ("longParameterLists", Collection);
       ("longMethods", Collection); ("magicNumbers", Collection);
       ("emptyCatches", Collection);
       ("classMetrics", Object [ ("total", Scalar); ("large", Scalar) ]);
       ("functionMetrics", Object [ ("total", Scalar); ("long", Scalar) ]) ]) ].

Definition refactoring_schema : shape :=
  Object [ ("opportunities", Collection); ("totalOpportunities", Scalar);
           ("priorityBreakdown",
            Object [ ("high", Scalar); ("medium", Scalar); ("low", Scalar) ]);
           ("focusArea", Scalar) ].

(** The first alternative of the magic-number pattern, [\b\d{3,}\b]. *)
Definition magic_first_alternative : regex :=
  Seq WordBoundary (Seq (AtLeast 3 Digit) WordBoundary).

(** The findings of the walk over the tree, and those of the pass over
    the lines. *)
Definition tree_kind (path : string) (o : Refactoring.opportunity) : Prop :=
  (exists name lines_count line,
     o = Refactoring.long_function path name lines_count line)
  \/ (exists name params line,
        o = Refactoring.long_parameter_list path name params line).

Definition is_tree_type (o : Refactoring.opportunity) : bool :=
  Refactoring.type_in ["LONG_FUNCTION"; "LONG_PARAMETER_LIST"] o.

Definition is_line_type (o : Refactoring.opportunity) : bool :=
  Refactoring.type_in ["LONG_LINE"; "MAGIC_NUMBER"] o.

(** The smells a quality report is built from; none when the run ends
    in the [except] branch. *)
Definition quality_smells (E : env) (path : string) : Quality.smells :=
  match Quality.findings E path with
  | Ok (_, sm) => sm
  | Raise _ => Quality.no_smells
  end.

(** [doc[outer][inner]]. *)
Definition member_in (outer inner : string) (doc : json) : option json :=
  match member_of outer doc with
  | Some object => member_of inner object
  | None => None
  end.

(** The function entries a quality report is built from; none when the
    run ends in the [except] branch. *)
Definition quality_functions (E : env) (path : string)
  : list Quality.function_entry :=
  match Quality.findings E path with
  | Ok (functions, _) => functions
  | Raise _ => []
  end.

(** What every function entry satisfies. *)
Definition consistent_entry (f : Quality.function_entry) : Prop :=
  Quality.decisionPoints f = Quality.cyclomatic f - 1
  /\ Quality.nestingDepth f = 0
  /\ 0 <= Quality.cognitive f <= Quality.decisionPoints f.

(** ['\n'.join(lines)], the inverse of [content.split('\n')]. *)
Fixpoint join_lines (lines : list string) : string :=
  match lines with
  | [] => EmptyString
  | line :: rest =>
      match rest with
      | [] => line
      | _ :: _ => line +++ nl +++ join_lines rest
      end
  end.

(** A text of whitespace only; the first and the last character of a
    text; a character, if there is one, that is not whitespace. *)
Definition whitespace (s : string) : bool :=
  forallb isspace (list_ascii_of_string s).

Definition first_char (s : string) : option ascii :=
  match s with
  | String c _ => Some c
  | EmptyString => None
  end.

Fixpoint last_char (s : string) : option ascii :=
  match s with
  | EmptyString => None
  | String c rest =>
      match last_char rest with
      | Some d => Some d
      | None => Some c
      end
  end.

Definition visible (c : option ascii) : bool :=
  match c with
  | Some a => negb (isspace a)
  | None => true
  end.

(** [s.count(c)]. *)
Fixpoint count_char (c : ascii) (s : string) : nat :=
  match s with
  | EmptyString => 0%nat
  | String a rest =>
      ((if Ascii.eqb a c then 1 else 0) + count_char c rest)%nat
  end.

(* ================================================================= *)
(** * Properties *)

(** ** The traversal *)

Lemma preorder_children (n : ast) :
  preorder n = n :: flat_map preorder (iter_child_nodes n).
Proof.
  destruct n as [c fs l e]. unfold iter_child_nodes. simpl. f_equal.
  induction fs as [|[k v] fs IH]; simpl; [reflexivity|].
  rewrite flat_map_app, <- IH. f_equal.
  destruct v as [child|items|k']; simpl.
  - now rewrite app_nil_r.
  - induction items as [|item items IHitems]; simpl; [reflexivity|].
    destruct item; simpl; rewrite ?app_nil_r, IHitems; reflexivity.
  - reflexivity.
Qed.

Lemma total_size_cons n q :
  total_size (n :: q) = S (total_size (q ++ iter_child_nodes n)).
Proof.
  unfold total_size. simpl. rewrite preorder_children. simpl.
  rewrite flat_map_app, !length_app. lia.
Qed.

Lemma walk_queue_Permutation (fuel : nat) (q : list ast) :
  (total_size q <= fuel)%nat ->
  Permutation (walk_queue fuel q) (flat_map preorder q).
Proof.
  revert q. induction fuel as [|fuel IH]; intros q Hq.
  - destruct q as [|n q]; [constructor|].
    rewrite total_size_cons in Hq. lia.
  - destruct q as [|n q]; [constructor|]. simpl.
    rewrite total_size_cons in Hq.
    rewrite (preorder_children n). simpl. constructor.
    rewrite IH by lia. rewrite flat_map_app. apply Permutation_app_comm.
Qed.

Lemma walk_Permutation (n : ast) : Permutation (walk n) (preorder n).
Proof.
  unfold walk. rewrite walk_queue_Permutation.
  - simpl. now rewrite app_nil_r.
  - unfold total_size, size. simpl. rewrite app_nil_r. lia.
Qed.

Lemma in_walk_preorder n m : In m (walk n) <-> In m (preorder n).
Proof.
  split; apply Permutation_in; [|symmetry]; apply walk_Permutation.
Qed.

Lemma walk_root (n : ast) : exists rest, walk n = n :: rest.
Proof.
  unfold walk, size. rewrite preorder_children. simpl. eauto.
Qed.

Lemma preorder_subtree (fuel : nat) : forall t n,
  (size t <= fuel)%nat -> In n (preorder t) -> incl (preorder n) (preorder t).
Proof.
  induction fuel as [|fuel IH]; intros t n Hsize Hin.
  - unfold size in Hsize. rewrite preorder_children in Hsize. simpl in Hsize. lia.
  - rewrite preorder_children in Hin. destruct Hin as [->|Hin].
    + apply incl_refl.
    + apply in_flat_map in Hin. destruct Hin as [c [Hc Hn]].
      intros m Hm. rewrite preorder_children. right.
      apply in_flat_map. exists c. split; [assumption|].
      apply (IH c n); [|assumption|assumption].
      unfold size in *. rewrite (preorder_children t) in Hsize. simpl in Hsize.
      assert (List.length (preorder c)
              <= List.length (flat_map preorder (iter_child_nodes t)))%nat.
      { clear -Hc. induction (iter_child_nodes t) as [|x l IHl]; [contradiction|].
        simpl. rewrite length_app. destruct Hc as [->|Hc]; [lia|].
        specialize (IHl Hc). lia. }
      lia.
Qed.

Lemma walk_subtree t n m : In n (walk t) -> In m (walk n) -> In m (walk t).
Proof.
  rewrite !in_walk_preorder. intros Hn Hm.
  exact (preorder_subtree (size t) t n (Nat.le_refl _) Hn m Hm).
Qed.

Lemma child_in_walk n c : In c (iter_child_nodes n) -> In c (walk n).
Proof.
  intros Hc. apply in_walk_preorder. rewrite preorder_children. right.
  apply in_flat_map. exists c. split; [assumption|].
  rewrite preorder_children. now left.
Qed.

Lemma field_node_child n name c :
  assoc name (fields n) = Some (VNode c) -> In c (iter_child_nodes n).
Proof.
  unfold iter_child_nodes. induction (fields n) as [|[k v] fs IH]; simpl; [discriminate|].
  destruct (String.eqb name k).
  - intros [= ->]. simpl. now left.
  - intros H. apply in_or_app. right. now apply IH.
Qed.

(** ** Parsed trees *)

Lemma parsed_node t n :
  parsed t = true -> In n (walk t) -> well_formed_node n = true.
Proof.
  unfold parsed. rewrite forallb_forall. auto.
Qed.

Lemma parsed_child t n c :
  parsed t = true -> In n (walk t) -> In c (iter_child_nodes n) ->
  well_formed_node c = true.
Proof.
  intros Ht Hn Hc. apply (parsed_node t); [assumption|].
  apply (walk_subtree t n); [assumption|]. now apply child_in_walk.
Qed.

(** Two different class names never hold of one node. *)
Ltac other_class H :=
  unfold is_loop, is_FunctionDef, isinstance in *;
  apply String.eqb_eq in H; rewrite H in *; simpl in *.

Lemma well_formed_parts n :
  well_formed_node n = true ->
  (isinstance n "FunctionDef" = true -> grammar_FunctionDef n = true) /\
  (is_loop n = true -> has_position n = true) /\
  (isinstance n "AugAssign" = true -> grammar_AugAssign n = true) /\
  (isinstance n "BoolOp" = true -> grammar_BoolOp n = true) /\
  (isinstance n "Try" = true -> grammar_Try n = true) /\
  (isinstance n "Constant" = true -> grammar_Constant n = true) /\
  grammar_value_field n = true.
Proof.
  unfold well_formed_node, is_loop. rewrite !andb_true_iff.
  intros [[[[[[H1 H2] H3] H4] H5] H6] H7].
  repeat split; try assumption; intros Hc; rewrite Hc in *; assumption.
Qed.

Lemma well_formed_FunctionDef n :
  well_formed_node n = true -> isinstance n "FunctionDef" = true ->
  exists name line, 
    getattr_str n "name" = Ok name /\ node_lineno n = Ok line /\
    len_args_args n = Ok (len (plain_parameters n)) /\
    name_of n = name /\ line_of n = line.
Proof.
  intros Hwf Hc. apply well_formed_parts in Hwf.
  destruct Hwf as (Hwf & _). specialize (Hwf Hc).
  unfold grammar_FunctionDef in Hwf.
  apply andb_true_iff in Hwf. destruct Hwf as [Hwf Hargs].
  apply andb_true_iff in Hwf. destruct Hwf as [Hname Hpos].
  unfold name_of, line_of, len_args_args, plain_parameters, getattr_str,
    getattr, node_lineno, attr_is, has_position in *.
  destruct (assoc "name" (fields n)) as [[| |[]]|]; try discriminate.
  destruct (lineno n); try discriminate.
  destruct (assoc "args" (fields n)) as [[a| |]|]; try discriminate.
  apply andb_true_iff in Hargs. destruct Hargs as [_ Hargs].
  simpl. unfold getattr. unfold is_list in Hargs.
  destruct (assoc "args" (fields a)) as [[|l|]|]; try discriminate.
  simpl. eauto 10.
Qed.

Lemma well_formed_loop n :
  well_formed_node n = true -> is_loop n = true ->
  node_lineno n = Ok (line_of n).
Proof.
  intros Hwf Hc. apply well_formed_parts in Hwf.
  destruct Hwf as (_ & Hwf & _). specialize (Hwf Hc).
  unfold has_position, node_lineno, line_of in *.
  destruct (lineno n); [reflexivity|discriminate].
Qed.

Lemma check_child_spec t c issues :
  parsed t = true -> In c (walk t) ->
  Performance.check_child issues c
  = Ok (issues ++ if string_add_assign c then [recorded_issue c] else []).
Proof.
  intros Ht Hc. pose proof (parsed_node t c Ht Hc) as Hwf.
  unfold Performance.check_child, string_add_assign.
  destruct (isinstance c "AugAssign") eqn:Hcls; simpl;
    [|now rewrite app_nil_r].
  apply well_formed_parts in Hwf.
  destruct Hwf as (_ & _ & Hwf3 & _). specialize (Hwf3 Hcls).
  unfold grammar_AugAssign in Hwf3.
  apply andb_true_iff in Hwf3. destruct Hwf3 as [Hwf3 Hvalue].
  apply andb_true_iff in Hwf3. destruct Hwf3 as [Hpos Hop].
  unfold attr_is, getattr, node_lineno, has_position in *.
  destruct (assoc "op" (fields c)) as [[op| |]|]; try discriminate. simpl.
  destruct (isinstance op "Add"); simpl; [|now rewrite app_nil_r].
  destruct (assoc "value" (fields c)) as [[v| |]|] eqn:Hv; try discriminate.
  simpl.
  pose proof (parsed_child t c v Ht Hc (field_node_child _ _ _ Hv)) as Hwfv.
  apply well_formed_parts in Hwfv.
  destruct Hwfv as (_ & _ & _ & _ & _ & _ & Hwf5).
  unfold grammar_value_field in Hwf5.
  unfold hasattr, getattr, attr_is, recorded_issue, line_of.
  destruct (assoc "value" (fields v)) as [inner|]; simpl;
    [|now rewrite andb_false_r, app_nil_r].
  destruct inner as [| |[]]; simpl; rewrite ?andb_false_r, ?app_nil_r;
    try reflexivity.
  rewrite Hwf5. simpl. destruct (lineno c); [reflexivity|discriminate].
Qed.

Lemma scan_spec t l : forall issues,
  parsed t = true -> incl l (walk t) ->
  foldM Performance.check_child l issues
  = Ok (issues ++ map recorded_issue (filter string_add_assign l)).
Proof.
  induction l as [|c l IH]; intros issues Ht Hl; simpl.
  - now rewrite app_nil_r.
  - rewrite (check_child_spec t) by (assumption || apply Hl; now left).
    simpl. rewrite IH by (assumption || (intros x Hx; apply Hl; now right)).
    destruct (string_add_assign c); simpl;
      now rewrite <- ?app_assoc, ?app_nil_r.
Qed.

Lemma visit_spec t l : forall st,
  parsed t = true -> incl l (walk t) -> Performance.loop_stack st = [] ->
  foldM Performance.visit l st
  = Ok {| Performance.loops :=
            Performance.loops st ++ map recorded_loop (filter is_loop l);
          Performance.functions :=
            Performance.functions st
            ++ map recorded_function (filter is_FunctionDef l);
          Performance.string_concat_issues :=
            Performance.string_concat_issues st
            ++ flat_map issues_in_loop (filter is_loop l);
          Performance.loop_stack := [] |}.
Proof.
  induction l as [|n l IH]; intros st Ht Hl Hstack; simpl.
  - rewrite !app_nil_r. destruct st; simpl in *; now subst.
  - assert (Hn : In n (walk t)) by (apply Hl; now left).
    assert (Hl' : incl l (walk t)) by (intros x Hx; apply Hl; now right).
    pose proof (parsed_node t n Ht Hn) as Hwf.
    unfold Performance.visit at 1.
    destruct (isinstance n "FunctionDef") eqn:Hfun.
    + destruct (well_formed_FunctionDef n Hwf Hfun)
        as [name [line [Hname [Hline [Hlen [Hname' Hline']]]]]].
      rewrite Hname, Hline, Hlen. simpl.
      rewrite IH by assumption. simpl.
      assert (Hloop : is_loop n = false) by (other_class Hfun; reflexivity).
      change (is_FunctionDef n) with (isinstance n "FunctionDef").
      rewrite Hloop, Hfun. simpl.
      unfold recorded_function at 2. rewrite Hname', Hline'.
      now rewrite <- app_assoc.
    + fold (is_loop n). destruct (is_loop n) eqn:Hloop.
      * rewrite (well_formed_loop n Hwf Hloop). simpl.
        rewrite (scan_spec t)
          by (assumption || intros x Hx; now apply (walk_subtree t n)).
        simpl.
        rewrite IH
          by (assumption || (simpl; rewrite removelast_last; assumption)).
        simpl. change (is_FunctionDef n) with (isinstance n "FunctionDef").
        rewrite Hfun. simpl.
        unfold recorded_loop at 2, issues_in_loop at 2.
        rewrite Hstack. simpl. now rewrite <- !app_assoc.
      * simpl. rewrite IH by assumption.
        change (is_FunctionDef n) with (isinstance n "FunctionDef").
        now rewrite Hfun.
Qed.

Theorem performance_collect_parsed t :
  parsed t = true ->
  Performance.collect t
  = Ok {| Performance.loops := map recorded_loop (filter is_loop (walk t));
          Performance.functions :=
            map recorded_function (filter is_FunctionDef (walk t));
          Performance.string_concat_issues :=
            flat_map issues_in_loop (filter is_loop (walk t));
          Performance.loop_stack := [] |}.
Proof.
  intros Ht. unfold Performance.collect.
  now rewrite (visit_spec t) by (assumption || apply incl_refl || reflexivity).
Qed.

(** ** Sums *)

Lemma fold_left_add_from (l : list Z) : forall a,
  fold_left Z.add l a = a + sum l.
Proof.
  unfold sum. induction l as [|x l IH]; intros a; simpl; [lia|].
  rewrite (IH (a + x)), (IH x). lia.
Qed.

Lemma sum_cons x l : sum (x :: l) = x + sum l.
Proof. unfold sum at 1. simpl. apply fold_left_add_from. Qed.

Lemma sum_Permutation l l' : Permutation l l' -> sum l = sum l'.
Proof.
  induction 1; rewrite ?sum_cons; lia.
Qed.

(** ** Printing integers *)

Lemma str_int_spec z :
  str_int z
  = if within_limit z then Ok (decimal z)
    else Raise (ValueError str_limit_message).
Proof.
  unfold str_int, within_limit. rewrite Z.gtb_ltb.
  destruct (Z.ltb_spec int_max_str_digits (digit_count z)),
    (Z.leb_spec (digit_count z) int_max_str_digits); try reflexivity; lia.
Qed.

(** ** The quality walks on a parsed tree *)

Lemma count_decision_spec n c :
  well_formed_node n = true ->
  Quality.count_decision c n = Ok (c + decision_points n).
Proof.
  intros Hwf. unfold Quality.count_decision, decision_points.
  fold (is_branch n). destruct (is_branch n); [reflexivity|].
  destruct (isinstance n "BoolOp") eqn:Hcls; [|f_equal; lia].
  apply well_formed_parts in Hwf. destruct Hwf as (_ & _ & _ & Hwf & _).
  specialize (Hwf Hcls). unfold grammar_BoolOp, attr_is in Hwf.
  unfold getattr, operands.
  destruct (assoc "values" (fields n)) as [[|l|]|]; try discriminate.
  simpl. fold (len l).
  apply Z.leb_le in Hwf.
  destruct (Z.gtb_spec (len l) 1); [reflexivity|lia].
Qed.

Lemma count_decisions_spec l : forall c,
  Forall (fun n => well_formed_node n = true) l ->
  foldM Quality.count_decision l c = Ok (c + sum (map decision_points l)).
Proof.
  induction l as [|n l IH]; intros c Hl; simpl.
  - f_equal. unfold sum. simpl. lia.
  - inversion Hl; subst. rewrite count_decision_spec by assumption. simpl.
    rewrite IH by assumption. rewrite sum_cons. f_equal. lia.
Qed.

Lemma subtree_well_formed t n :
  parsed t = true -> In n (walk t) ->
  Forall (fun m => well_formed_node m = true) (walk n).
Proof.
  intros Ht Hn. apply Forall_forall. intros m Hm.
  apply (parsed_node t); [assumption|]. now apply (walk_subtree t n).
Qed.

Lemma cyclomatic_parsed t n :
  parsed t = true -> In n (walk t) ->
  Quality.calculate_cyclomatic_complexity n = Ok (spec_cyclomatic n).
Proof.
  intros Ht Hn. unfold Quality.calculate_cyclomatic_complexity.
  rewrite count_decisions_spec by now apply (subtree_well_formed t).
  unfold spec_cyclomatic. do 2 f_equal.
  apply sum_Permutation, Permutation_map, walk_Permutation.
Qed.

Lemma visit_function_spec t l : forall functions,
  parsed t = true -> incl l (walk t) ->
  foldM Quality.visit_function l functions
  = Ok (functions ++ map measured_function (filter is_FunctionDef l)).
Proof.
  induction l as [|n l IH]; intros functions Ht Hl; simpl.
  - now rewrite app_nil_r.
  - assert (Hn : In n (walk t)) by (apply Hl; now left).
    assert (Hl' : incl l (walk t)) by (intros x Hx; apply Hl; now right).
    unfold Quality.visit_function at 1.
    change (is_FunctionDef n) with (isinstance n "FunctionDef").
    destruct (isinstance n "FunctionDef") eqn:Hfun; simpl.
    + destruct (well_formed_FunctionDef n (parsed_node t n Ht Hn) Hfun)
        as [name [line [Hname [Hline [_ [Hname' Hline']]]]]].
      rewrite (cyclomatic_parsed t) by assumption. simpl.
      rewrite Hname, Hline. simpl. rewrite IH by assumption.
      unfold measured_function at 2. rewrite Hname', Hline'.
      now rewrite <- app_assoc.
    + now apply IH.
Qed.

Lemma check_parameters_spec n sm :
  well_formed_node n = true -> isinstance n "FunctionDef" = true ->
  Quality.check_parameters sm n
  = Ok {| Quality.godObjects := Quality.godObjects sm;
          Quality.longParameterLists :=
            Quality.longParameterLists sm
            ++ (if has_long_parameter_list n then [parameter_smell n] else []);
          Quality.longMethods := Quality.longMethods sm;
          Quality.magicNumbers := Quality.magicNumbers sm;
          Quality.emptyCatches := Quality.emptyCatches sm |}.
Proof.
  intros Hwf Hfun.
  destruct (well_formed_FunctionDef n Hwf Hfun)
    as [name [line [Hname [Hline [Hlen [Hname' Hline']]]]]].
  unfold Quality.check_parameters, has_long_parameter_list, is_FunctionDef.
  rewrite Hlen, Hfun. simpl.
  destruct (len (plain_parameters n) >? 5).
  - rewrite Hline, Hname. simpl. unfold parameter_smell.
    now rewrite Hname', Hline'.
  - rewrite app_nil_r. now destruct sm.
Qed.

Lemma check_length_spec n sm :
  well_formed_node n = true -> isinstance n "FunctionDef" = true ->
  Quality.check_length sm n
  = Ok {| Quality.godObjects := Quality.godObjects sm;
          Quality.longParameterLists := Quality.longParameterLists sm;
          Quality.longMethods :=
            Quality.longMethods sm
            ++ (if span_exceeds 50 n then [method_smell n] else []);
          Quality.magicNumbers := Quality.magicNumbers sm;
          Quality.emptyCatches := Quality.emptyCatches sm |}.
Proof.
  intros Hwf Hfun.
  destruct (well_formed_FunctionDef n Hwf Hfun)
    as [name [line [Hname [Hline [_ [Hname' Hline']]]]]].
  unfold Quality.check_length, span_exceeds, method_smell, span_of, line_span,
    is_FunctionDef.
  rewrite Hfun. simpl.
  destruct (end_lineno n) as [last|]; [|rewrite app_nil_r; now destruct sm].
  destruct (last =? 0); [rewrite app_nil_r; now destruct sm|].
  rewrite Hline. simpl. rewrite Hline'.
  destruct (last - line >? 50); [|rewrite app_nil_r; now destruct sm].
  rewrite Hname. simpl. now rewrite Hname'.
Qed.

Lemma check_handlers_spec hs : forall sm,
  forallb grammar_ExceptHandler hs = true ->
  foldM Quality.check_handler hs sm = Ok sm.
Proof.
  induction hs as [|h hs IH]; intros sm Hhs; simpl; [reflexivity|].
  simpl in Hhs. apply andb_true_iff in Hhs. destruct Hhs as [Hh Hhs].
  unfold Quality.check_handler at 1.
  destruct h as [hn| |]; try discriminate. simpl in *.
  apply andb_true_iff in Hh. destruct Hh as [_ Hbody].
  unfold attr_is in Hbody. unfold getattr.
  destruct (assoc "body" (fields hn)) as [[|[|s body]|]|]; try discriminate.
  simpl. now apply IH.
Qed.

Lemma check_constant_spec n sm :
  well_formed_node n = true -> isinstance n "Constant" = true ->
  Quality.check_constant sm n
  = if literal_within_limit n then
      Ok {| Quality.godObjects := Quality.godObjects sm;
            Quality.longParameterLists := Quality.longParameterLists sm;
            Quality.longMethods := Quality.longMethods sm;
            Quality.magicNumbers :=
              Quality.magicNumbers sm
              ++ (if is_magic n then [magic_smell n] else []);
            Quality.emptyCatches := Quality.emptyCatches sm |}
    else Raise (ValueError str_limit_message).
Proof.
  intros Hwf Hcls. apply well_formed_parts in Hwf.
  destruct Hwf as (_ & _ & _ & _ & _ & Hwf & _). specialize (Hwf Hcls).
  unfold grammar_Constant, attr_is in Hwf.
  unfold Quality.check_constant, literal_within_limit, is_magic, magic_smell,
    magic_value, int_literal, getattr, line_of.
  rewrite Hcls.
  destruct (assoc "value" (fields n)) as [[| |c]|]; try discriminate.
  cbn [bind].
  destruct c as [|b|z|s|r]; cbn [implb];
    try (rewrite app_nil_r; now destruct sm).
  destruct (z >? 10); cbn [implb]; [|rewrite app_nil_r; now destruct sm].
  rewrite str_int_spec. now destruct (within_limit z).
Qed.

Lemma not_magic_other_class n :
  isinstance n "Constant" = false -> is_magic n = false.
Proof. intros H. unfold is_magic, int_literal. now rewrite H. Qed.

Lemma other_class_within_limit n :
  isinstance n "Constant" = false -> literal_within_limit n = true.
Proof.
  intros H. unfold literal_within_limit. now rewrite not_magic_other_class.
Qed.

Lemma visit_smell_spec t l : forall sm,
  parsed t = true -> incl l (walk t) ->
  foldM Quality.visit_smell l sm
  = if forallb literal_within_limit l then
      Ok {| Quality.godObjects := Quality.godObjects sm;
            Quality.longParameterLists :=
              Quality.longParameterLists sm
              ++ map parameter_smell (filter has_long_parameter_list l);
            Quality.longMethods :=
              Quality.longMethods sm
              ++ map method_smell (filter (span_exceeds 50) l);
            Quality.magicNumbers :=
              Quality.magicNumbers sm ++ map magic_smell (filter is_magic l);
            Quality.emptyCatches := Quality.emptyCatches sm |}
    else Raise (ValueError str_limit_message).
Proof.
  induction l as [|n l IH]; intros sm Ht Hl; cbn [foldM forallb filter map].
  - rewrite !app_nil_r. now destruct sm.
  - assert (Hn : In n (walk t)) by (apply Hl; now left).
    assert (Hl' : incl l (walk t)) by (intros x Hx; apply Hl; now right).
    pose proof (parsed_node t n Ht Hn) as Hwf.
    unfold Quality.visit_smell at 1.
    destruct (isinstance n "FunctionDef") eqn:Hfun.
    + rewrite check_parameters_spec by assumption. cbn [bind].
      rewrite check_length_spec by assumption. cbn [bind].
      rewrite IH by assumption.
      rewrite other_class_within_limit by (other_class Hfun; reflexivity).
      rewrite not_magic_other_class by (other_class Hfun; reflexivity).
      destruct (forallb literal_within_limit l); [|reflexivity].
      destruct (has_long_parameter_list n), (span_exceeds 50 n); simpl;
        now rewrite <- ?app_assoc, ?app_nil_r.
    + assert (Hlong : has_long_parameter_list n = false)
        by (unfold has_long_parameter_list, is_FunctionDef; now rewrite Hfun).
      assert (Hspan : span_exceeds 50 n = false)
        by (unfold span_exceeds, is_FunctionDef; now rewrite Hfun).
      rewrite Hlong, Hspan.
      destruct (isinstance n "Try") eqn:Htry.
      * rewrite other_class_within_limit by (other_class Htry; reflexivity).
        rewrite not_magic_other_class by (other_class Htry; reflexivity).
        pose proof Hwf as Hparts. apply well_formed_parts in Hparts.
        destruct Hparts as (_ & _ & _ & _ & Hgr & _). specialize (Hgr Htry).
        unfold grammar_Try, attr_is in Hgr. unfold getattr.
        destruct (assoc "handlers" (fields n)) as [[|hs|]|]; try discriminate.
        cbn [bind py_iter]. rewrite check_handlers_spec by assumption.
        cbn [bind andb]. now apply IH.
      * destruct (isinstance n "Constant") eqn:Hconst.
        -- rewrite check_constant_spec by assumption.
           destruct (literal_within_limit n); [|reflexivity].
           cbn [bind andb]. rewrite IH by assumption.
           destruct (forallb literal_within_limit l); [|reflexivity].
           destruct (is_magic n); simpl;
             now rewrite <- ?app_assoc, ?app_nil_r.
        -- rewrite other_class_within_limit by assumption.
           rewrite not_magic_other_class by assumption.
           cbn [bind andb]. now apply IH.
Qed.

(** On a parsed tree the two walks of the quality analyzer end in one
    of two ways.  When every integer literal above 10 can be printed,
    they return the function entries and the smells below; when one
    cannot, the f-string of line 87 raises. *)
Theorem quality_collect_parsed t :
  parsed t = true ->
  Quality.collect t
  = if literals_within_limit t then
      Ok (map measured_function (filter is_FunctionDef (walk t)),
          {| Quality.godObjects := [];
             Quality.longParameterLists :=
               map parameter_smell (filter has_long_parameter_list (walk t));
             Quality.longMethods :=
               map method_smell (filter (span_exceeds 50) (walk t));
             Quality.magicNumbers :=
               map magic_smell (filter is_magic (walk t));
             Quality.emptyCatches := [] |})
    else Raise (ValueError str_limit_message).
Proof.
  intros Ht. unfold Quality.collect, literals_within_limit.
  rewrite (visit_function_spec t) by (assumption || apply incl_refl).
  cbn [bind app].
  rewrite (visit_smell_spec t) by (assumption || apply incl_refl).
  now destruct (forallb literal_within_limit (walk t)).
Qed.

(** ** The magic-number pattern matches digits *)

Lemma append_step pre a rest :
  (pre +++ String a EmptyString) +++ rest = pre +++ String a rest.
Proof. induction pre as [|b pre IH]; simpl; [reflexivity|now rewrite IH]. Qed.

Lemma length_step pre a :
  String.length (pre +++ String a EmptyString) = S (String.length pre).
Proof. induction pre as [|b pre IH]; simpl; [reflexivity|now rewrite IH]. Qed.

Lemma all_digits_step pre a :
  all_digits pre = true -> isdigit a = true ->
  all_digits (pre +++ String a EmptyString) = true.
Proof.
  induction pre as [|b pre IH]; simpl; intros Hpre Ha.
  - now rewrite Ha.
  - apply andb_true_iff in Hpre. destruct Hpre as [Hb Hpre].
    rewrite Hb. simpl. now apply IH.
Qed.

Lemma matched_step subject a rest n :
  matched_so_far subject (String a rest) n -> isdigit a = true ->
  matched_so_far subject rest (S n).
Proof.
  intros [pre [Hs [Hn Hd]]] Ha. exists (pre +++ String a EmptyString).
  rewrite append_step, length_step. repeat split; try congruence.
  now apply all_digits_step.
Qed.

Lemma digit_class_sound c a :
  digit_class c = true -> in_class c a = true -> isdigit a = true.
Proof.
  destruct c as [|lo hi]; simpl; [auto|].
  unfold isdigit, code_between. rewrite !andb_true_iff, !Z.leb_le. lia.
Qed.

Lemma match_at_least_calls subject c k m :
  digit_class c = true ->
  forall s min prev n,
    matched_so_far subject s n ->
    match_at_least c min prev s n k = Some m ->
    exists prev' s' n',
      matched_so_far subject s' n' /\ (n + min <= n')%nat
      /\ k prev' s' n' = Some m.
Proof.
  intros Hc. induction s as [|a rest IH]; intros min prev n Hpos Hm.
  - simpl in Hm. destruct min; [|discriminate].
    exists prev, EmptyString, n. repeat split; [assumption|lia|assumption].
  - simpl in Hm. destruct (in_class c a) eqn:Ha.
    + destruct (match_at_least c (Nat.pred min) (Some a) rest (S n) k)
        as [r|] eqn:Hrest.
      * injection Hm as ->.
        destruct (IH _ _ _ (matched_step _ _ _ _ Hpos (digit_class_sound _ _ Hc Ha)) Hrest)
          as [prev' [s' [n' [Hpos' [Hn' Hk]]]]].
        exists prev', s', n'. repeat split; [assumption|lia|assumption].
      * destruct min; [|discriminate].
        exists prev, (String a rest), n.
        repeat split; [assumption|lia|assumption].
    + destruct min; [|discriminate].
      exists prev, (String a rest), n.
      repeat split; [assumption|lia|assumption].
Qed.

Lemma match_re_calls subject r :
  digits_only r = true ->
  forall k m prev s n,
    matched_so_far subject s n ->
    match_re r prev s n k = Some m ->
    exists prev' s' n',
      matched_so_far subject s' n' /\ (n + min_length r <= n')%nat
      /\ k prev' s' n' = Some m.
Proof.
  induction r as [|c|min c|r1 IH1 r2 IH2|r1 IH1 r2 IH2];
    simpl; intros Hr k m prev s n Hpos Hm.
  - destruct (xorb (word_before prev) (word_here s)); [|discriminate].
    exists prev, s, n. repeat split; [assumption|lia|assumption].
  - destruct s as [|a rest]; [discriminate|].
    destruct (in_class c a) eqn:Ha; [|discriminate].
    exists (Some a), rest, (S n).
    repeat split; [|lia|assumption].
    now apply (matched_step subject a), (digit_class_sound c).
  - now apply (match_at_least_calls subject c k m Hr s min prev n).
  - apply andb_true_iff in Hr. destruct Hr as [Hr1 Hr2].
    destruct (IH1 Hr1 _ _ _ _ _ Hpos Hm) as [p1 [s1 [n1 [Hpos1 [Hn1 Hm1]]]]].
    destruct (IH2 Hr2 _ _ _ _ _ Hpos1 Hm1) as [p2 [s2 [n2 [Hpos2 [Hn2 Hm2]]]]].
    exists p2, s2, n2. repeat split; [assumption|lia|assumption].
  - apply andb_true_iff in Hr. destruct Hr as [Hr1 Hr2].
    destruct (match_re r1 prev s n k) as [m1|] eqn:H1.
    + injection Hm as ->.
      destruct (IH1 Hr1 _ _ _ _ _ Hpos H1) as [p1 [s1 [n1 [Hpos1 [Hn1 Hm1]]]]].
      exists p1, s1, n1. repeat split; [assumption|lia|assumption].
    + destruct (IH2 Hr2 _ _ _ _ _ Hpos Hm) as [p2 [s2 [n2 [Hpos2 [Hn2 Hm2]]]]].
      exists p2, s2, n2. repeat split; [assumption|lia|assumption].
Qed.

Lemma substring_prefix pre rest :
  substring 0 (String.length pre) (pre +++ rest) = pre.
Proof.
  induction pre as [|a pre IH]; simpl.
  - now destruct rest.
  - now rewrite IH.
Qed.

Lemma search_from_digits r :
  digits_only r = true -> (1 <= min_length r)%nat ->
  forall s prev matched,
    search_from r prev s = Some matched ->
    all_digits matched = true /\ matched <> EmptyString.
Proof.
  intros Hr Hmin. induction s as [|a rest IH]; intros prev matched Hs;
    cbn [search_from] in Hs.
  - destruct (match_re r prev EmptyString 0 (fun _ _ n => Some n))
      as [n|] eqn:Hm; [|discriminate].
    destruct (match_re_calls EmptyString r Hr _ _ _ _ _
                (ex_intro _ EmptyString (conj eq_refl (conj eq_refl eq_refl))) Hm)
      as [p' [s' [n' [[pre [Hsub [Hlen Hd]]] [Hn' Hk]]]]].
    destruct pre; simpl in *; [lia|discriminate].
  - destruct (match_re r prev (String a rest) 0 (fun _ _ n => Some n))
      as [n|] eqn:Hm; [|now apply (IH (Some a))].
    destruct (match_re_calls (String a rest) r Hr _ _ _ _ _
                (ex_intro _ EmptyString (conj eq_refl (conj eq_refl eq_refl))) Hm)
      as [p' [s' [n' [[pre [Hsub [Hlen Hd]]] [Hn' Hk]]]]].
    injection Hk as <-. rewrite Hsub, <- Hlen, substring_prefix in Hs.
    injection Hs as <-.
    split; [assumption|]. destruct pre; simpl in *; [lia|discriminate].
Qed.

(** ** Reading a digit run and printing it back *)

Lemma digit_char_read a d :
  isdigit a = true -> exists d', uint_of_char a (Some d) = Some d'.
Proof.
  destruct a as [[] [] [] [] [] [] [] []]; vm_compute; intros H;
    try discriminate H; eexists; reflexivity.
Qed.

Lemma all_digits_read s :
  all_digits s = true -> exists u, NilEmpty.uint_of_string s = Some u.
Proof.
  induction s as [|a rest IH]; cbn [all_digits NilEmpty.uint_of_string];
    [eauto|].
  intros H. apply andb_true_iff in H. destruct H as [Ha Hrest].
  destruct (IH Hrest) as [u ->]. now apply digit_char_read.
Qed.

Lemma string_of_uint_length d :
  String.length (NilEmpty.string_of_uint d) = Decimal.nb_digits d.
Proof. induction d; simpl; congruence. Qed.

Lemma unorm_not_nil u : Decimal.unorm u <> Decimal.Nil.
Proof. unfold Decimal.unorm. destruct (Decimal.nzhead u); discriminate. Qed.

Lemma string_of_uint_not_nil d :
  d <> Decimal.Nil ->
  NilZero.string_of_uint d = NilEmpty.string_of_uint d.
Proof. destruct d; [congruence|reflexivity..]. Qed.

Lemma decimal_of_uint u :
  decimal (Z.of_uint u) = NilZero.string_of_uint (Decimal.unorm u).
Proof.
  unfold decimal. change (Z.of_uint u) with (Z.of_int (Decimal.Pos u)).
  now rewrite DecimalZ.to_of.
Qed.

(** A numeral read from [n] digits prints with at most [n] digits:
    leading zeros go, nothing is added. *)
Lemma digit_count_read s u :
  NilZero.uint_of_string s = Some u ->
  digit_count (Z.of_uint u) <= Z.of_nat (String.length s).
Proof.
  intros Hs. unfold digit_count.
  rewrite Z.abs_eq by apply N2Z.is_nonneg.
  rewrite decimal_of_uint, string_of_uint_not_nil by apply unorm_not_nil.
  assert (Hu : u <> Decimal.Nil)
    by (intros ->; now apply (NilZero.uint_of_string_nonnil s)).
  apply NilZero.sus in Hs. rewrite <- Hs.
  rewrite (string_of_uint_not_nil u Hu), !string_of_uint_length.
  apply inj_le. now apply DecimalFacts.nb_digits_unorm.
Qed.

Lemma py_int_printable s z :
  py_int s = Ok z -> 0 <= z /\ str_int z = Ok (decimal z).
Proof.
  unfold py_int. destruct (NilZero.uint_of_string s) as [u|] eqn:Hs;
    [|discriminate].
  destruct (Z.gtb_spec (Z.of_nat (String.length s)) int_max_str_digits)
    as [|Hlen]; [discriminate|].
  intros [= <-]. split; [apply N2Z.is_nonneg|].
  rewrite str_int_spec. unfold within_limit.
  pose proof (digit_count_read s u Hs) as Hcount.
  destruct (Z.leb_spec (digit_count (Z.of_uint u)) int_max_str_digits);
    [reflexivity|lia].
Qed.

(** [int] on a run of digits: refused beyond the limit, read
    otherwise. *)
Lemma py_int_digits s :
  all_digits s = true -> s <> EmptyString ->
  py_int s
  = if Z.of_nat (String.length s) >? int_max_str_digits
    then Raise (ValueError (int_limit_message (Z.of_nat (String.length s))))
    else Ok (int_value s).
Proof.
  intros Hd Hne. unfold int_value, py_int.
  destruct (all_digits_read s Hd) as [u Hu].
  assert (Hs : NilZero.uint_of_string s = Some u)
    by (destruct s; [congruence|exact Hu]).
  rewrite Hs.
  now destruct (Z.of_nat (String.length s) >? int_max_str_digits).
Qed.

Lemma magic_pattern_int line matched :
  re_search magic_pattern line = Some matched ->
  py_int matched
  = if Z.of_nat (String.length matched) >? int_max_str_digits
    then Raise (ValueError
                  (int_limit_message (Z.of_nat (String.length matched))))
    else Ok (int_value matched).
Proof.
  intros Hs. apply (search_from_digits magic_pattern) in Hs;
    [|reflexivity|simpl; lia].
  destruct Hs as [Hd Hne]. now apply py_int_digits.
Qed.

(** ** The refactoring walks *)

Lemma visit_line_step file_path opportunities i line :
  Refactoring.visit_line file_path opportunities (i, line)
  = match digit_run line with
    | Some matched =>
        if Z.of_nat (String.length matched) >? int_max_str_digits
        then Raise (ValueError
                      (int_limit_message (Z.of_nat (String.length matched))))
        else Ok (opportunities ++ line_opportunities file_path (i, line))
    | None => Ok (opportunities ++ line_opportunities file_path (i, line))
    end.
Proof.
  unfold Refactoring.visit_line, line_opportunities, flags_long_line,
    flagged_number, digit_run.
  cbn [fst snd].
  destruct (re_search magic_pattern line) as [matched|] eqn:Hs.
  - destruct (Refactoring.is_comment line); cbn [negb andb].
    + destruct (Z.of_nat (String.length line) >? 100);
        now rewrite ?app_nil_r.
    + pose proof (py_int_printable matched) as Hprint.
      rewrite (magic_pattern_int line matched Hs) in *.
      destruct (Z.of_nat (String.length matched) >? int_max_str_digits);
        [reflexivity|].
      cbn [bind].
      destruct (Hprint _ eq_refl) as [_ ->].
      destruct (Refactoring.member (int_value matched)
                  Refactoring.allow_list);
        destruct (Z.of_nat (String.length line) >? 100);
        cbn [negb andb bind];
        now rewrite <- ?app_assoc, ?app_nil_r.
  - destruct (Refactoring.is_comment line);
      destruct (Z.of_nat (String.length line) >? 100);
      cbn [negb andb]; now rewrite <- ?app_assoc, ?app_nil_r.
Qed.

(** The pass over the lines stops at the first digit run [int]
    refuses; without one it adds the findings of every line. *)
Lemma visit_line_spec file_path l : forall opportunities,
  foldM (Refactoring.visit_line file_path) l opportunities
  = match first_long_run (map snd l) with
    | Some run =>
        Raise (ValueError (int_limit_message (Z.of_nat (String.length run))))
    | None => Ok (opportunities ++ flat_map (line_opportunities file_path) l)
    end.
Proof.
  unfold first_long_run.
  induction l as [|[i line] l IH]; intros opportunities.
  - simpl. now rewrite app_nil_r.
  - cbn [foldM flat_map map snd find]. rewrite visit_line_step.
    unfold run_too_long at 1.
    destruct (digit_run line) as [matched|] eqn:Hrun.
    + destruct (Z.of_nat (String.length matched) >? int_max_str_digits);
        [now rewrite Hrun|].
      cbn [bind]. rewrite IH, <- app_assoc.
      now destruct (find run_too_long (map snd l)).
    + cbn [bind]. rewrite IH, <- app_assoc.
      now destruct (find run_too_long (map snd l)).
Qed.

Lemma enumerate_from_snd {A} (l : list A) : forall k,
  map snd (enumerate_from k l) = l.
Proof.
  induction l as [|x l IH]; intros k; simpl; [reflexivity|].
  now rewrite IH.
Qed.

Lemma first_long_run_none lines :
  first_long_run lines = None
  <-> forallb (fun line => negb (run_too_long line)) lines = true.
Proof.
  unfold first_long_run. induction lines as [|line lines IH]; simpl.
  - tauto.
  - destruct (run_too_long line) eqn:Hlong; simpl; [|exact IH].
    unfold run_too_long in Hlong.
    destruct (digit_run line); [|discriminate]. split; discriminate.
Qed.

Lemma refactoring_visit_spec file_path t l : forall opportunities,
  parsed t = true -> incl l (walk t) ->
  foldM (Refactoring.visit file_path) l opportunities
  = Ok (opportunities ++ flat_map (tree_opportunities file_path) l).
Proof.
  induction l as [|n l IH]; intros opportunities Ht Hl; simpl.
  - now rewrite app_nil_r.
  - assert (Hn : In n (walk t)) by (apply Hl; now left).
    assert (Hl' : incl l (walk t)) by (intros x Hx; apply Hl; now right).
    pose proof (parsed_node t n Ht Hn) as Hwf.
    unfold Refactoring.visit at 1, tree_opportunities at 1,
      span_exceeds, has_long_parameter_list, span_of, line_span, is_FunctionDef.
    destruct (isinstance n "FunctionDef") eqn:Hfun; simpl;
      [|now rewrite IH].
    destruct (well_formed_FunctionDef n Hwf Hfun)
      as [name [line [Hname [Hline [Hlen [Hname' Hline']]]]]].
    rewrite Hlen, Hline, Hname, Hname', Hline'.
    destruct (end_lineno n) as [last|]; simpl.
    + destruct (last =? 0); simpl.
      * destruct (len (plain_parameters n) >? 5); simpl; rewrite IH by assumption;
          now rewrite <- ?app_assoc.
      * destruct (last - line >? 30); simpl;
          destruct (len (plain_parameters n) >? 5); simpl;
          rewrite IH by assumption; now rewrite <- ?app_assoc.
    + destruct (len (plain_parameters n) >? 5); simpl; rewrite IH by assumption;
        now rewrite <- ?app_assoc.
Qed.

(** On a parsed tree the detection ends in one of two ways: at the
    first digit run [int] refuses, or with the findings of the tree
    followed by those of the lines. *)
Theorem refactoring_detect_parsed file_path lines t :
  parsed t = true ->
  Refactoring.detect file_path lines t
  = match first_long_run lines with
    | Some run =>
        Raise (ValueError (int_limit_message (Z.of_nat (String.length run))))
    | None =>
        Ok (flat_map (tree_opportunities file_path) (walk t)
            ++ flat_map (line_opportunities file_path) (enumerate lines))
    end.
Proof.
  intros Ht. unfold Refactoring.detect.
  rewrite (refactoring_visit_spec file_path t)
    by (assumption || apply incl_refl).
  cbn [bind app]. rewrite visit_line_spec.
  unfold enumerate. now rewrite enumerate_from_snd.
Qed.

(** ** Running an analyzer on a file that reads and parses *)

Lemma performance_findings_parsed E path content tree :
  open_read E path = Ok content -> ast_parse E content path = Ok tree ->
  Performance.findings E path = Performance.collect tree.
Proof. intros Hr Hp. unfold Performance.findings. now rewrite Hr; simpl; rewrite Hp. Qed.

Lemma quality_findings_parsed E path content tree :
  open_read E path = Ok content -> ast_parse E content path = Ok tree ->
  Quality.findings E path = Quality.collect tree.
Proof. intros Hr Hp. unfold Quality.findings. now rewrite Hr; simpl; rewrite Hp. Qed.

Lemma refactoring_opportunities_parsed E path focus content tree :
  open_read E path = Ok content -> ast_parse E content path = Ok tree ->
  parsed tree = true ->
  Refactoring.opportunities_of E path focus
  = match first_long_run (split_lines content) with
    | Some run =>
        Raise (ValueError (int_limit_message (Z.of_nat (String.length run))))
    | None =>
        Ok (Refactoring.filter_focus focus
              (flat_map (tree_opportunities path) (walk tree)
               ++ flat_map (line_opportunities path)
                    (enumerate (split_lines content))))
    end.
Proof.
  intros Hr Hp Ht. unfold Refactoring.opportunities_of.
  rewrite Hr; simpl; rewrite Hp; simpl.
  rewrite refactoring_detect_parsed by assumption.
  now destruct (first_long_run (split_lines content)).
Qed.

Lemma quality_findings_within_limit E path content tree :
  open_read E path = Ok content -> ast_parse E content path = Ok tree ->
  parsed tree = true ->
  Quality.findings E path
  = if literals_within_limit tree then
      Ok (map measured_function (filter is_FunctionDef (walk tree)),
          {| Quality.godObjects := [];
             Quality.longParameterLists :=
               map parameter_smell
                 (filter has_long_parameter_list (walk tree));
             Quality.longMethods :=
               map method_smell (filter (span_exceeds 50) (walk tree));
             Quality.magicNumbers :=
               map magic_smell (filter is_magic (walk tree));
             Quality.emptyCatches := [] |})
    else Raise (ValueError str_limit_message).
Proof.
  intros Hr Hp Ht.
  rewrite (quality_findings_parsed E path content tree) by assumption.
  now apply quality_collect_parsed.
Qed.

Lemma refactoring_found_within_limit E path focus content tree :
  open_read E path = Ok content -> ast_parse E content path = Ok tree ->
  parsed tree = true ->
  refactoring_found E path focus
  = if digit_runs_within_limit content then
      Refactoring.filter_focus focus
        (flat_map (tree_opportunities path) (walk tree)
         ++ flat_map (line_opportunities path)
              (enumerate (split_lines content)))
    else [].
Proof.
  intros Hr Hp Ht. unfold refactoring_found, digit_runs_within_limit.
  rewrite (refactoring_opportunities_parsed E path focus content tree)
    by assumption.
  pose proof (first_long_run_none (split_lines content)) as Hnone.
  destruct (first_long_run (split_lines content)) as [run|].
  - destruct (forallb _ (split_lines content)); [|reflexivity].
    discriminate (proj2 Hnone eq_refl).
  - now rewrite (proj1 Hnone eq_refl).
Qed.

(** ** C1: loop nesting depth *)

(** Every loop of a parsed tree is recorded at depth 1: the stack is
    pushed and popped within the visit of the loop node itself, before
    the walk reaches the loop's body. *)
Lemma loop_depth_is_1 t st :
  parsed t = true -> Performance.collect t = Ok st ->
  Forall (fun l => Performance.loop_depth l = 1) (Performance.loops st).
Proof.
  intros Ht Hst. rewrite performance_collect_parsed in Hst by assumption.
  injection Hst as <-. simpl. apply Forall_forall. intros l Hl.
  apply in_map_iff in Hl. now destruct Hl as [n [<- _]].
Qed.

(** C1 (code at the failing input).  For [for row in rows: for x in row:
    pass] inside a function, the performance analyzer records the loops
    of lines 2 and 3 both at depth 1; the claim gives the inner loop
    depth 2.  Two loops side by side are both recorded at depth 1, as
    the claim says. *)
Theorem C1_nested_loop_recorded_at_depth_1 :
  (exists st,
     Performance.findings
       (Samples.one_file "nested.py" Samples.nested_source Samples.nested_tree)
       "nested.py" = Ok st
     /\ map Performance.loop_line (Performance.loops st) = [2; 3]
     /\ map Performance.loop_depth (Performance.loops st) = [1; 1])
  /\ (exists st,
        Performance.findings
          (Samples.one_file "siblings.py" Samples.siblings_source
             Samples.siblings_tree)
          "siblings.py" = Ok st
        /\ map Performance.loop_line (Performance.loops st) = [1; 3]
        /\ map Performance.loop_depth (Performance.loops st) = [1; 1]).
Proof.
  split; eexists; (split; [vm_compute; reflexivity|]); split; reflexivity.
Qed.

(** ** C8: string concatenation in loops *)

(** C8.  On a parsed file the performance analyzer reports, for every
    loop node in walk order and every [+=] of a literal string in that
    loop's subtree (nested loops included), one finding with the line of
    the occurrence; the variable of every finding is the placeholder
    ["string_var"]. *)
Theorem C8_string_concat_issues E path content tree :
  open_read E path = Ok content -> ast_parse E content path = Ok tree ->
  parsed tree = true ->
  exists st,
    Performance.findings E path = Ok st
    /\ Performance.string_concat_issues st
       = flat_map
           (fun loop =>
              map (fun occurrence =>
                     {| Performance.issue_line := line_of occurrence;
                        Performance.issue_variable := "string_var" |})
                  (filter string_add_assign (walk loop)))
           (filter is_loop (walk tree))
    /\ Forall (fun i => Performance.issue_variable i = "string_var")
         (Performance.string_concat_issues st).
Proof.
  intros Hr Hp Ht. rewrite (performance_findings_parsed E path content tree)
    by assumption.
  rewrite performance_collect_parsed by assumption.
  eexists. split; [reflexivity|]. simpl. split; [reflexivity|].
  apply Forall_forall. intros i Hi. apply in_flat_map in Hi.
  destruct Hi as [loop [_ Hi]]. apply in_map_iff in Hi.
  now destruct Hi as [occurrence [<- _]].
Qed.

Lemma C8_string_concat_issues_witness :
  exists st,
    Performance.findings
      (Samples.one_file "concat.py" Samples.concat_source Samples.concat_tree)
      "concat.py" = Ok st
    /\ map Performance.issue_line (Performance.string_concat_issues st)
       = [3; 5; 5].
Proof.
  destruct (C8_string_concat_issues
              (Samples.one_file "concat.py" Samples.concat_source
                 Samples.concat_tree)
              "concat.py" Samples.concat_source Samples.concat_tree)
    as [st [Hst [Hissues _]]];
    [reflexivity | vm_compute; reflexivity | vm_compute; reflexivity |].
  exists st. split; [exact Hst|]. rewrite Hissues. vm_compute. reflexivity.
Defined.

(** ** What the quality report is built from *)

Lemma quality_functions_within_limit E path content tree :
  open_read E path = Ok content -> ast_parse E content path = Ok tree ->
  parsed tree = true ->
  quality_functions E path
  = if literals_within_limit tree
    then map measured_function (filter is_FunctionDef (walk tree))
    else [].
Proof.
  intros Hr Hp Ht. unfold quality_functions.
  rewrite (quality_findings_within_limit E path content tree) by assumption.
  now destruct (literals_within_limit tree).
Qed.

Lemma quality_smells_within_limit E path content tree :
  open_read E path = Ok content -> ast_parse E content path = Ok tree ->
  parsed tree = true ->
  quality_smells E path
  = if literals_within_limit tree then
      {| Quality.godObjects := [];
         Quality.longParameterLists :=
           map parameter_smell (filter has_long_parameter_list (walk tree));
         Quality.longMethods :=
           map method_smell (filter (span_exceeds 50) (walk tree));
         Quality.magicNumbers := map magic_smell (filter is_magic (walk tree));
         Quality.emptyCatches := [] |}
    else Quality.no_smells.
Proof.
  intros Hr Hp Ht. unfold quality_smells.
  rewrite (quality_findings_within_limit E path content tree) by assumption.
  now destruct (literals_within_limit tree).
Qed.

(** The literal [0xfff...f] of 3600 digits cannot be printed, and the
    run on the file that holds it ends in the [except] branch. *)
Lemma huge_literal_beyond_limit :
  literals_within_limit Samples.huge_literal_tree = false.
Proof. vm_compute. reflexivity. Qed.

Lemma huge_literal_run_fails :
  Quality.findings
    (Samples.one_file "huge.py" Samples.huge_literal_source
       Samples.huge_literal_tree) "huge.py"
  = Raise (ValueError str_limit_message).
Proof.
  rewrite (quality_findings_within_limit _ "huge.py"
             Samples.huge_literal_source Samples.huge_literal_tree);
    [|reflexivity|vm_compute; reflexivity|vm_compute; reflexivity].
  now rewrite huge_literal_beyond_limit.
Qed.

(** ** C9: empty handlers *)

(** C9.  On a parsed file the [emptyCatches] collection of the quality
    report is empty, whichever way the run ends: the grammar gives every
    [except] clause a non-empty body, so the walk never adds to it, and
    the report of a failed run has it empty.  The run reaches the
    report exactly when every integer literal above 10 can be
    printed. *)
Theorem C9_no_empty_catches E path content tree :
  open_read E path = Ok content -> ast_parse E content path = Ok tree ->
  parsed tree = true ->
  member_in "smells" "emptyCatches" (Quality.analyze_file E path)
  = Some (JList [])
  /\ (forall functions sm,
        Quality.findings E path = Ok (functions, sm) ->
        Quality.emptyCatches sm = [])
  /\ (if literals_within_limit tree
      then exists functions sm, Quality.findings E path = Ok (functions, sm)
      else Quality.findings E path = Raise (ValueError str_limit_message)).
Proof.
  intros Hr Hp Ht. unfold Quality.analyze_file.
  rewrite (quality_findings_within_limit E path content tree) by assumption.
  destruct (literals_within_limit tree).
  - split; [reflexivity|]. split; [|eauto].
    now intros functions sm [= _ <-].
  - split; [reflexivity|]. split; [discriminate|reflexivity].
Qed.

Lemma C9_no_empty_catches_witness :
  member_in "smells" "emptyCatches"
    (Quality.analyze_file
       (Samples.one_file "guarded.py" Samples.guarded_source
          Samples.guarded_tree) "guarded.py")
  = Some (JList [])
  /\ exists functions sm,
       Quality.findings
         (Samples.one_file "guarded.py" Samples.guarded_source
            Samples.guarded_tree) "guarded.py" = Ok (functions, sm).
Proof.
  destruct (C9_no_empty_catches
              (Samples.one_file "guarded.py" Samples.guarded_source
                 Samples.guarded_tree)
              "guarded.py" Samples.guarded_source Samples.guarded_tree)
    as [Hdoc [_ Hrun]];
    [reflexivity | vm_compute; reflexivity | vm_compute; reflexivity |].
  split; [exact Hdoc|].
  assert (Hlimit : literals_within_limit Samples.guarded_tree = true)
    by (vm_compute; reflexivity).
  rewrite Hlimit in Hrun. exact Hrun.
Defined.

(** ** C10: parameter counting *)

Lemma filter_flat_map {A B} (p : B -> bool) (f : A -> list B) (l : list A) :
  filter p (flat_map f l) = flat_map (fun x => filter p (f x)) l.
Proof.
  induction l as [|x l IH]; simpl; [reflexivity|].
  now rewrite filter_app, IH.
Qed.

Lemma flat_map_optional {A B} (p : A -> bool) (g : A -> B) (l : list A) :
  flat_map (fun x => if p x then [g x] else []) l = map g (filter p l).
Proof.
  induction l as [|x l IH]; simpl; [reflexivity|].
  rewrite IH. now destruct (p x).
Qed.

Lemma flat_map_nothing {A B} (f : A -> list B) (l : list A) :
  (forall x, f x = []) -> flat_map f l = [].
Proof.
  intros Hf. induction l as [|x l IH]; simpl; [reflexivity|].
  now rewrite Hf, IH.
Qed.

Lemma flat_map_ext_all {A B} (f g : A -> list B) (l : list A) :
  (forall x, f x = g x) -> flat_map f l = flat_map g l.
Proof.
  intros Hfg. induction l as [|x l IH]; simpl; [reflexivity|].
  now rewrite Hfg, IH.
Qed.

(** The membership test of lines 77-81 is membership in the list. *)
Lemma type_in_has_type types o :
  Refactoring.type_in types o = has_type types o.
Proof.
  unfold Refactoring.type_in, has_type.
  destruct (in_dec string_dec (Refactoring.opp_type o) types) as [Hin|Hout].
  - apply existsb_exists. exists (Refactoring.opp_type o).
    split; [assumption|apply String.eqb_refl].
  - apply not_true_is_false. intros H. apply existsb_exists in H.
    destruct H as [t [Ht Heq]]. apply String.eqb_eq in Heq. congruence.
Qed.

Lemma filter_has_type types l :
  filter (has_type types) l = filter (Refactoring.type_in types) l.
Proof.
  apply filter_ext. intros o. symmetry. apply type_in_has_type.
Qed.

Lemma long_parameter_lists_of_tree path t :
  filter (Refactoring.type_in ["LONG_PARAMETER_LIST"])
    (flat_map (tree_opportunities path) t)
  = map (fun n => Refactoring.long_parameter_list path (name_of n)
                    (len (plain_parameters n)) (line_of n))
        (filter has_long_parameter_list t).
Proof.
  rewrite filter_flat_map, <- flat_map_optional.
  apply flat_map_ext_all. intros n. unfold tree_opportunities.
  rewrite filter_app.
  destruct (span_exceeds 30 n), (has_long_parameter_list n); reflexivity.
Qed.

Lemma long_parameter_lists_of_lines path l :
  filter (Refactoring.type_in ["LONG_PARAMETER_LIST"])
    (flat_map (line_opportunities path) l) = [].
Proof.
  rewrite filter_flat_map. apply flat_map_nothing. intros [i line].
  unfold line_opportunities. rewrite filter_app. simpl.
  destruct (flags_long_line line), (flagged_number line); reflexivity.
Qed.

Lemma filter_focus_restrict focus_area every :
  Refactoring.filter_focus focus_area every
  = restrict_to_focus focus_area every.
Proof.
  unfold Refactoring.filter_focus, restrict_to_focus, focus_types.
  destruct (String.eqb_spec focus_area "all") as [->|_]; [reflexivity|].
  simpl.
  destruct (String.eqb focus_area "performance"); [reflexivity|].
  destruct (String.eqb focus_area "maintainability"); [reflexivity|].
  destruct (String.eqb focus_area "readability"); reflexivity.
Qed.

Lemma opportunities_of_all E path focus_area :
  Refactoring.opportunities_of E path focus_area
  = match Refactoring.opportunities_of E path "all" with
    | Ok every => Ok (restrict_to_focus focus_area every)
    | Raise e => Raise e
    end.
Proof.
  unfold Refactoring.opportunities_of.
  destruct (open_read E path) as [content|e]; simpl; [|reflexivity].
  destruct (ast_parse E content path) as [tree|e]; simpl; [|reflexivity].
  destruct (Refactoring.detect path (split_lines content) tree)
    as [found|e]; simpl; [|reflexivity].
  now rewrite filter_focus_restrict.
Qed.

Lemma refactoring_found_restrict E path focus_area :
  refactoring_found E path focus_area
  = restrict_to_focus focus_area (refactoring_found E path "all").
Proof.
  unfold refactoring_found. rewrite opportunities_of_all.
  destruct (Refactoring.opportunities_of E path "all"); [reflexivity|].
  unfold restrict_to_focus. now destruct (focus_types focus_area).
Qed.

Lemma restrict_incl focus_area every :
  incl (restrict_to_focus focus_area every) every.
Proof.
  unfold restrict_to_focus. destruct (focus_types focus_area);
    [|apply incl_refl].
  intros o Ho. now apply filter_In in Ho.
Qed.

(** C10 (counterexample).  A function whose six parameters are all
    positional-only has six positional parameters; the performance
    report gives it [params] 0, and neither the quality nor the
    refactoring analyzer flags it. *)
Lemma C10_positional_only_not_counted :
  (exists st,
     Performance.findings
       (Samples.one_file "positional.py" Samples.positional_source
          Samples.positional_tree) "positional.py" = Ok st
     /\ map Performance.fn_params (Performance.functions st) = [0]
     /\ map (fun n => len (positional_parameters n))
          (filter is_FunctionDef (walk Samples.positional_tree)) = [6]
     /\ ~ counts_positional_parameters Samples.positional_tree st)
  /\ Quality.longParameterLists
       (quality_smells
          (Samples.one_file "positional.py" Samples.positional_source
             Samples.positional_tree) "positional.py") = []
  /\ filter (has_type ["LONG_PARAMETER_LIST"])
       (refactoring_found
          (Samples.one_file "positional.py" Samples.positional_source
             Samples.positional_tree) "positional.py" "all") = [].
Proof.
  split; [|split; vm_compute; reflexivity].
  eexists. split; [vm_compute; reflexivity|].
  split; [reflexivity|]. split; [vm_compute; reflexivity|].
  unfold counts_positional_parameters. vm_compute. discriminate.
Qed.

(** C10 (amended).  On a parsed file, the parameter count each analyzer
    works with is the length of [node.args.args]: the performance
    report gives it as [params]; the quality and refactoring analyzers
    flag a long parameter list for the functions where it exceeds 5 and
    for no other, with that count in the description, whenever the run
    reaches the report, and flag nothing when it does not.
    Positional-only and keyword-only parameters, [*args] and [**kwargs]
    live in other fields of the [arguments] node and do not enter the
    count. *)
Theorem C10_parameter_count E path content tree :
  open_read E path = Ok content -> ast_parse E content path = Ok tree ->
  parsed tree = true ->
  (exists st,
     Performance.findings E path = Ok st
     /\ Performance.functions st
        = map (fun n => {| Performance.fn_name := name_of n;
                           Performance.fn_line := line_of n;
                           Performance.fn_params := len (plain_parameters n) |})
              (filter is_FunctionDef (walk tree)))
  /\ Quality.longParameterLists (quality_smells E path)
     = (if literals_within_limit tree
        then map parameter_smell
               (filter (fun n => is_FunctionDef n
                                 && (len (plain_parameters n) >? 5))
                       (walk tree))
        else [])
  /\ filter (has_type ["LONG_PARAMETER_LIST"])
       (refactoring_found E path "all")
     = (if digit_runs_within_limit content
        then map (fun n => Refactoring.long_parameter_list path (name_of n)
                             (len (plain_parameters n)) (line_of n))
                 (filter (fun n => is_FunctionDef n
                                   && (len (plain_parameters n) >? 5))
                         (walk tree))
        else [])
  /\ (forall focus_area,
        incl (refactoring_found E path focus_area)
             (refactoring_found E path "all"))
  /\ (forall line last name posonlyargs args vararg kwonlyargs kwarg body,
        plain_parameters
          (Build.mkFunctionDef line last name
             (Build.mkarguments posonlyargs args vararg kwonlyargs kwarg) body)
        = map VNode args).
Proof.
  intros Hr Hp Ht. split; [|split; [|split; [|split]]].
  - rewrite (performance_findings_parsed E path content tree) by assumption.
    rewrite performance_collect_parsed by assumption.
    eexists. split; reflexivity.
  - rewrite (quality_smells_within_limit E path content tree) by assumption.
    now destruct (literals_within_limit tree).
  - rewrite (refactoring_found_within_limit E path "all" content tree)
      by assumption.
    destruct (digit_runs_within_limit content); [|reflexivity].
    change (Refactoring.filter_focus "all" ?l) with l.
    rewrite filter_has_type, filter_app, long_parameter_lists_of_tree,
      long_parameter_lists_of_lines.
    apply app_nil_r.
  - intros focus_area. rewrite refactoring_found_restrict.
    apply restrict_incl.
  - reflexivity.
Qed.

Lemma C10_parameter_count_witness :
  (exists st,
     Performance.findings
       (Samples.one_file "parameters.py" Samples.parameters_source
          Samples.parameters_tree)
       "parameters.py" = Ok st
     /\ map Performance.fn_params (Performance.functions st) = [2; 6])
  /\ map Quality.description
       (Quality.longParameterLists
          (quality_smells
             (Samples.one_file "parameters.py" Samples.parameters_source
                Samples.parameters_tree) "parameters.py"))
     = ["Function six has 6 parameters"].
Proof.
  destruct (C10_parameter_count
              (Samples.one_file "parameters.py" Samples.parameters_source
                 Samples.parameters_tree)
              "parameters.py" Samples.parameters_source
              Samples.parameters_tree)
    as [[st [Hst Hfunctions]] [Hquality _]];
    [reflexivity | vm_compute; reflexivity | vm_compute; reflexivity |].
  split.
  - exists st. split; [exact Hst|]. rewrite Hfunctions.
    vm_compute. reflexivity.
  - rewrite Hquality. vm_compute. reflexivity.
Defined.

(** ** C4: cyclomatic complexity *)

Lemma decision_points_deciding l :
  sum (map decision_points l) = sum (map decision_points (filter deciding l)).
Proof.
  induction l as [|n l IH]; simpl; [reflexivity|].
  unfold deciding at 1. unfold decision_points at 1.
  destruct (is_branch n) eqn:Hb; simpl.
  - rewrite !sum_cons, IH. unfold decision_points at 2. now rewrite Hb.
  - destruct (isinstance n "BoolOp") eqn:Hbo; simpl.
    + rewrite !sum_cons, IH. unfold decision_points at 2. now rewrite Hb, Hbo.
    + rewrite sum_cons, IH. lia.
Qed.

Lemma branch_decision_points n : is_branch n = true -> decision_points n = 1.
Proof. unfold decision_points. now intros ->. Qed.

Lemma if_is_branch n : isinstance n "If" = true -> is_branch n = true.
Proof. unfold is_branch. now intros ->. Qed.

Lemma loop_is_branch n : is_loop n = true -> is_branch n = true.
Proof.
  unfold is_branch, is_loop. intros H. apply orb_true_iff in H.
  destruct H as [-> | ->]; rewrite ?orb_true_r; reflexivity.
Qed.

(** C4.  On a parsed file every function entry of the quality report
    carries the complexity of the specification: 1, plus one for each
    [If], [For], [While], [With], [Try] and [ExceptHandler] node of the
    function's subtree, plus N-1 for each [BoolOp] with N operands; and
    [decisionPoints] is that number minus 1.  The report has one such
    entry for each function definition, in walk order, when the run
    reaches the report, and no entry when it does not.  A function
    whose subtree has none of these nodes has complexity 1; one whose
    only such nodes are one [If] and one loop has complexity 3. *)
Theorem C4_cyclomatic_complexity E path content tree :
  open_read E path = Ok content -> ast_parse E content path = Ok tree ->
  parsed tree = true ->
  (exists entries,
     Forall2
       (fun n f =>
          Quality.cyclomatic f = spec_cyclomatic n
          /\ Quality.decisionPoints f = Quality.cyclomatic f - 1
          /\ Quality.fn_name f = name_of n
          /\ Quality.fn_line f = line_of n)
       (filter is_FunctionDef (walk tree)) entries
     /\ quality_functions E path
        = (if literals_within_limit tree then entries else [])
     /\ member_in "complexity" "functions" (Quality.analyze_file E path)
        = Some (JList (map Quality.json_of_function
                         (quality_functions E path))))
  /\ (forall n, filter deciding (preorder n) = [] ->
        spec_cyclomatic n = 1 /\ spec_cyclomatic n - 1 = 0)
  /\ (forall n conditional loop,
        Permutation (filter deciding (preorder n)) [conditional; loop] ->
        isinstance conditional "If" = true -> is_loop loop = true ->
        spec_cyclomatic n = 3).
Proof.
  intros Hr Hp Ht. split; [|split].
  - exists (map measured_function (filter is_FunctionDef (walk tree))).
    split; [|split].
    + induction (filter is_FunctionDef (walk tree)) as [|n l IH]; simpl;
        constructor; [now repeat split | exact IH].
    + now apply (quality_functions_within_limit E path content tree).
    + unfold quality_functions, Quality.analyze_file.
      now destruct (Quality.findings E path) as [[functions sm]|e].
  - intros n Hnone. unfold spec_cyclomatic.
    rewrite decision_points_deciding, Hnone. now vm_compute.
  - intros n conditional loop Hperm Hif Hloop. unfold spec_cyclomatic.
    rewrite decision_points_deciding.
    rewrite (sum_Permutation _ _ (Permutation_map decision_points Hperm)).
    simpl. rewrite !sum_cons.
    rewrite (branch_decision_points conditional (if_is_branch _ Hif)).
    rewrite (branch_decision_points loop (loop_is_branch _ Hloop)).
    reflexivity.
Qed.

Lemma C4_cyclomatic_complexity_witness :
  map Quality.cyclomatic
    (quality_functions
       (Samples.one_file "sample.py" Samples.fixture_source
          Samples.fixture_tree) "sample.py") = [3; 4]
  /\ spec_cyclomatic Samples.straight_function = 1
  /\ spec_cyclomatic Samples.calculate_total = 3.
Proof.
  destruct (C4_cyclomatic_complexity
              (Samples.one_file "sample.py" Samples.fixture_source
                 Samples.fixture_tree)
              "sample.py" Samples.fixture_source Samples.fixture_tree)
    as [[entries [_ [Hfound _]]] [Hone Hthree]];
    [reflexivity | vm_compute; reflexivity | vm_compute; reflexivity |].
  split; [|split].
  - vm_compute. reflexivity.
  - now apply Hone.
  - apply (Hthree Samples.calculate_total
             (Build.mkIf 4 5
                (Build.mkCompare 4 (Build.mkName 4 "item" Build.ctx_Load)
                   (Build.marker "Gt") (Build.mkConstant 4 (CInt 0)))
                [ Build.mkAugAssign 5 (Build.mkName 5 "total" Build.ctx_Store)
                    (Build.marker "Add") (Build.mkName 5 "item" Build.ctx_Load) ]
                [])
             (Build.mkFor 3 5 (Build.mkName 3 "item" Build.ctx_Store)
                (Build.mkName 3 "items" Build.ctx_Load)
                [ Build.mkIf 4 5
                    (Build.mkCompare 4 (Build.mkName 4 "item" Build.ctx_Load)
                       (Build.marker "Gt") (Build.mkConstant 4 (CInt 0)))
                    [ Build.mkAugAssign 5
                        (Build.mkName 5 "total" Build.ctx_Store)
                        (Build.marker "Add")
                        (Build.mkName 5 "item" Build.ctx_Load) ]
                    [] ]));
      [vm_compute; apply perm_swap | reflexivity | reflexivity].
Defined.

(** ** C3: the most complex function *)

Lemma max_from_first {A} (key : A -> Z) (l : list A) :
  forall before best between,
    Forall (fun g => key g < key best) before ->
    Forall (fun g => key g <= key best) between ->
    exists before' f after,
      before ++ best :: between ++ l = before' ++ f :: after
      /\ max_from key best l = f
      /\ Forall (fun g => key g < key f) before'
      /\ Forall (fun g => key g <= key f) after.
Proof.
  induction l as [|x l IH]; intros before best between Hbefore Hbetween.
  - exists before, best, between. rewrite app_nil_r. now repeat split.
  - simpl. destruct (Z.gtb_spec (key x) (key best)) as [Hgt|Hle].
    + destruct (IH (before ++ best :: between) x []) as
        [before' [f [after [Heq [Hmax [Hb Ha]]]]]].
      * apply Forall_app. split.
        -- eapply Forall_impl; [|exact Hbefore]. simpl. intros; lia.
        -- constructor; [lia|].
           eapply Forall_impl; [|exact Hbetween]. simpl. intros; lia.
      * constructor.
      * exists before', f, after. repeat split; try assumption.
        rewrite <- Heq. simpl. now rewrite <- app_assoc.
    + destruct (IH before best (between ++ [x])) as
        [before' [f [after [Heq [Hmax [Hb Ha]]]]]].
      * assumption.
      * apply Forall_app. split; [assumption|]. constructor; [lia|constructor].
      * exists before', f, after. repeat split; try assumption.
        rewrite <- Heq. now rewrite <- app_assoc.
Qed.

Lemma most_complex_first functions :
  first_among_most_complex functions (Quality.mostComplexFunction functions).
Proof.
  destruct functions as [|f0 l]; [reflexivity|].
  unfold first_among_most_complex, Quality.mostComplexFunction, py_max.
  destruct (max_from_first Quality.cyclomatic l [] f0 [])
    as [before [f [after [Heq [Hmax [Hb Ha]]]]]]; try constructor.
  exists before, f, after. simpl in Heq. rewrite Hmax. now repeat split.
Qed.

(** C3 (counterexample).  A method declared on line 2 and a
    module-level function declared on line 4 both have complexity 1;
    the walk reaches the module-level function first, and it is the one
    reported.  And a file that parses and has a function can have no
    most complex function at all: below a literal of more than 4300
    digits the run ends in the [except] branch and the report says
    null. *)
Lemma C3_lowest_line_not_reported :
  (exists functions sm,
     Quality.findings
       (Samples.one_file "method_first.py" Samples.method_first_source
          Samples.method_first_tree) "method_first.py" = Ok (functions, sm)
     /\ map Quality.fn_name functions = ["f"; "m"]
     /\ map Quality.fn_line functions = [4; 2]
     /\ map Quality.cyclomatic functions = [1; 1]
     /\ Quality.mostComplexFunction functions = Some "f"
     /\ ~ lowest_line_among_most_complex functions
            (Quality.mostComplexFunction functions))
  /\ parsed Samples.huge_literal_tree = true
  /\ map name_of (filter is_FunctionDef (walk Samples.huge_literal_tree))
     = ["f"]
  /\ Quality.findings
       (Samples.one_file "huge.py" Samples.huge_literal_source
          Samples.huge_literal_tree) "huge.py"
     = Raise (ValueError str_limit_message)
  /\ member_in "complexity" "mostComplexFunction"
       (Quality.analyze_file
          (Samples.one_file "huge.py" Samples.huge_literal_source
             Samples.huge_literal_tree) "huge.py")
     = Some JNull.
Proof.
  split;
    [|split; [vm_compute; reflexivity|];
      split; [vm_compute; reflexivity|];
      split; [exact huge_literal_run_fails|];
      unfold Quality.analyze_file; now rewrite huge_literal_run_fails].
  do 2 eexists. split; [vm_compute; reflexivity|].
  repeat (split; [reflexivity|]).
  intros [f [Hin [Hname [_ Hline]]]].
  simpl in Hin. destruct Hin as [<-|[<-|[]]].
  - specialize (Hline _ (or_intror (or_introl eq_refl)) eq_refl).
    simpl in Hline. lia.
  - vm_compute in Hname. discriminate.
Qed.

(** C3 (amended).  On a parsed file in which every integer literal
    above 10 can be printed, the function entries are the function
    definitions in the order [ast.walk] yields them (breadth first);
    otherwise the report has no entries.  In both cases
    [mostComplexFunction] names the first entry of the report's list
    whose complexity no entry exceeds: every entry before it is
    strictly less complex.  Without entries it is null. *)
Theorem C3_most_complex_function E path content tree :
  open_read E path = Ok content -> ast_parse E content path = Ok tree ->
  parsed tree = true ->
  quality_functions E path
  = (if literals_within_limit tree
     then map measured_function (filter is_FunctionDef (walk tree))
     else [])
  /\ member_in "complexity" "mostComplexFunction"
       (Quality.analyze_file E path)
     = Some (Quality.json_of_name
               (Quality.mostComplexFunction (quality_functions E path)))
  /\ first_among_most_complex (quality_functions E path)
       (Quality.mostComplexFunction (quality_functions E path))
  /\ Quality.mostComplexFunction [] = None.
Proof.
  intros Hr Hp Ht.
  split; [now apply (quality_functions_within_limit E path content tree)|].
  split; [|split; [apply most_complex_first|reflexivity]].
  unfold quality_functions, Quality.analyze_file.
  now destruct (Quality.findings E path) as [[functions sm]|e].
Qed.

Lemma C3_most_complex_function_witness :
  map Quality.fn_name
    (quality_functions
       (Samples.one_file "method_first.py" Samples.method_first_source
          Samples.method_first_tree) "method_first.py") = ["f"; "m"]
  /\ member_in "complexity" "mostComplexFunction"
       (Quality.analyze_file
          (Samples.one_file "method_first.py" Samples.method_first_source
             Samples.method_first_tree) "method_first.py")
     = Some (JStr "f").
Proof.
  destruct (C3_most_complex_function
              (Samples.one_file "method_first.py" Samples.method_first_source
                 Samples.method_first_tree)
              "method_first.py" Samples.method_first_source
              Samples.method_first_tree)
    as [Hfound [Hreported _]];
    [reflexivity | vm_compute; reflexivity | vm_compute; reflexivity |].
  split.
  - rewrite Hfound. vm_compute. reflexivity.
  - rewrite Hreported, Hfound. vm_compute. reflexivity.
Defined.

(** ** C7: the focus filter *)

Lemma restrict_has_type focus_area every :
  restrict_to_focus focus_area every
  = match focus_types focus_area with
    | Some types => filter (has_type types) every
    | None => every
    end.
Proof.
  unfold restrict_to_focus. destruct (focus_types focus_area);
    [|reflexivity].
  symmetry. apply filter_has_type.
Qed.

Lemma focus_types_none focus_area :
  focus_types focus_area = None
  <-> ~ In focus_area ["performance"; "maintainability"; "readability"].
Proof.
  unfold focus_types.
  destruct (String.eqb_spec focus_area "performance") as [->|H1];
    [split; [discriminate|intros H; exfalso; apply H; simpl; tauto]|].
  destruct (String.eqb_spec focus_area "maintainability") as [->|H2];
    [split; [discriminate|intros H; exfalso; apply H; simpl; tauto]|].
  destruct (String.eqb_spec focus_area "readability") as [->|H3];
    [split; [discriminate|intros H; exfalso; apply H; simpl; tauto]|].
  split; [|reflexivity]. intros _ [H|[H|[H|[]]]]; congruence.
Qed.

(** C7.  For every file and every focus value, the opportunity list of
    the refactoring report is the list found under ["all"] with the
    entries whose type is not among those of the focus area left out
    and the others kept as they are, in order: LONG_FUNCTION for
    ["performance"]; LONG_FUNCTION, LONG_PARAMETER_LIST and
    MAGIC_NUMBER for ["maintainability"]; LONG_LINE and MAGIC_NUMBER
    for ["readability"].  Any other value gives the list of ["all"]
    itself.  A run fails under a focus exactly when it fails under
    ["all"], and then both lists are empty. *)
Theorem C7_focus_filter E path focus_area :
  refactoring_found E path focus_area
  = match focus_types focus_area with
    | Some types => filter (has_type types) (refactoring_found E path "all")
    | None => refactoring_found E path "all"
    end
  /\ member_of "opportunities" (Refactoring.analyze_file E path focus_area)
     = Some (JList (map Refactoring.json_of_opportunity
                      (refactoring_found E path focus_area)))
  /\ (forall e,
        Refactoring.opportunities_of E path focus_area = Raise e
        <-> Refactoring.opportunities_of E path "all" = Raise e)
  /\ focus_types "performance" = Some ["LONG_FUNCTION"]
  /\ focus_types "maintainability"
     = Some ["LONG_FUNCTION"; "LONG_PARAMETER_LIST"; "MAGIC_NUMBER"]
  /\ focus_types "readability" = Some ["LONG_LINE"; "MAGIC_NUMBER"]
  /\ (focus_types focus_area = None
      <-> ~ In focus_area ["performance"; "maintainability"; "readability"]).
Proof.
  split; [|split; [|split]].
  - rewrite refactoring_found_restrict. apply restrict_has_type.
  - unfold refactoring_found, Refactoring.analyze_file.
    now destruct (Refactoring.opportunities_of E path focus_area).
  - intros e. rewrite (opportunities_of_all E path focus_area).
    destruct (Refactoring.opportunities_of E path "all");
      split; congruence.
  - repeat (split; [reflexivity|]). apply focus_types_none.
Qed.

Lemma C7_focus_filter_witness :
  map Refactoring.opp_type
    (refactoring_found
       (Samples.one_file "mixed.py" Samples.mixed_source Samples.mixed_tree)
       "mixed.py" "all")
  = ["LONG_FUNCTION"; "LONG_PARAMETER_LIST"; "MAGIC_NUMBER"; "LONG_LINE"]
  /\ map Refactoring.opp_type
       (refactoring_found
          (Samples.one_file "mixed.py" Samples.mixed_source
             Samples.mixed_tree) "mixed.py" "performance")
     = ["LONG_FUNCTION"]
  /\ map Refactoring.opp_type
       (refactoring_found
          (Samples.one_file "mixed.py" Samples.mixed_source
             Samples.mixed_tree) "mixed.py" "maintainability")
     = ["LONG_FUNCTION"; "LONG_PARAMETER_LIST"; "MAGIC_NUMBER"]
  /\ map Refactoring.opp_type
       (refactoring_found
          (Samples.one_file "mixed.py" Samples.mixed_source
             Samples.mixed_tree) "mixed.py" "readability")
     = ["MAGIC_NUMBER"; "LONG_LINE"]
  /\ map Refactoring.opp_type
       (refactoring_found
          (Samples.one_file "mixed.py" Samples.mixed_source
             Samples.mixed_tree) "mixed.py" "speed")
     = ["LONG_FUNCTION"; "LONG_PARAMETER_LIST"; "MAGIC_NUMBER"; "LONG_LINE"].
Proof.
  split; [vm_compute; reflexivity|].
  split; [|split; [|split]].
  - rewrite (proj1 (C7_focus_filter
                      (Samples.one_file "mixed.py" Samples.mixed_source
                         Samples.mixed_tree) "mixed.py" "performance")).
    vm_compute. reflexivity.
  - rewrite (proj1 (C7_focus_filter
                      (Samples.one_file "mixed.py" Samples.mixed_source
                         Samples.mixed_tree) "mixed.py" "maintainability")).
    vm_compute. reflexivity.
  - rewrite (proj1 (C7_focus_filter
                      (Samples.one_file "mixed.py" Samples.mixed_source
                         Samples.mixed_tree) "mixed.py" "readability")).
    vm_compute. reflexivity.
  - rewrite (proj1 (C7_focus_filter
                      (Samples.one_file "mixed.py" Samples.mixed_source
                         Samples.mixed_tree) "mixed.py" "speed")).
    vm_compute. reflexivity.
Defined.

(** ** Lines and comment lines *)

Lemma lstrip_head s :
  lstrip s = EmptyString
  \/ exists c rest, lstrip s = String c rest /\ isspace c = false.
Proof.
  induction s as [|c rest IH]; simpl; [now left|].
  destruct (isspace c) eqn:Hc; [assumption|]. right. eauto.
Qed.

Lemma rstrip_head c rest :
  isspace c = false -> exists kept, rstrip (String c rest) = String c kept.
Proof.
  intros Hc. simpl. rewrite Hc. destruct (rstrip rest); eauto.
Qed.

Lemma prefix_empty s : String.prefix EmptyString s = true.
Proof. now destruct s. Qed.

Lemma prefix_one a c s :
  String.prefix (String a EmptyString) (String c s)
  = if ascii_dec a c then true else false.
Proof.
  cbn [String.prefix]. destruct (ascii_dec a c); [apply prefix_empty|].
  reflexivity.
Qed.

Lemma is_comment_lstrip line :
  Refactoring.is_comment line = startswith (lstrip line) "#".
Proof.
  unfold Refactoring.is_comment, strip.
  destruct (lstrip_head line) as [->|[c [rest [-> Hc]]]]; [reflexivity|].
  destruct (rstrip_head c rest Hc) as [kept ->].
  unfold startswith. now rewrite !prefix_one.
Qed.

Lemma enumerate_from_In {A} (l : list A) : forall k i x,
  In (i, x) (enumerate_from k l) ->
  k <= i < k + len l /\ nth_error l (Z.to_nat (i - k)) = Some x.
Proof.
  induction l as [|y l IH]; intros k i x Hin; simpl in Hin; [contradiction|].
  destruct Hin as [Hin|Hin].
  - injection Hin as <- <-. split.
    + unfold len. simpl List.length. lia.
    + now rewrite Z.sub_diag.
  - apply IH in Hin. destruct Hin as [Hrange Hnth]. split.
    + unfold len in *. simpl List.length. lia.
    + replace (Z.to_nat (i - k)) with (S (Z.to_nat (i - (k + 1)))) by lia.
      exact Hnth.
Qed.

Lemma is_comment_spec line :
  Refactoring.is_comment line = comment_line line.
Proof.
  rewrite is_comment_lstrip. unfold comment_line.
  induction line as [|c rest IH]; [reflexivity|].
  cbn [lstrip first_visible]. destruct (isspace c); [exact IH|].
  unfold startswith. rewrite prefix_one.
  destruct (ascii_dec "#" c) as [<-|Hc]; [reflexivity|].
  symmetry. apply Ascii.eqb_neq. congruence.
Qed.

Lemma enumerate_from_nth {A} (l : list A) : forall k i x,
  nth_error l i = Some x -> In (k + Z.of_nat i, x) (enumerate_from k l).
Proof.
  induction l as [|y l IH]; intros k [|i] x Hnth; simpl in Hnth;
    try discriminate.
  - injection Hnth as ->. left. f_equal. lia.
  - right. replace (k + Z.of_nat (S i)) with (k + 1 + Z.of_nat i) by lia.
    now apply IH.
Qed.

(** ** C6: long lines *)

Lemma filter_filter_implies {A} (p q : A -> bool) (l : list A) :
  (forall x, p x = true -> q x = true) ->
  filter p (filter q l) = filter p l.
Proof.
  intros Hpq. induction l as [|x l IH]; simpl; [reflexivity|].
  destruct (q x) eqn:Hq; simpl.
  - now rewrite IH.
  - destruct (p x) eqn:Hp; [|exact IH].
    rewrite (Hpq x Hp) in Hq. discriminate.
Qed.

Lemma filter_filter_excludes {A} (p q : A -> bool) (l : list A) :
  (forall x, q x = true -> p x = false) -> filter p (filter q l) = [].
Proof.
  intros Hqp. induction l as [|x l IH]; simpl; [reflexivity|].
  destruct (q x) eqn:Hq; simpl; [|exact IH].
  now rewrite (Hqp x Hq).
Qed.

Lemma long_lines_kept focus_area every :
  keeps_long_lines focus_area = true ->
  filter (Refactoring.type_in ["LONG_LINE"]) (restrict_to_focus focus_area every)
  = filter (Refactoring.type_in ["LONG_LINE"]) every.
Proof.
  unfold keeps_long_lines, restrict_to_focus, focus_types.
  destruct (String.eqb focus_area "performance"); [discriminate|].
  destruct (String.eqb focus_area "maintainability"); [discriminate|].
  destruct (String.eqb focus_area "readability"); [|reflexivity].
  intros _. apply filter_filter_implies. intros o.
  unfold Refactoring.type_in. simpl. rewrite !orb_false_r. now intros ->.
Qed.

Lemma long_lines_dropped focus_area every :
  keeps_long_lines focus_area = false ->
  filter (Refactoring.type_in ["LONG_LINE"]) (restrict_to_focus focus_area every)
  = [].
Proof.
  unfold keeps_long_lines, restrict_to_focus, focus_types.
  destruct (String.eqb focus_area "performance").
  - intros _. apply filter_filter_excludes. intros o.
    unfold Refactoring.type_in. simpl. rewrite !orb_false_r.
    intros H. apply String.eqb_eq in H. now rewrite H.
  - destruct (String.eqb focus_area "maintainability").
    + intros _. apply filter_filter_excludes. intros o.
      unfold Refactoring.type_in. simpl. rewrite !orb_false_r.
      intros H. apply orb_true_iff in H.
      destruct H as [H|H]; [|apply orb_true_iff in H; destruct H as [H|H]];
        apply String.eqb_eq in H; now rewrite H.
    + destruct (String.eqb focus_area "readability"); discriminate.
Qed.

Lemma long_lines_of_tree path t :
  filter (Refactoring.type_in ["LONG_LINE"])
    (flat_map (tree_opportunities path) t) = [].
Proof.
  rewrite filter_flat_map. apply flat_map_nothing. intros n.
  unfold tree_opportunities. rewrite filter_app.
  destruct (span_exceeds 30 n), (has_long_parameter_list n); reflexivity.
Qed.

Lemma long_lines_of_lines path l :
  filter (Refactoring.type_in ["LONG_LINE"])
    (flat_map (line_opportunities path) l)
  = map (fun numbered =>
           Refactoring.long_line path (snd numbered) (fst numbered))
        (filter (fun numbered => flags_long_line (snd numbered)) l).
Proof.
  rewrite filter_flat_map, <- flat_map_optional.
  apply flat_map_ext_all. intros [i line].
  unfold line_opportunities. rewrite filter_app. simpl.
  destruct (flags_long_line line), (flagged_number line); reflexivity.
Qed.

Lemma flags_long_line_iff line :
  flags_long_line line = true
  <-> (100 < String.length line)%nat /\ comment_line line = false.
Proof.
  unfold flags_long_line. rewrite is_comment_spec.
  rewrite andb_true_iff, negb_true_iff, Z.gtb_lt. intuition lia.
Qed.

Lemma long_lines_found E path focus_area content tree :
  open_read E path = Ok content -> ast_parse E content path = Ok tree ->
  parsed tree = true ->
  filter (has_type ["LONG_LINE"]) (refactoring_found E path focus_area)
  = if digit_runs_within_limit content && keeps_long_lines focus_area
    then map (fun numbered =>
                Refactoring.long_line path (snd numbered) (fst numbered))
             (filter (fun numbered =>
                        (Z.of_nat (String.length (snd numbered)) >? 100)
                        && negb (comment_line (snd numbered)))
                     (enumerate (split_lines content)))
    else [].
Proof.
  intros Hr Hp Ht.
  rewrite (refactoring_found_within_limit E path focus_area content tree)
    by assumption.
  destruct (digit_runs_within_limit content); [|reflexivity].
  rewrite filter_has_type, filter_focus_restrict. cbn [andb].
  destruct (keeps_long_lines focus_area) eqn:Hkeep.
  - rewrite long_lines_kept by assumption.
    rewrite filter_app, long_lines_of_tree, long_lines_of_lines.
    cbn [app]. f_equal. apply filter_ext. intros [i line].
    unfold flags_long_line. cbn [snd]. now rewrite is_comment_spec.
  - now apply long_lines_dropped.
Qed.

(** C6 (counterexample).  A statement of 101 characters is not reported
    under the focus ["performance"], nor in a file that does not parse;
    and a line of 4309 characters that is not a comment line is not
    reported when it holds a run of 4301 digits. *)
Lemma C6_long_line_not_reported :
  ~ long_lines_reported
      (Samples.one_file "widths.py" Samples.widths_source Samples.widths_tree)
      "widths.py" "performance" Samples.widths_source
  /\ ~ long_lines_reported
        (Samples.unparsable_file "widths.py" Samples.widths_source 1)
        "widths.py" "all" Samples.widths_source
  /\ ~ long_lines_reported
        (Samples.one_file "long_run.py" Samples.long_run_source
           Samples.long_run_tree)
        "long_run.py" "all" Samples.long_run_source.
Proof.
  split; [|split]; intros Hclaim.
  - destruct (Hclaim 1%nat ("y = '" +++ Samples.repeat_char 95 "a" +++ "'"))
      as [_ Hreported]; [reflexivity|reflexivity|].
    destruct Hreported as [o [Ho _]]; [vm_compute; lia|].
    vm_compute in Ho. exact Ho.
  - destruct (Hclaim 1%nat ("y = '" +++ Samples.repeat_char 95 "a" +++ "'"))
      as [_ Hreported]; [reflexivity|reflexivity|].
    destruct Hreported as [o [Ho _]]; [vm_compute; lia|].
    vm_compute in Ho. exact Ho.
  - destruct (Hclaim 0%nat ("x = 5 # " +++ Samples.repeat_char 4301 "1"))
      as [_ Hreported];
      [vm_compute; reflexivity|vm_compute; reflexivity|].
    destruct Hreported as [o [Ho _]];
      [apply Nat.ltb_lt; vm_compute; reflexivity|].
    vm_compute in Ho. exact Ho.
Qed.

(** C6 (amended).  On a file that reads and parses and in which [int]
    accepts every digit run it is given, under every focus that shows
    long lines (["all"], ["readability"], any unrecognized value), the
    LONG_LINE findings of the refactoring report are, in order, one for
    each line of the raw text that is longer than 100 characters and
    whose first character after the leading whitespace is not [#], at
    its 1-based line number; under ["performance"] and
    ["maintainability"], and when [int] refuses a digit run, there
    is none.  Every such finding has priority ["low"].  A line of 101
    characters is flagged and one of 100 is not; a comment line is
    never flagged.  The code's test, [line.strip().startswith('#')],
    holds exactly of the lines whose first character after the leading
    whitespace is [#]. *)
Theorem C6_long_lines E path focus_area content tree :
  open_read E path = Ok content -> ast_parse E content path = Ok tree ->
  parsed tree = true ->
  filter (has_type ["LONG_LINE"]) (refactoring_found E path focus_area)
  = (if digit_runs_within_limit content && keeps_long_lines focus_area
     then map (fun numbered =>
                 Refactoring.long_line path (snd numbered) (fst numbered))
              (filter (fun numbered =>
                         (Z.of_nat (String.length (snd numbered)) >? 100)
                         && negb (comment_line (snd numbered)))
                      (enumerate (split_lines content)))
     else [])
  /\ Forall (fun o => Refactoring.priority o = "low"
                      /\ exists i, Refactoring.location_line o = i + 1)
       (filter (has_type ["LONG_LINE"]) (refactoring_found E path focus_area))
  /\ (digit_runs_within_limit content = true ->
      keeps_long_lines focus_area = true ->
      long_lines_reported E path focus_area content)
  /\ (forall line,
        flags_long_line line = true
        <-> (100 < String.length line)%nat /\ comment_line line = false)
  /\ (forall line, String.length line = 101%nat ->
        comment_line line = false -> flags_long_line line = true)
  /\ (forall line, String.length line = 100%nat ->
        flags_long_line line = false)
  /\ (forall line, comment_line line = true -> flags_long_line line = false)
  /\ (forall line, startswith (strip line) "#" = comment_line line).
Proof.
  intros Hr Hp Ht.
  pose proof (long_lines_found E path focus_area content tree Hr Hp Ht)
    as Hfound.
  split; [exact Hfound|]. split; [|split].
  - rewrite Hfound.
    destruct (digit_runs_within_limit content && keeps_long_lines focus_area);
      [|constructor].
    apply Forall_forall. intros o Ho. apply in_map_iff in Ho.
    destruct Ho as [[i line] [<- _]]. split; [reflexivity|].
    now exists i.
  - intros Hruns Hkeep i line Hnth Hcomment.
    rewrite Hruns, Hkeep in Hfound. cbn [andb] in Hfound.
    unfold reports_long_line. split.
    + intros [o [Ho [Htype Hline]]].
      assert (Hin : In o (filter (has_type ["LONG_LINE"])
                            (refactoring_found E path focus_area))).
      { apply filter_In. split; [assumption|].
        unfold has_type. rewrite Htype.
        now destruct (in_dec string_dec "LONG_LINE" ["LONG_LINE"]) as [|[]];
          [|left]. }
      rewrite Hfound in Hin. apply in_map_iff in Hin.
      destruct Hin as [[k line'] [<- Hin]]. apply filter_In in Hin.
      destruct Hin as [Hin Hflag]. cbn [fst snd] in *.
      apply enumerate_from_In in Hin. destruct Hin as [Hk Hline'].
      simpl in Hline.
      replace (Z.to_nat (k - 0)) with i in Hline' by lia.
      rewrite Hnth in Hline'. injection Hline' as <-.
      apply andb_true_iff in Hflag. destruct Hflag as [Hlong _].
      apply Z.gtb_lt in Hlong. lia.
    + intros Hlong.
      exists (Refactoring.long_line path line (Z.of_nat i)).
      split; [|split; reflexivity].
      assert (Hin : In (Refactoring.long_line path line (Z.of_nat i))
                      (filter (has_type ["LONG_LINE"])
                         (refactoring_found E path focus_area))).
      { rewrite Hfound.
        apply (in_map (fun numbered =>
                         Refactoring.long_line path (snd numbered)
                           (fst numbered)) _ (Z.of_nat i, line)).
        apply filter_In. split.
        - apply (enumerate_from_nth (split_lines content) 0 i line Hnth).
        - cbn [snd]. rewrite Hcomment. apply andb_true_iff.
          split; [apply Z.gtb_lt; lia|reflexivity]. }
      now apply filter_In in Hin.
  - split; [exact flags_long_line_iff|]. repeat split.
    + intros line Hlen Hc. apply flags_long_line_iff.
      split; [lia|exact Hc].
    + intros line Hlen. unfold flags_long_line. rewrite Hlen. reflexivity.
    + intros line Hc. unfold flags_long_line.
      rewrite is_comment_spec, Hc. apply andb_false_r.
    + exact is_comment_spec.
Qed.

Lemma C6_long_lines_witness :
  map Refactoring.location_line
    (filter (has_type ["LONG_LINE"])
       (refactoring_found
          (Samples.one_file "margins.py" Samples.margins_source
             Samples.margins_tree) "margins.py" "all")) = [2]
  /\ map (fun line => (Z.of_nat (String.length line), comment_line line))
       (split_lines Samples.margins_source)
     = [(114, true); (101, false); (100, false); (0, false)].
Proof.
  destruct (C6_long_lines
              (Samples.one_file "margins.py" Samples.margins_source
                 Samples.margins_tree)
              "margins.py" "all" Samples.margins_source Samples.margins_tree)
    as [Hlines _];
    [reflexivity | vm_compute; reflexivity | vm_compute; reflexivity |].
  split; [|vm_compute; reflexivity].
  rewrite Hlines. vm_compute. reflexivity.
Defined.

(** ** Numerals *)

Lemma decimal_inj a b : decimal a = decimal b -> a = b.
Proof.
  unfold decimal. intros H. apply DecimalZ.to_int_inj.
  assert (Hnz : forall z, Z.to_int z <> Decimal.Pos Decimal.Nil
                          /\ Z.to_int z <> Decimal.Neg Decimal.Nil).
  { intros [|p|p]; simpl; split; try discriminate;
      intros [= Hp]; now apply DecimalPos.Unsigned.to_uint_nonnil in Hp. }
  pose proof (NilZero.isi (Z.to_int a) (proj1 (Hnz a)) (proj2 (Hnz a))) as Ha.
  pose proof (NilZero.isi (Z.to_int b) (proj1 (Hnz b)) (proj2 (Hnz b))) as Hb.
  rewrite H in Ha. congruence.
Qed.

Lemma append_inv_head p a b : p +++ a = p +++ b -> a = b.
Proof.
  induction p as [|c p IH]; simpl; [auto|]. intros [= H]. now apply IH.
Qed.

Lemma length_append_sum a s :
  String.length (a +++ s) = (String.length a + String.length s)%nat.
Proof. induction a as [|c a IH]; simpl; [reflexivity|now rewrite IH]. Qed.

Lemma append_inv_tail s : forall a b, a +++ s = b +++ s -> a = b.
Proof.
  induction a as [|c a IH]; intros [|d b] H; simpl in H.
  - reflexivity.
  - apply (f_equal String.length) in H. simpl in H.
    rewrite length_append_sum in H. lia.
  - apply (f_equal String.length) in H. simpl in H.
    rewrite length_append_sum in H. lia.
  - injection H as -> H. f_equal. now apply IH.
Qed.

(** ** C2: the magic-number allow-list *)

Lemma bind_Ok {A B} (c : result A) (k : A -> result B) b :
  bind c k = Ok b -> exists a, c = Ok a /\ k a = Ok b.
Proof. destruct c as [a|e]; simpl; [eauto|discriminate]. Qed.

Lemma foldM_invariant {S A} (P : S -> Prop) (body : S -> A -> result S) l :
  (forall s x s', P s -> body s x = Ok s' -> P s') ->
  forall s s', P s -> foldM body l s = Ok s' -> P s'.
Proof.
  intros Hstep. induction l as [|x l IH]; simpl; intros s s' Hs Hfold.
  - now injection Hfold as <-.
  - apply bind_Ok in Hfold. destruct Hfold as [s1 [H1 Hrest]].
    apply (IH s1); [|assumption]. now apply (Hstep s x).
Qed.

Lemma check_parameters_magic sm n sm' :
  Quality.check_parameters sm n = Ok sm' ->
  Quality.magicNumbers sm' = Quality.magicNumbers sm.
Proof.
  unfold Quality.check_parameters. intros H.
  apply bind_Ok in H. destruct H as [params [_ H]].
  destruct (params >? 5); [|now injection H as <-].
  apply bind_Ok in H. destruct H as [line [_ H]].
  apply bind_Ok in H. destruct H as [name [_ H]].
  now injection H as <-.
Qed.

Lemma check_length_magic sm n sm' :
  Quality.check_length sm n = Ok sm' ->
  Quality.magicNumbers sm' = Quality.magicNumbers sm.
Proof.
  unfold Quality.check_length. intros H.
  destruct (end_lineno n) as [last|]; [|now injection H as <-].
  destruct (last =? 0); [now injection H as <-|].
  apply bind_Ok in H. destruct H as [first [_ H]].
  destruct (last - first >? 50); [|now injection H as <-].
  apply bind_Ok in H. destruct H as [name [_ H]].
  now injection H as <-.
Qed.

Lemma check_handler_magic sm h sm' :
  Quality.check_handler sm h = Ok sm' ->
  Quality.magicNumbers sm' = Quality.magicNumbers sm.
Proof.
  unfold Quality.check_handler. intros H.
  apply bind_Ok in H. destruct H as [body [_ H]].
  destruct (negb (truthy body)); now injection H as <-.
Qed.

Lemma str_int_Ok z shown : str_int z = Ok shown -> shown = decimal z.
Proof.
  rewrite str_int_spec. destruct (within_limit z); [|discriminate].
  now intros [= <-].
Qed.

Lemma check_constant_magic sm n sm' :
  Forall above_10 (Quality.magicNumbers sm) ->
  Quality.check_constant sm n = Ok sm' ->
  Forall above_10 (Quality.magicNumbers sm').
Proof.
  unfold Quality.check_constant. intros Hsm H.
  apply bind_Ok in H. destruct H as [v [_ H]].
  destruct v as [| |[|b|z|s|r]]; try (now injection H as <-).
  destruct (Z.gtb_spec z 10); [|now injection H as <-].
  apply bind_Ok in H. destruct H as [shown [Hshown H]].
  apply str_int_Ok in Hshown. subst shown.
  injection H as <-. simpl. apply Forall_app. split; [assumption|].
  constructor; [|constructor]. do 2 eexists. split; [reflexivity|assumption].
Qed.

Lemma visit_smell_magic sm n sm' :
  Forall above_10 (Quality.magicNumbers sm) ->
  Quality.visit_smell sm n = Ok sm' ->
  Forall above_10 (Quality.magicNumbers sm').
Proof.
  unfold Quality.visit_smell. intros Hsm H.
  destruct (isinstance n "FunctionDef").
  - apply bind_Ok in H. destruct H as [sm1 [H1 H2]].
    apply check_parameters_magic in H1. apply check_length_magic in H2.
    congruence.
  - destruct (isinstance n "Try").
    + apply bind_Ok in H. destruct H as [handlers [_ H]].
      apply bind_Ok in H. destruct H as [items [_ H]].
      revert H.
      apply (foldM_invariant
               (fun s => Forall above_10 (Quality.magicNumbers s)));
        [|assumption].
      intros s h s' Hs Hh. apply check_handler_magic in Hh. congruence.
    + destruct (isinstance n "Constant").
      * now apply (check_constant_magic sm n).
      * now injection H as <-.
Qed.

Lemma quality_magic_above_10 E path :
  Forall above_10 (quality_magic_numbers E path).
Proof.
  unfold quality_magic_numbers, Quality.findings.
  destruct (open_read E path) as [content|e]; simpl; [|constructor].
  destruct (ast_parse E content path) as [tree|e]; simpl; [|constructor].
  unfold Quality.collect.
  destruct (foldM Quality.visit_function (walk tree) []) as [functions|e];
    simpl; [|constructor].
  destruct (foldM Quality.visit_smell (walk tree) Quality.no_smells)
    as [sm|e] eqn:Hsm; simpl; [|constructor].
  revert Hsm.
  apply (foldM_invariant (fun s => Forall above_10 (Quality.magicNumbers s)));
    [|constructor].
  intros s n s'. apply visit_smell_magic.
Qed.

Lemma member_In x l : Refactoring.member x l = false -> ~ In x l.
Proof.
  unfold Refactoring.member. intros H Hin.
  assert (existsb (Z.eqb x) l = true)
    by (apply existsb_exists; exists x; split; [assumption|apply Z.eqb_refl]).
  congruence.
Qed.

Lemma refactoring_visit_outside path opportunities n opportunities' :
  Forall (outside_allow_list path) opportunities ->
  Refactoring.visit path opportunities n = Ok opportunities' ->
  Forall (outside_allow_list path) opportunities'.
Proof.
  unfold Refactoring.visit. intros Hopp H.
  destruct (isinstance n "FunctionDef"); [|now injection H as <-].
  apply bind_Ok in H. destruct H as [after_length [Hlen H]].
  assert (Hafter : Forall (outside_allow_list path) after_length).
  { destruct (end_lineno n) as [last|]; [|now injection Hlen as <-].
    destruct (last =? 0); [now injection Hlen as <-|].
    apply bind_Ok in Hlen. destruct Hlen as [first [_ Hlen]].
    destruct (last - first >? 30); [|now injection Hlen as <-].
    apply bind_Ok in Hlen. destruct Hlen as [name [_ Hlen]].
    injection Hlen as <-. apply Forall_app. split; [assumption|].
    constructor; [|constructor]. intros Htype. discriminate. }
  apply bind_Ok in H. destruct H as [params [_ H]].
  destruct (params >? 5); [|now injection H as <-].
  apply bind_Ok in H. destruct H as [name [_ H]].
  apply bind_Ok in H. destruct H as [line [_ H]].
  injection H as <-. apply Forall_app. split; [assumption|].
  constructor; [|constructor]. intros Htype. discriminate.
Qed.

Lemma line_opportunities_outside path numbered :
  Forall (outside_allow_list path) (line_opportunities path numbered).
Proof.
  unfold line_opportunities. apply Forall_app. split.
  - destruct (flags_long_line (snd numbered)); constructor; [|constructor].
    intros Htype. discriminate.
  - unfold flagged_number.
    destruct (re_search magic_pattern (snd numbered)) as [matched|];
      [|constructor].
    destruct (Refactoring.is_comment (snd numbered)); cbn [negb andb];
      [constructor|].
    destruct (Refactoring.member (int_value matched) Refactoring.allow_list)
      eqn:Hmember; cbn [negb]; constructor; [|constructor].
    intros _. do 2 eexists. split; [reflexivity|now apply member_In].
Qed.

Lemma visit_line_Ok path l found found' :
  foldM (Refactoring.visit_line path) l found = Ok found' ->
  found' = found ++ flat_map (line_opportunities path) l.
Proof.
  rewrite visit_line_spec.
  destruct (first_long_run (map snd l)); [discriminate|].
  now intros [= <-].
Qed.

Lemma detect_outside path lines tree found :
  Refactoring.detect path lines tree = Ok found ->
  Forall (outside_allow_list path) found.
Proof.
  unfold Refactoring.detect. intros H.
  apply bind_Ok in H. destruct H as [of_tree [Htree Hlines]].
  apply visit_line_Ok in Hlines. subst found.
  apply Forall_app. split.
  - revert Htree.
    apply (foldM_invariant (Forall (outside_allow_list path)));
      [|constructor].
    intros s n s'. apply refactoring_visit_outside.
  - apply Forall_forall. intros o Ho. apply in_flat_map in Ho.
    destruct Ho as [numbered [_ Ho]].
    pose proof (line_opportunities_outside path numbered) as Hall.
    rewrite Forall_forall in Hall. now apply Hall.
Qed.

Lemma Forall_filter_sub {A} (P : A -> Prop) (p : A -> bool) l :
  Forall P l -> Forall P (filter p l).
Proof.
  rewrite !Forall_forall. intros H x Hx. apply filter_In in Hx.
  now apply H.
Qed.

Lemma refactoring_magic_outside E path focus_area :
  Forall (fun o => exists num i,
            o = Refactoring.magic_number path (decimal num) i
            /\ ~ In num Refactoring.allow_list)
         (refactoring_magic_numbers E path focus_area).
Proof.
  unfold refactoring_magic_numbers, Refactoring.opportunities_of.
  destruct (open_read E path) as [content|e]; simpl; [|constructor].
  destruct (ast_parse E content path) as [tree|e]; simpl; [|constructor].
  destruct (Refactoring.detect path (split_lines content) tree)
    as [found|e] eqn:Hfound; simpl; [|constructor].
  apply detect_outside in Hfound.
  rewrite filter_focus_restrict.
  assert (Hkept : Forall (outside_allow_list path)
                    (restrict_to_focus focus_area found)).
  { unfold restrict_to_focus. destruct (focus_types focus_area);
      [now apply Forall_filter_sub|assumption]. }
  apply Forall_forall. intros o Ho. apply filter_In in Ho.
  destruct Ho as [Ho Htype]. rewrite Forall_forall in Hkept.
  now apply (Hkept o Ho).
Qed.

Lemma refactoring_never_reports v E path focus_area :
  In v Refactoring.allow_list -> ~ refactoring_reports v E path focus_area.
Proof.
  intros Hv [o [Ho Hdescription]].
  pose proof (refactoring_magic_outside E path focus_area) as Hall.
  rewrite Forall_forall in Hall.
  destruct (Hall o Ho) as [num [i [-> Hnum]]].
  simpl in Hdescription.
  apply (append_inv_head "Magic number ") in Hdescription.
  change (decimal num +++ " found - should be named constant"
          = decimal v +++ " found - should be named constant")
    in Hdescription.
  apply append_inv_tail, decimal_inj in Hdescription. congruence.
Qed.

Lemma quality_reports_above_10 v E path :
  quality_reports v E path -> 10 < v.
Proof.
  intros [s [Hs Hdescription]].
  pose proof (quality_magic_above_10 E path) as Hall.
  rewrite Forall_forall in Hall.
  destruct (Hall s Hs) as [line [z [-> Hz]]].
  simpl in Hdescription.
  apply (append_inv_head "Magic number: ") in Hdescription.
  apply decimal_inj in Hdescription. congruence.
Qed.

(** C2 (counterexample).  On the fixture the quality analyzer reports
    the loop bound 1000 of line 13 as a magic number, although 1000 is
    on the allow-list of the claim. *)
Lemma C2_quality_reports_1000 :
  ~ allow_list_in_both_reports
      (Samples.one_file "sample.py" Samples.fixture_source
         Samples.fixture_tree) "sample.py" "all".
Proof.
  intros Hclaim.
  destruct (Hclaim 1000) as [Hquality _];
    [simpl; tauto|].
  apply Hquality. exists (magic_smell_of 13 1000).
  split; [vm_compute; left; reflexivity|reflexivity].
Qed.

Lemma quality_magic_within_limit E path content tree :
  open_read E path = Ok content -> ast_parse E content path = Ok tree ->
  parsed tree = true -> literals_within_limit tree = true ->
  quality_magic_numbers E path
  = map (fun n => magic_smell_of (line_of n) (magic_value n))
        (filter is_magic (walk tree)).
Proof.
  intros Hr Hp Ht Hlimit. unfold quality_magic_numbers.
  rewrite (quality_findings_within_limit E path content tree) by assumption.
  now rewrite Hlimit.
Qed.

(** C2 (amended).  For every file and focus, no magic-number finding of
    the refactoring report shows 0, 1, -1, 2, 10, 100 or 1000: each
    shows a number outside the allow-list.  The quality analyzer has no
    allow-list: each of its magic-number findings is an integer literal
    greater than 10, so 0, 1, 2 and 10 never appear there; and on a
    file that reads and parses and whose integer literals above 10 can
    all be printed, it reports every integer literal greater than 10,
    at the literal's line, 100 and 1000 like any other.  The loop bound
    1000 of the fixture is absent from the refactoring report and
    present in the quality report. *)
Theorem C2_magic_number_allow_list E path focus_area :
  Forall (fun v => ~ refactoring_reports v E path focus_area)
    [0; 1; -1; 2; 10; 100; 1000]
  /\ Forall (fun o => exists num i,
               o = Refactoring.magic_number path (decimal num) i
               /\ ~ In num [0; 1; -1; 2; 10; 100; 1000])
       (refactoring_magic_numbers E path focus_area)
  /\ Forall (fun v => ~ quality_reports v E path) [0; 1; 2; 10]
  /\ Forall (fun s => exists line z, s = magic_smell_of line z /\ 10 < z)
       (quality_magic_numbers E path)
  /\ (forall content tree,
        open_read E path = Ok content -> ast_parse E content path = Ok tree ->
        parsed tree = true -> literals_within_limit tree = true ->
        quality_magic_numbers E path
        = map (fun n => magic_smell_of (line_of n) (magic_value n))
              (filter is_magic (walk tree))
        /\ forall n v,
             In n (walk tree) -> int_literal n = Some v -> 10 < v ->
             quality_reports v E path)
  /\ refactoring_magic_numbers
       (Samples.one_file "sample.py" Samples.fixture_source
          Samples.fixture_tree) "sample.py" "all" = []
  /\ quality_reports 1000
       (Samples.one_file "sample.py" Samples.fixture_source
          Samples.fixture_tree) "sample.py".
Proof.
  split; [|split; [|split; [|split; [|split; [|split]]]]].
  - apply Forall_forall. intros v Hv.
    now apply refactoring_never_reports.
  - apply refactoring_magic_outside.
  - apply Forall_forall. intros v Hv Hreports.
    apply quality_reports_above_10 in Hreports.
    simpl in Hv. lia.
  - apply quality_magic_above_10.
  - intros content tree Hr Hp Ht Hlimit.
    pose proof (quality_magic_within_limit E path content tree Hr Hp Ht Hlimit)
      as Hfound.
    split; [exact Hfound|]. intros n v Hn Hv Hbig.
    exists (magic_smell_of (line_of n) v). split; [|reflexivity].
    rewrite Hfound. apply in_map_iff. exists n.
    unfold magic_value. rewrite Hv. split; [reflexivity|].
    apply filter_In. split; [assumption|].
    unfold is_magic. rewrite Hv. now apply Z.gtb_lt.
  - vm_compute. reflexivity.
  - exists (magic_smell_of 13 1000).
    split; [vm_compute; left; reflexivity|reflexivity].
Qed.

Lemma C2_magic_number_allow_list_witness :
  ~ refactoring_reports 1000
      (Samples.one_file "numbers.py" Samples.numbers_source
         Samples.numbers_tree) "numbers.py" "all"
  /\ map Refactoring.location_line
       (refactoring_magic_numbers
          (Samples.one_file "numbers.py" Samples.numbers_source
             Samples.numbers_tree) "numbers.py" "all") = [1]
  /\ map Quality.description
       (quality_magic_numbers
          (Samples.one_file "numbers.py" Samples.numbers_source
             Samples.numbers_tree) "numbers.py")
     = ["Magic number: 4096"; "Magic number: 1000"; "Magic number: 100"].
Proof.
  destruct (C2_magic_number_allow_list
              (Samples.one_file "numbers.py" Samples.numbers_source
                 Samples.numbers_tree) "numbers.py" "all")
    as [Hnever [_ [_ [_ [Hevery _]]]]].
  split; [|split].
  - rewrite Forall_forall in Hnever. apply Hnever. simpl. tauto.
  - vm_compute. reflexivity.
  - destruct (Hevery Samples.numbers_source Samples.numbers_tree)
      as [Hfound _];
      [reflexivity | vm_compute; reflexivity | vm_compute; reflexivity
      | vm_compute; reflexivity |].
    rewrite Hfound. vm_compute. reflexivity.
Defined.

(** ** C5: the report of a failed run *)

Lemma str_exn_nonempty e :
  read_or_parse_failure e = true -> str_exn e <> EmptyString.
Proof.
  destruct e as [errno strerror filename|encoding detail|msg filename line
                | | | |]; simpl; try discriminate; intros _.
  - destruct msg; discriminate.
Qed.

Lemma performance_fails E path e :
  fails_with E path e -> Performance.findings E path = Raise e.
Proof.
  unfold Performance.findings.
  intros [Hr|[content [Hr Hp]]]; rewrite Hr; simpl; [|rewrite Hp]; reflexivity.
Qed.

Lemma quality_fails E path e :
  fails_with E path e -> Quality.findings E path = Raise e.
Proof.
  unfold Quality.findings.
  intros [Hr|[content [Hr Hp]]]; rewrite Hr; simpl; [|rewrite Hp]; reflexivity.
Qed.

Lemma refactoring_fails E path focus_area e :
  fails_with E path e ->
  Refactoring.opportunities_of E path focus_area = Raise e.
Proof.
  unfold Refactoring.opportunities_of.
  intros [Hr|[content [Hr Hp]]]; rewrite Hr; simpl; [|rewrite Hp]; reflexivity.
Qed.

Lemma quality_report_shape functions sm e :
  shape_of (Quality.error_report e)
  = with_error (shape_of (Quality.report functions sm)).
Proof.
  unfold Quality.report, Quality.error_report, Quality.average,
    Quality.json_of_name.
  destruct (map Quality.cyclomatic functions),
    (map Quality.cognitive functions),
    (Quality.mostComplexFunction functions); reflexivity.
Qed.

(** C5.  When reading or parsing fails with an I/O, decoding or syntax
    error, each analyzer prints its error report: the [error] key holds
    the exception's message, which is not empty; every collection in
    the document is empty and every number is zero; and the document
    has the keys of the success report, at every level, with [error] in
    front. *)
Theorem C5_error_report E path focus_area e :
  fails_with E path e -> read_or_parse_failure e = true ->
  str_exn e <> EmptyString
  /\ Forall (fun doc =>
               member_of "error" doc = Some (JStr (str_exn e))
               /\ defaults_only doc = true)
       [ Performance.analyze_file E path;
         Quality.analyze_file E path;
         Refactoring.analyze_file E path focus_area ]
  /\ (forall st,
        shape_of (Performance.analyze_file E path)
        = with_error (shape_of (Performance.report st)))
  /\ (forall functions sm,
        shape_of (Quality.analyze_file E path)
        = with_error (shape_of (Quality.report functions sm)))
  /\ (forall opportunities,
        shape_of (Refactoring.analyze_file E path focus_area)
        = with_error (shape_of (Refactoring.report focus_area opportunities)))
  /\ member_of "focusArea" (Refactoring.analyze_file E path focus_area)
     = Some (JStr focus_area).
Proof.
  intros Hfail Hkind.
  unfold Performance.analyze_file, Quality.analyze_file,
    Refactoring.analyze_file.
  rewrite (performance_fails E path e Hfail), (quality_fails E path e Hfail),
    (refactoring_fails E path focus_area e Hfail).
  split; [now apply str_exn_nonempty|].
  split; [repeat constructor|].
  split; [reflexivity|].
  split; [intros; apply quality_report_shape|].
  split; reflexivity.
Qed.

Lemma C5_error_report_witness :
  str_exn (OSError 2 "No such file or directory" "missing.py") <> EmptyString
  /\ member_of "error"
       (Performance.analyze_file
          (Samples.one_file "sample.py" Samples.fixture_source
             Samples.fixture_tree) "missing.py")
     = Some (JStr "[Errno 2] No such file or directory: 'missing.py'").
Proof.
  destruct (C5_error_report
              (Samples.one_file "sample.py" Samples.fixture_source
                 Samples.fixture_tree)
              "missing.py" "all"
              (OSError 2 "No such file or directory" "missing.py"))
    as [Hmessage [Hdocs _]]; [left; reflexivity | reflexivity |].
  split; [exact Hmessage|].
  apply Forall_inv in Hdocs. exact (proj1 Hdocs).
Defined.

(* ================================================================= *)
(** * Further properties of the analyzers *)

(** ** The two shapes of a document *)

(** Every document an analyzer prints has one of two fixed shapes: when
    the run reaches the report, the keys of the success report and no
    [error] key; when anything in the [try] block raised, the same keys
    with [error] in front, holding the exception's message. *)
Theorem document_shape E path focus_area :
  match Performance.findings E path with
  | Ok _ =>
      member_of "error" (Performance.analyze_file E path) = None
      /\ shape_of (Performance.analyze_file E path) = performance_schema
  | Raise e =>
      member_of "error" (Performance.analyze_file E path)
      = Some (JStr (str_exn e))
      /\ shape_of (Performance.analyze_file E path)
         = with_error performance_schema
  end
  /\ match Quality.findings E path with
     | Ok _ =>
         member_of "error" (Quality.analyze_file E path) = None
         /\ shape_of (Quality.analyze_file E path) = quality_schema
     | Raise e =>
         member_of "error" (Quality.analyze_file E path)
         = Some (JStr (str_exn e))
         /\ shape_of (Quality.analyze_file E path) = with_error quality_schema
     end
  /\ match Refactoring.opportunities_of E path focus_area with
     | Ok _ =>
         member_of "error" (Refactoring.analyze_file E path focus_area) = None
         /\ shape_of (Refactoring.analyze_file E path focus_area)
            = refactoring_schema
     | Raise e =>
         member_of "error" (Refactoring.analyze_file E path focus_area)
         = Some (JStr (str_exn e))
         /\ shape_of (Refactoring.analyze_file E path focus_area)
            = with_error refactoring_schema
     end
  /\ member_of "focusArea" (Refactoring.analyze_file E path focus_area)
     = Some (JStr focus_area).
Proof.
  unfold Performance.analyze_file, Quality.analyze_file,
    Refactoring.analyze_file.
  split; [|split; [|split]].
  - destruct (Performance.findings E path); split; reflexivity.
  - destruct (Quality.findings E path) as [[functions sm]|e];
      split; try reflexivity.
    unfold Quality.report, Quality.average, Quality.json_of_name.
    destruct (map Quality.cyclomatic functions),
      (map Quality.cognitive functions),
      (Quality.mostComplexFunction functions); reflexivity.
  - destruct (Refactoring.opportunities_of E path focus_area);
      split; reflexivity.
  - destruct (Refactoring.opportunities_of E path focus_area); reflexivity.
Qed.

(** ** What the magic-number pattern can match *)

Lemma search_from_length r :
  digits_only r = true ->
  forall s prev matched,
    search_from r prev s = Some matched ->
    all_digits matched = true
    /\ (min_length r <= String.length matched)%nat.
Proof.
  intros Hr. induction s as [|a rest IH]; intros prev matched Hs;
    cbn [search_from] in Hs.
  - destruct (match_re r prev EmptyString 0 (fun _ _ n => Some n))
      as [n|] eqn:Hm; [|discriminate].
    destruct (match_re_calls EmptyString r Hr _ _ _ _ _
                (ex_intro _ EmptyString (conj eq_refl (conj eq_refl eq_refl))) Hm)
      as [p' [s' [n' [[pre [Hsub [Hlen Hd]]] [Hn' Hk]]]]].
    injection Hk as <-. rewrite Hsub, <- Hlen, substring_prefix in Hs.
    injection Hs as <-. split; [assumption|]. simpl in Hn'. lia.
  - destruct (match_re r prev (String a rest) 0 (fun _ _ n => Some n))
      as [n|] eqn:Hm; [|now apply (IH (Some a))].
    destruct (match_re_calls (String a rest) r Hr _ _ _ _ _
                (ex_intro _ EmptyString (conj eq_refl (conj eq_refl eq_refl))) Hm)
      as [p' [s' [n' [[pre [Hsub [Hlen Hd]]] [Hn' Hk]]]]].
    injection Hk as <-. rewrite Hsub, <- Hlen, substring_prefix in Hs.
    injection Hs as <-. split; [assumption|]. simpl in Hn'. lia.
Qed.

(** Whatever the magic-number pattern matches on a line is a run of at
    least three characters, all decimal digits.  [int] refuses it when
    it is longer than 4300 digits, with a [ValueError] that tells its
    length, and reads it otherwise, to a number that is not negative
    and that [str] prints back without raising. *)
Theorem int_refuses_only_long_runs line matched :
  re_search magic_pattern line = Some matched ->
  all_digits matched = true
  /\ (3 <= String.length matched)%nat
  /\ if Z.of_nat (String.length matched) >? int_max_str_digits
     then py_int matched
          = Raise (ValueError
                     (int_limit_message (Z.of_nat (String.length matched))))
     else exists num,
            py_int matched = Ok num /\ 0 <= num
            /\ str_int num = Ok (decimal num).
Proof.
  intros Hs. pose proof (magic_pattern_int line matched Hs) as Hint.
  apply (search_from_length magic_pattern) in Hs; [|reflexivity].
  destruct Hs as [Hd Hlen]. split; [assumption|]. split; [exact Hlen|].
  destruct (Z.of_nat (String.length matched) >? int_max_str_digits);
    [exact Hint|].
  exists (int_value matched). split; [assumption|].
  now apply (py_int_printable matched).
Qed.

Lemma int_refuses_only_long_runs_witness :
  (exists num, py_int "1000" = Ok num /\ 0 <= num
               /\ str_int num = Ok (decimal num))
  /\ py_int (Samples.repeat_char 4301 "1")
     = Raise (ValueError (int_limit_message 4301)).
Proof.
  split.
  - destruct (int_refuses_only_long_runs
                "    for i in range(1000):  # Magic number" "1000")
      as [_ [_ Hnum]]; [vm_compute; reflexivity|exact Hnum].
  - destruct (int_refuses_only_long_runs
                ("x = 5 # " +++ Samples.repeat_char 4301 "1")
                (Samples.repeat_char 4301 "1"))
      as [_ [_ Hrefused]]; [vm_compute; reflexivity|].
    assert (Hlong : (Z.of_nat
                       (String.length (Samples.repeat_char 4301 "1"))
                     >? int_max_str_digits) = true)
      by (vm_compute; reflexivity).
    rewrite Hlong in Hrefused. rewrite Hrefused.
    vm_compute. reflexivity.
Defined.

(** The pass over the lines can end in two ways only.  It stops at the
    first line, not a comment line, on which the pattern matches more
    than 4300 digits: there [int] raises a [ValueError].  Without such
    a line it returns the findings it started from followed by those
    of the lines. *)
Theorem line_pass_stops_at_long_run path content found :
  foldM (Refactoring.visit_line path) (enumerate (split_lines content)) found
  = match first_long_run (split_lines content) with
    | Some run =>
        Raise (ValueError (int_limit_message (Z.of_nat (String.length run))))
    | None =>
        Ok (found ++ flat_map (line_opportunities path)
                       (enumerate (split_lines content)))
    end
  /\ match first_long_run (split_lines content) with
     | Some run =>
         all_digits run = true
         /\ int_max_str_digits < Z.of_nat (String.length run)
         /\ digit_runs_within_limit content = false
     | None => digit_runs_within_limit content = true
     end.
Proof.
  split.
  - rewrite visit_line_spec. unfold enumerate.
    now rewrite enumerate_from_snd.
  - pose proof (first_long_run_none (split_lines content)) as Hnone.
    unfold digit_runs_within_limit.
    destruct (first_long_run (split_lines content)) as [run|] eqn:Hrun;
      [|now apply Hnone].
    unfold first_long_run in Hrun.
    destruct (find run_too_long (split_lines content)) as [line|] eqn:Hfind;
      [|discriminate].
    apply find_some in Hfind. destruct Hfind as [_ Hlong].
    unfold run_too_long in Hlong. rewrite Hrun in Hlong.
    apply Z.gtb_lt in Hlong.
    split; [|split; [lia|]].
    + unfold digit_run in Hrun.
      destruct (Refactoring.is_comment line); [discriminate|].
      now apply (search_from_length magic_pattern) in Hrun.
    + apply not_true_is_false. intros Hall. apply Hnone in Hall.
      discriminate.
Qed.

Lemma first_alternative_covers prev s n k :
  match_re magic_pattern prev s n k
  = match_re magic_first_alternative prev s n k.
Proof.
  unfold magic_pattern, magic_first_alternative.
  cbn [match_re].
  destruct (xorb (word_before prev) (word_here s)); [|reflexivity].
  destruct s as [|a rest].
  - now destruct (match_at_least Digit 3 prev EmptyString n _).
  - cbn [match_at_least in_class].
    destruct (code_between 49 57 a) eqn:Hrange.
    + assert (Ha : isdigit a = true).
      { unfold isdigit, code_between in *.
        rewrite andb_true_iff, !Z.leb_le in *. lia. }
      rewrite Ha. cbn [Nat.pred].
      now destruct (match_at_least Digit 2 (Some a) rest (S n) _).
    + now destruct (if isdigit a then _ else _).
Qed.

(** The second alternative of the pattern, [\b[1-9]\d{2,}\b], never
    contributes: on every line the search finds what the first
    alternative alone finds. *)
Theorem second_alternative_is_dead line :
  re_search magic_pattern line = re_search magic_first_alternative line.
Proof.
  unfold re_search. generalize (@None ascii) as prev.
  induction line as [|a rest IH]; intros prev; cbn [search_from];
    rewrite first_alternative_covers; [reflexivity|].
  now rewrite IH.
Qed.

(** ** The findings of the refactoring analyzer, whatever the input *)

Lemma refactoring_visit_kinds path opportunities n opportunities' :
  Forall (tree_kind path) opportunities ->
  Refactoring.visit path opportunities n = Ok opportunities' ->
  Forall (tree_kind path) opportunities'.
Proof.
  unfold Refactoring.visit. intros Hopp H.
  destruct (isinstance n "FunctionDef"); [|now injection H as <-].
  apply bind_Ok in H. destruct H as [after_length [Hlen H]].
  assert (Hafter : Forall (tree_kind path) after_length).
  { destruct (end_lineno n) as [last|]; [|now injection Hlen as <-].
    destruct (last =? 0); [now injection Hlen as <-|].
    apply bind_Ok in Hlen. destruct Hlen as [first [_ Hlen]].
    destruct (last - first >? 30); [|now injection Hlen as <-].
    apply bind_Ok in Hlen. destruct Hlen as [name [_ Hlen]].
    injection Hlen as <-. apply Forall_app. split; [assumption|].
    constructor; [|constructor]. left. eauto. }
  apply bind_Ok in H. destruct H as [params [_ H]].
  destruct (params >? 5); [|now injection H as <-].
  apply bind_Ok in H. destruct H as [name [_ H]].
  apply bind_Ok in H. destruct H as [line [_ H]].
  injection H as <-. apply Forall_app. split; [assumption|].
  constructor; [|constructor]. right. eauto.
Qed.

Lemma found_structure E path found :
  Refactoring.opportunities_of E path "all" = Ok found ->
  exists content of_tree,
    open_read E path = Ok content
    /\ Forall (tree_kind path) of_tree
    /\ found = of_tree
               ++ flat_map (line_opportunities path)
                    (enumerate (split_lines content)).
Proof.
  unfold Refactoring.opportunities_of, Refactoring.detect. intros H.
  destruct (open_read E path) as [content|e]; [|discriminate].
  simpl in H. apply bind_Ok in H. destruct H as [tree [_ H]].
  apply bind_Ok in H. destruct H as [found' [H Hfilter]].
  injection Hfilter as <-.
  apply bind_Ok in H. destruct H as [of_tree [Htree Hlines]].
  apply visit_line_Ok in Hlines. subst found'.
  exists content, of_tree. repeat split.
  revert Htree. apply (foldM_invariant (Forall (tree_kind path)));
    [|constructor].
  intros s n s'. apply refactoring_visit_kinds.
Qed.

Lemma tree_kind_type path o : tree_kind path o -> is_tree_type o = true.
Proof. intros [[? [? [? ->]]]|[? [? [? ->]]]]; reflexivity. Qed.

Lemma line_opportunities_type path numbered :
  Forall (fun o => is_line_type o = true) (line_opportunities path numbered).
Proof.
  unfold line_opportunities. apply Forall_app. split.
  - destruct (flags_long_line (snd numbered)); repeat constructor.
  - destruct (flagged_number (snd numbered)); repeat constructor.
Qed.

Lemma found_types E path o :
  In o (refactoring_found E path "all") ->
  is_tree_type o = true \/ is_line_type o = true.
Proof.
  unfold refactoring_found.
  destruct (Refactoring.opportunities_of E path "all") as [found|e] eqn:Hf;
    [|contradiction].
  destruct (found_structure E path found Hf)
    as [content [of_tree [_ [Htree ->]]]].
  intros Ho. apply in_app_or in Ho. destruct Ho as [Ho|Ho].
  - left. rewrite Forall_forall in Htree. now apply (tree_kind_type path), Htree.
  - right. apply in_flat_map in Ho. destruct Ho as [numbered [_ Ho]].
    pose proof (line_opportunities_type path numbered) as Hall.
    rewrite Forall_forall in Hall. now apply Hall.
Qed.

Lemma found_priority E path focus_area :
  Forall (fun o => Refactoring.priority o = "medium"
                   \/ Refactoring.priority o = "low")
    (refactoring_found E path focus_area).
Proof.
  apply Forall_forall. intros o Ho.
  rewrite refactoring_found_restrict in Ho. apply restrict_incl in Ho.
  unfold refactoring_found in Ho.
  destruct (Refactoring.opportunities_of E path "all") as [found|e] eqn:Hf;
    [|contradiction].
  destruct (found_structure E path found Hf)
    as [content [of_tree [_ [Htree ->]]]].
  apply in_app_or in Ho. destruct Ho as [Ho|Ho].
  - left. rewrite Forall_forall in Htree.
    now destruct (Htree o Ho) as [[? [? [? ->]]]|[? [? [? ->]]]].
  - right. apply in_flat_map in Ho. destruct Ho as [numbered [_ Ho]].
    unfold line_opportunities in Ho. apply in_app_or in Ho.
    destruct Ho as [Ho|Ho].
    + destruct (flags_long_line (snd numbered)); [|contradiction].
      now destruct Ho as [<-|[]].
    + destruct (flagged_number (snd numbered)); [|contradiction].
      now destruct Ho as [<-|[]].
Qed.

Lemma priority_counts l :
  Forall (fun o => Refactoring.priority o = "medium"
                   \/ Refactoring.priority o = "low") l ->
  Refactoring.with_priority "high" l = []
  /\ len (Refactoring.with_priority "medium" l)
     + len (Refactoring.with_priority "low" l) = len l.
Proof.
  intros Hall.
  assert (H : Refactoring.with_priority "high" l = []
              /\ (List.length (Refactoring.with_priority "medium" l)
                  + List.length (Refactoring.with_priority "low" l)
                  = List.length l)%nat).
  { unfold Refactoring.with_priority.
    induction Hall as [|o l Ho _ [IHhigh IHsum]]; [split; reflexivity|].
    simpl. destruct Ho as [-> | ->]; simpl; (split; [assumption|]); lia. }
  destruct H as [Hhigh Hsum]. split; [assumption|].
  unfold len. rewrite <- Nat2Z.inj_add. now rewrite Hsum.
Qed.

(** In every refactoring report, of a successful or a failed run,
    [totalOpportunities] is the length of the opportunity list, the
    [high] count is 0, and the [medium] and [low] counts add up to
    [totalOpportunities]: every finding has priority ["medium"] or
    ["low"]. *)
Theorem priority_breakdown_adds_up E path focus_area :
  let found := refactoring_found E path focus_area in
  let doc := Refactoring.analyze_file E path focus_area in
  member_of "totalOpportunities" doc = Some (JInt (len found))
  /\ member_of "priorityBreakdown" doc
     = Some (JObj [ ("high", JInt 0);
                    ("medium",
                     JInt (len (Refactoring.with_priority "medium" found)));
                    ("low",
                     JInt (len (Refactoring.with_priority "low" found))) ])
  /\ len (Refactoring.with_priority "medium" found)
     + len (Refactoring.with_priority "low" found) = len found
  /\ Forall (fun o => Refactoring.priority o = "medium"
                      \/ Refactoring.priority o = "low") found.
Proof.
  intros found doc.
  pose proof (found_priority E path focus_area) as Hall.
  destruct (priority_counts _ Hall) as [Hhigh Hsum].
  fold found in Hall, Hhigh, Hsum.
  repeat split; try assumption; unfold doc, found in *;
    unfold Refactoring.analyze_file, refactoring_found in *;
    destruct (Refactoring.opportunities_of E path focus_area);
    try reflexivity.
  simpl. now rewrite Hhigh.
Qed.

(** ** How the focus areas relate *)

Lemma restrict_idempotent focus_area every :
  restrict_to_focus focus_area (restrict_to_focus focus_area every)
  = restrict_to_focus focus_area every.
Proof.
  unfold restrict_to_focus. destruct (focus_types focus_area);
    [|reflexivity].
  now apply filter_filter_implies.
Qed.

(** Nothing found under ["all"] is lost to the focus areas: every such
    opportunity is shown under ["maintainability"] or under
    ["readability"], and those two show nothing else.  The
    ["performance"] list is the ["maintainability"] list restricted to
    LONG_FUNCTION.  Filtering a list again by its own focus changes
    nothing. *)
Theorem focus_areas_cover_all E path :
  incl (refactoring_found E path "all")
       (refactoring_found E path "maintainability"
        ++ refactoring_found E path "readability")
  /\ incl (refactoring_found E path "maintainability"
           ++ refactoring_found E path "readability")
          (refactoring_found E path "all")
  /\ refactoring_found E path "performance"
     = filter (Refactoring.type_in ["LONG_FUNCTION"])
         (refactoring_found E path "maintainability")
  /\ (forall focus_area,
        restrict_to_focus focus_area (refactoring_found E path focus_area)
        = refactoring_found E path focus_area).
Proof.
  rewrite (refactoring_found_restrict E path "maintainability"),
    (refactoring_found_restrict E path "readability"),
    (refactoring_found_restrict E path "performance").
  split; [|split; [|split]].
  - intros o Ho. apply in_or_app.
    destruct (found_types E path o Ho) as [Htype|Htype].
    + left. apply filter_In. split; [assumption|].
      unfold is_tree_type, Refactoring.type_in in *. simpl in *.
      apply orb_true_iff in Htype. destruct Htype as [-> | Htype];
        [reflexivity|].
      rewrite orb_false_r in Htype. rewrite Htype.
      now rewrite orb_true_r.
    + destruct (Refactoring.type_in ["MAGIC_NUMBER"] o) eqn:Hmagic.
      * left. apply filter_In. split; [assumption|].
        unfold Refactoring.type_in in *. simpl in *.
        rewrite orb_false_r in Hmagic. rewrite Hmagic.
        now rewrite !orb_true_r.
      * right. apply filter_In. split; [assumption|exact Htype].
  - intros o Ho. apply in_app_or in Ho.
    destruct Ho as [Ho|Ho]; now apply restrict_incl in Ho.
  - unfold restrict_to_focus. simpl. symmetry.
    apply filter_filter_implies. intros o.
    unfold Refactoring.type_in. simpl. rewrite !orb_false_r.
    now intros ->.
  - intros focus_area. rewrite refactoring_found_restrict.
    apply restrict_idempotent.
Qed.
(** ** Where the line findings point *)

Lemma line_findings_sorted
  (f : Z * string -> list Refactoring.opportunity) :
  (forall numbered,
     f numbered = []
     \/ exists o, f numbered = [o]
                  /\ Refactoring.location_line o = fst numbered + 1) ->
  forall l k,
    StronglySorted Z.lt
      (map Refactoring.location_line (flat_map f (enumerate_from k l)))
    /\ Forall (fun z => k < z)
         (map Refactoring.location_line (flat_map f (enumerate_from k l))).
Proof.
  intros Hf. induction l as [|x l IH]; intros k; simpl.
  - split; constructor.
  - destruct (IH (k + 1)) as [Hsorted Hbound].
    destruct (Hf (k, x)) as [-> | [o [-> Hline]]]; simpl.
    + split; [assumption|].
      eapply Forall_impl; [|exact Hbound]. simpl. intros; lia.
    + simpl in Hline. rewrite Hline. split.
      * constructor; [assumption|exact Hbound].
      * constructor; [lia|].
        eapply Forall_impl; [|exact Hbound]. simpl. intros; lia.
Qed.

Lemma sorted_filter {A} (g : A -> Z) (p : A -> bool) (l : list A) :
  StronglySorted Z.lt (map g l) ->
  StronglySorted Z.lt (map g (filter p l)).
Proof.
  induction l as [|x l IH]; simpl; intros Hs; [constructor|].
  inversion Hs as [|? ? Hrest Hall]; subst.
  destruct (p x); simpl; [|now apply IH].
  constructor; [now apply IH|].
  rewrite Forall_forall in *. intros z Hz. apply Hall.
  apply in_map_iff in Hz. destruct Hz as [y [<- Hy]].
  apply in_map. now apply filter_In in Hy.
Qed.

Lemma filter_comm {A} (p q : A -> bool) (l : list A) :
  filter p (filter q l) = filter q (filter p l).
Proof.
  induction l as [|x l IH]; simpl; [reflexivity|].
  destruct (q x) eqn:Hq, (p x) eqn:Hp; simpl; rewrite ?Hq, ?Hp, IH;
    reflexivity.
Qed.

Lemma filter_everything {A} (l : list A) : filter (fun _ => true) l = l.
Proof. induction l as [|x l IH]; simpl; [reflexivity|now rewrite IH]. Qed.

Lemma found_is_filtered E path focus_area p :
  exists q,
    filter p (refactoring_found E path focus_area)
    = filter q (filter p (refactoring_found E path "all")).
Proof.
  rewrite refactoring_found_restrict. unfold restrict_to_focus.
  destruct (focus_types focus_area) as [types|].
  - exists (Refactoring.type_in types). apply filter_comm.
  - exists (fun _ => true). now rewrite filter_everything.
Qed.

Lemma found_line_part E path content p :
  open_read E path = Ok content ->
  (forall o, p o = true -> is_tree_type o = false) ->
  filter p (refactoring_found E path "all") = []
  \/ filter p (refactoring_found E path "all")
     = flat_map (fun numbered => filter p (line_opportunities path numbered))
         (enumerate (split_lines content)).
Proof.
  intros Hr Hp. unfold refactoring_found.
  destruct (Refactoring.opportunities_of E path "all") as [found|e] eqn:Hf;
    [|now left].
  right.
  destruct (found_structure E path found Hf)
    as [content' [of_tree [Hr' [Htree ->]]]].
  rewrite Hr in Hr'. injection Hr' as <-.
  rewrite filter_app, filter_flat_map.
  replace (filter p of_tree) with (@nil Refactoring.opportunity);
    [reflexivity|].
  symmetry. clear Hf.
  induction Htree as [|o of_tree Ho _ IH]; simpl; [reflexivity|].
  destruct (p o) eqn:Hpo; [|exact IH].
  apply Hp in Hpo. apply tree_kind_type in Ho. congruence.
Qed.

Lemma one_long_line path numbered :
  filter (Refactoring.type_in ["LONG_LINE"])
    (line_opportunities path numbered) = []
  \/ exists o,
       filter (Refactoring.type_in ["LONG_LINE"])
         (line_opportunities path numbered) = [o]
       /\ Refactoring.location_line o = fst numbered + 1.
Proof.
  unfold line_opportunities. rewrite filter_app.
  destruct (flags_long_line (snd numbered)),
    (flagged_number (snd numbered)); simpl; eauto.
Qed.

Lemma one_magic_number path numbered :
  filter (Refactoring.type_in ["MAGIC_NUMBER"])
    (line_opportunities path numbered) = []
  \/ exists o,
       filter (Refactoring.type_in ["MAGIC_NUMBER"])
         (line_opportunities path numbered) = [o]
       /\ Refactoring.location_line o = fst numbered + 1.
Proof.
  unfold line_opportunities. rewrite filter_app.
  destruct (flags_long_line (snd numbered)),
    (flagged_number (snd numbered)); simpl; eauto.
Qed.

Lemma flagged_number_not_comment line num :
  flagged_number line = Some num -> Refactoring.is_comment line = false.
Proof.
  unfold flagged_number.
  destruct (re_search magic_pattern line); [|discriminate].
  now destruct (Refactoring.is_comment line).
Qed.

Lemma line_finding_source path lines o :
  In o (flat_map (line_opportunities path) (enumerate lines)) ->
  exists line,
    nth_error lines (Z.to_nat (Refactoring.location_line o - 1)) = Some line
    /\ 1 <= Refactoring.location_line o <= len lines
    /\ Refactoring.is_comment line = false.
Proof.
  intros Ho. apply in_flat_map in Ho. destruct Ho as [[i line] [Hin Ho]].
  apply enumerate_from_In in Hin. destruct Hin as [Hrange Hnth].
  exists line.
  assert (Hline : Refactoring.location_line o = i + 1
                  /\ Refactoring.is_comment line = false).
  { unfold line_opportunities in Ho. simpl in Ho. apply in_app_or in Ho.
    destruct Ho as [Ho|Ho].
    - destruct (flags_long_line line) eqn:Hflag; [|contradiction].
      destruct Ho as [<-|[]]. split; [reflexivity|].
      unfold flags_long_line in Hflag. apply andb_true_iff in Hflag.
      now apply negb_true_iff.
    - destruct (flagged_number line) as [num|] eqn:Hnum; [|contradiction].
      destruct Ho as [<-|[]]. split; [reflexivity|].
      now apply (flagged_number_not_comment line num). }
  destruct Hline as [-> Hcomment]. repeat split; try assumption; try lia.
  replace (i + 1 - 1) with (i - 0) by lia. exact Hnth.
Qed.

Lemma line_type_not_tree_type o :
  is_line_type o = true -> is_tree_type o = false.
Proof.
  unfold is_line_type, is_tree_type, Refactoring.type_in. simpl.
  rewrite !orb_false_r. intros H. apply orb_true_iff in H.
  destruct H as [H|H]; apply String.eqb_eq in H; now rewrite H.
Qed.

Lemma long_line_is_line_type o :
  Refactoring.type_in ["LONG_LINE"] o = true -> is_line_type o = true.
Proof.
  unfold is_line_type, Refactoring.type_in. simpl.
  rewrite !orb_false_r. now intros ->.
Qed.

Lemma magic_number_is_line_type o :
  Refactoring.type_in ["MAGIC_NUMBER"] o = true -> is_line_type o = true.
Proof.
  unfold is_line_type, Refactoring.type_in. simpl.
  rewrite !orb_false_r. intros ->. apply orb_true_r.
Qed.

(** Whatever the file and the focus, the LONG_LINE findings of a
    refactoring report come in strictly increasing line order, and so
    do the MAGIC_NUMBER findings: at most one of each per line, in file
    order.  Each of them points at a line of the file, counted from 1,
    whose trimmed text does not start with [#]. *)
Theorem line_findings_in_file_order E path focus_area content :
  open_read E path = Ok content ->
  StronglySorted Z.lt
    (map Refactoring.location_line
       (filter (Refactoring.type_in ["LONG_LINE"])
          (refactoring_found E path focus_area)))
  /\ StronglySorted Z.lt
       (map Refactoring.location_line
          (filter (Refactoring.type_in ["MAGIC_NUMBER"])
             (refactoring_found E path focus_area)))
  /\ Forall
       (fun o =>
          exists line,
            nth_error (split_lines content)
              (Z.to_nat (Refactoring.location_line o - 1)) = Some line
            /\ 1 <= Refactoring.location_line o <= len (split_lines content)
            /\ Refactoring.is_comment line = false)
       (filter is_line_type (refactoring_found E path focus_area)).
Proof.
  intros Hr. split; [|split].
  - destruct (found_is_filtered E path focus_area
                (Refactoring.type_in ["LONG_LINE"])) as [q ->].
    apply sorted_filter.
    destruct (found_line_part E path content
                (Refactoring.type_in ["LONG_LINE"]) Hr) as [-> | ->].
    + intros o Ho. now apply line_type_not_tree_type, long_line_is_line_type.
    + constructor.
    + apply (line_findings_sorted _ (one_long_line path)).
  - destruct (found_is_filtered E path focus_area
                (Refactoring.type_in ["MAGIC_NUMBER"])) as [q ->].
    apply sorted_filter.
    destruct (found_line_part E path content
                (Refactoring.type_in ["MAGIC_NUMBER"]) Hr) as [-> | ->].
    + intros o Ho.
      now apply line_type_not_tree_type, magic_number_is_line_type.
    + constructor.
    + apply (line_findings_sorted _ (one_magic_number path)).
  - apply Forall_forall. intros o Ho.
    destruct (found_is_filtered E path focus_area is_line_type) as [q Hq].
    rewrite Hq in Ho. apply filter_In in Ho. destruct Ho as [Ho _].
    destruct (found_line_part E path content is_line_type Hr) as [Hl|Hl].
    + exact line_type_not_tree_type.
    + rewrite Hl in Ho. contradiction.
    + rewrite Hl, <- filter_flat_map in Ho. apply filter_In in Ho.
      now apply (line_finding_source path (split_lines content)).
Qed.

Lemma line_findings_in_file_order_witness :
  StronglySorted Z.lt
    (map Refactoring.location_line
       (filter (Refactoring.type_in ["LONG_LINE"])
          (refactoring_found
             (Samples.one_file "widths.py" Samples.widths_source
                Samples.widths_tree) "widths.py" "all"))).
Proof.
  exact (proj1 (line_findings_in_file_order
                  (Samples.one_file "widths.py" Samples.widths_source
                     Samples.widths_tree)
                  "widths.py" "all" Samples.widths_source eq_refl)).
Defined.

(** ** The metrics of a function entry *)

Lemma count_decision_grows c n c' :
  Quality.count_decision c n = Ok c' ->
  c <= c'
  /\ ((isinstance n "If" || isinstance n "For" || isinstance n "While"
       || isinstance n "Try") = true -> c + 1 <= c').
Proof.
  unfold Quality.count_decision.
  destruct (isinstance n "If"), (isinstance n "For"), (isinstance n "While"),
    (isinstance n "With"), (isinstance n "Try"),
    (isinstance n "ExceptHandler"); simpl;
    try (intros [= <-]; split; [lia|intros; lia]).
  destruct (isinstance n "BoolOp").
  - intros H. apply bind_Ok in H. destruct H as [values [_ H]].
    apply bind_Ok in H. destruct H as [count [_ H]].
    destruct (Z.gtb_spec count 1); injection H as <-;
      (split; [lia|discriminate]).
  - intros [= <-]. split; [lia|discriminate].
Qed.

Lemma cyclomatic_dominates l : forall c c' a,
  foldM Quality.count_decision l c = Ok c' ->
  let a' :=
    fold_left
      (fun complexity child =>
         if isinstance child "If" || isinstance child "For"
            || isinstance child "While" || isinstance child "Try"
         then complexity + 1 else complexity) l a in
  a <= a' /\ a' - a <= c' - c.
Proof.
  induction l as [|n l IH]; intros c c' a H; simpl in *.
  - injection H as <-. lia.
  - apply bind_Ok in H. destruct H as [c1 [Hstep Hrest]].
    apply count_decision_grows in Hstep. destruct Hstep as [Hle Hbranch].
    destruct (isinstance n "If" || isinstance n "For"
              || isinstance n "While" || isinstance n "Try") eqn:Hn.
    + specialize (Hbranch eq_refl).
      specialize (IH c1 c' (a + 1) Hrest). simpl in IH. lia.
    + specialize (IH c1 c' a Hrest). simpl in IH. lia.
Qed.

Lemma visit_function_consistent functions n functions' :
  Forall consistent_entry functions ->
  Quality.visit_function functions n = Ok functions' ->
  Forall consistent_entry functions'.
Proof.
  unfold Quality.visit_function. intros Hall H.
  destruct (isinstance n "FunctionDef"); [|now injection H as <-].
  apply bind_Ok in H. destruct H as [cyclomatic [Hc H]].
  apply bind_Ok in H. destruct H as [name [_ H]].
  apply bind_Ok in H. destruct H as [line [_ H]].
  injection H as <-. apply Forall_app. split; [assumption|].
  constructor; [|constructor].
  unfold consistent_entry. simpl. split; [reflexivity|].
  split; [reflexivity|].
  unfold Quality.calculate_cyclomatic_complexity in Hc.
  pose proof (cyclomatic_dominates (walk n) 1 cyclomatic 0 Hc) as Hdom.
  simpl in Hdom. unfold Quality.calculate_cognitive_complexity. lia.
Qed.

Lemma quality_functions_consistent E path :
  Forall consistent_entry (quality_functions E path).
Proof.
  unfold quality_functions, Quality.findings.
  destruct (open_read E path) as [content|e]; simpl; [|constructor].
  destruct (ast_parse E content path) as [tree|e]; simpl; [|constructor].
  unfold Quality.collect.
  destruct (foldM Quality.visit_function (walk tree) [])
    as [functions|e] eqn:Hf; simpl; [|constructor].
  destruct (foldM Quality.visit_smell (walk tree) Quality.no_smells);
    simpl; [|constructor].
  revert Hf. apply (foldM_invariant (Forall consistent_entry));
    [|constructor].
  intros s n s'. apply visit_function_consistent.
Qed.

(** For every function entry of every quality report: [decisionPoints]
    is the cyclomatic complexity minus 1, [nestingDepth] is 0, the
    cognitive complexity is not negative and never exceeds
    [decisionPoints], and the cyclomatic complexity is at least 1. *)
Theorem function_entry_metrics E path :
  Forall
    (fun f =>
       Quality.decisionPoints f = Quality.cyclomatic f - 1
       /\ Quality.nestingDepth f = 0
       /\ 0 <= Quality.cognitive f <= Quality.decisionPoints f
       /\ 1 <= Quality.cyclomatic f)
    (quality_functions E path).
Proof.
  eapply Forall_impl; [|apply quality_functions_consistent].
  unfold consistent_entry. intros f [Hd [Hn Hc]]. repeat split; lia.
Qed.

(** ** The aggregates of the quality report *)

Lemma max_from_key {A} (key : A -> Z) (l : list A) : forall best,
  max_from (fun c => c) (key best) (map key l) = key (max_from key best l).
Proof.
  induction l as [|x l IH]; intros best; simpl; [reflexivity|].
  destruct (key x >? key best); apply IH.
Qed.

Lemma max_from_upper {A} (key : A -> Z) (l : list A) : forall best,
  key best <= key (max_from key best l)
  /\ Forall (fun g => key g <= key (max_from key best l)) l.
Proof.
  induction l as [|x l IH]; intros best; simpl.
  - split; [lia|constructor].
  - destruct (Z.gtb_spec (key x) (key best)) as [Hgt|Hle].
    + destruct (IH x) as [Hx Hl]. split; [lia|]. now constructor.
    + destruct (IH best) as [Hb Hl]. split; [assumption|].
      constructor; [lia|assumption].
Qed.

Lemma max_from_In {A} (key : A -> Z) (l : list A) : forall best,
  In (max_from key best l) (best :: l).
Proof.
  induction l as [|x l IH]; intros best; simpl; [now left|].
  destruct (key x >? key best).
  - right. apply IH.
  - destruct (IH best) as [H|H]; [now left|now right; right].
Qed.

Lemma len_cons {A} (x : A) (l : list A) : len (x :: l) = len l + 1.
Proof. unfold len. simpl List.length. lia. Qed.

Lemma decision_points_total functions :
  Forall consistent_entry functions ->
  sum (map Quality.decisionPoints functions)
  = sum (map Quality.cyclomatic functions) - len functions.
Proof.
  induction 1 as [|f l [Hf _] _ IH]; simpl; [reflexivity|].
  rewrite !sum_cons, len_cons, IH, Hf. lia.
Qed.

(** In every quality report: [totalDecisionPoints] is the sum of the
    cyclomatic complexities minus [totalFunctions]; [maxComplexity] is
    an upper bound of every entry's complexity and is the complexity of
    the very entry [mostComplexFunction] names; without functions both
    take their defaults, 0 and null. *)
Theorem complexity_aggregates E path :
  sum (map Quality.decisionPoints (quality_functions E path))
  = sum (map Quality.cyclomatic (quality_functions E path))
    - len (quality_functions E path)
  /\ Forall (fun f => Quality.cyclomatic f
                      <= Quality.maxComplexity (quality_functions E path))
       (quality_functions E path)
  /\ match py_max Quality.cyclomatic (quality_functions E path) with
     | Some f =>
         In f (quality_functions E path)
         /\ Quality.maxComplexity (quality_functions E path)
            = Quality.cyclomatic f
         /\ Quality.mostComplexFunction (quality_functions E path)
            = Some (Quality.fn_name f)
         /\ 1 <= Quality.maxComplexity (quality_functions E path)
     | None =>
         quality_functions E path = []
         /\ Quality.maxComplexity (quality_functions E path) = 0
         /\ Quality.mostComplexFunction (quality_functions E path) = None
     end.
Proof.
  pose proof (quality_functions_consistent E path) as Hall.
  split; [now apply decision_points_total|].
  unfold Quality.maxComplexity, Quality.mostComplexFunction.
  destruct (quality_functions E path) as [|f0 l]; simpl;
    [repeat split; constructor|].
  rewrite (max_from_key Quality.cyclomatic l f0).
  destruct (max_from_upper Quality.cyclomatic l f0) as [H0 Hl].
  split; [now constructor|].
  split; [apply (max_from_In Quality.cyclomatic l f0)|].
  repeat split.
  pose proof (max_from_In Quality.cyclomatic l f0) as Hin.
  rewrite Forall_forall in Hall. apply Hall in Hin.
  destruct Hin as [Hd [_ Hc]]. lia.
Qed.

(** ** Long functions in the two reports *)

Lemma long_functions_of_tree path t :
  filter (Refactoring.type_in ["LONG_FUNCTION"])
    (flat_map (tree_opportunities path) t)
  = map (fun n => Refactoring.long_function path (name_of n) (span_of n)
                    (line_of n))
        (filter (span_exceeds 30) t).
Proof.
  rewrite filter_flat_map, <- flat_map_optional.
  apply flat_map_ext_all. intros n. unfold tree_opportunities.
  rewrite filter_app.
  destruct (span_exceeds 30 n), (has_long_parameter_list n); reflexivity.
Qed.

Lemma long_functions_of_lines path l :
  filter (Refactoring.type_in ["LONG_FUNCTION"])
    (flat_map (line_opportunities path) l) = [].
Proof.
  rewrite filter_flat_map. apply flat_map_nothing. intros [i line].
  unfold line_opportunities. rewrite filter_app. simpl.
  destruct (flags_long_line line), (flagged_number line); reflexivity.
Qed.

Lemma span_exceeds_weaken n :
  span_exceeds 50 n = true -> span_exceeds 30 n = true.
Proof.
  unfold span_exceeds. destruct (is_FunctionDef n); [|discriminate].
  simpl. destruct (line_span n) as [lines|]; [|discriminate].
  rewrite !Z.gtb_lt. lia.
Qed.

(** On a parsed file the quality analyzer reports a long method for
    each function whose [end_lineno - lineno] exceeds 50, and the
    refactoring analyzer a long function for each one where it exceeds
    30, both in walk order, each when its run reaches the report.  When
    the refactoring run does, every long method of the quality report
    is a long function of the refactoring report, at the same line and
    with the same description. *)
Theorem long_methods_are_long_functions E path content tree :
  open_read E path = Ok content -> ast_parse E content path = Ok tree ->
  parsed tree = true ->
  Quality.longMethods (quality_smells E path)
  = (if literals_within_limit tree
     then map method_smell (filter (span_exceeds 50) (walk tree))
     else [])
  /\ filter (has_type ["LONG_FUNCTION"]) (refactoring_found E path "all")
     = (if digit_runs_within_limit content
        then map (fun n => Refactoring.long_function path (name_of n)
                             (span_of n) (line_of n))
                 (filter (span_exceeds 30) (walk tree))
        else [])
  /\ (digit_runs_within_limit content = true ->
      incl (map (fun s => (Quality.smell_line s, Quality.description s))
              (Quality.longMethods (quality_smells E path)))
           (map (fun o => (Refactoring.location_line o,
                           Refactoring.description o))
              (filter (has_type ["LONG_FUNCTION"])
                 (refactoring_found E path "all")))).
Proof.
  intros Hr Hp Ht.
  assert (Hquality :
            Quality.longMethods (quality_smells E path)
            = if literals_within_limit tree
              then map method_smell (filter (span_exceeds 50) (walk tree))
              else []).
  { rewrite (quality_smells_within_limit E path content tree) by assumption.
    now destruct (literals_within_limit tree). }
  assert (Hrefactoring :
            filter (has_type ["LONG_FUNCTION"])
              (refactoring_found E path "all")
            = if digit_runs_within_limit content
              then map (fun n => Refactoring.long_function path (name_of n)
                                   (span_of n) (line_of n))
                       (filter (span_exceeds 30) (walk tree))
              else []).
  { rewrite (refactoring_found_within_limit E path "all" content tree)
      by assumption.
    destruct (digit_runs_within_limit content); [|reflexivity].
    change (Refactoring.filter_focus "all" ?l) with l.
    now rewrite filter_has_type, filter_app, long_functions_of_tree,
      long_functions_of_lines, app_nil_r. }
  split; [exact Hquality|]. split; [exact Hrefactoring|].
  intros Hruns. rewrite Hquality, Hrefactoring, Hruns.
  destruct (literals_within_limit tree); [|intros pair []].
  rewrite !map_map. intros pair Hpair.
  apply in_map_iff in Hpair. destruct Hpair as [n [<- Hn]].
  apply filter_In in Hn. destruct Hn as [Hn Hspan].
  apply in_map_iff. exists n. split; [reflexivity|].
  apply filter_In. split; [assumption|now apply span_exceeds_weaken].
Qed.

Lemma long_methods_are_long_functions_witness :
  map Quality.smell_line
    (Quality.longMethods
       (quality_smells
          (Samples.one_file "lengths.py" Samples.lengths_source
             Samples.lengths_tree) "lengths.py")) = [1]
  /\ map Refactoring.location_line
       (filter (has_type ["LONG_FUNCTION"])
          (refactoring_found
             (Samples.one_file "lengths.py" Samples.lengths_source
                Samples.lengths_tree) "lengths.py" "all")) = [1; 61].
Proof.
  destruct (long_methods_are_long_functions
              (Samples.one_file "lengths.py" Samples.lengths_source
                 Samples.lengths_tree)
              "lengths.py" Samples.lengths_source Samples.lengths_tree)
    as [Hmethods [Hlong _]];
    [reflexivity | vm_compute; reflexivity | vm_compute; reflexivity |].
  rewrite Hmethods, Hlong. split; vm_compute; reflexivity.
Defined.

(** ** The reports agree on the functions *)

(** On a parsed file the performance report always lists the
    functions.  When the quality run reaches its report, it lists the
    same functions, by name and line, in the same order; when the
    refactoring run does too, the long parameter lists of the quality
    report are those of the refactoring report, at the same lines and
    with the same descriptions.  When the quality run fails, its report
    lists no function although the performance report does. *)
Theorem reports_agree_on_functions E path content tree :
  open_read E path = Ok content -> ast_parse E content path = Ok tree ->
  parsed tree = true ->
  exists st,
    Performance.findings E path = Ok st
    /\ map (fun f => (Performance.fn_name f, Performance.fn_line f))
         (Performance.functions st)
       = map (fun n => (name_of n, line_of n))
           (filter is_FunctionDef (walk tree))
    /\ map (fun f => (Quality.fn_name f, Quality.fn_line f))
         (quality_functions E path)
       = (if literals_within_limit tree
          then map (fun f => (Performance.fn_name f, Performance.fn_line f))
                 (Performance.functions st)
          else [])
    /\ (literals_within_limit tree = true ->
        digit_runs_within_limit content = true ->
        map (fun s => (Quality.smell_line s, Quality.description s))
          (Quality.longParameterLists (quality_smells E path))
        = map (fun o => (Refactoring.location_line o,
                         Refactoring.description o))
            (filter (has_type ["LONG_PARAMETER_LIST"])
               (refactoring_found E path "all"))).
Proof.
  intros Hr Hp Ht.
  rewrite (performance_findings_parsed E path content tree) by assumption.
  rewrite performance_collect_parsed by assumption.
  eexists. split; [reflexivity|]. cbn [Performance.functions].
  rewrite (quality_functions_within_limit E path content tree) by assumption.
  rewrite (quality_smells_within_limit E path content tree) by assumption.
  rewrite (refactoring_found_within_limit E path "all" content tree)
    by assumption.
  rewrite !map_map. split; [reflexivity|]. split.
  - destruct (literals_within_limit tree); [|reflexivity].
    now rewrite map_map.
  - intros -> ->.
    change (Refactoring.filter_focus "all" ?l) with l.
    rewrite filter_has_type, filter_app, long_parameter_lists_of_tree,
      long_parameter_lists_of_lines, app_nil_r.
    cbn [Quality.longParameterLists]. now rewrite !map_map.
Qed.

Lemma reports_agree_on_functions_witness :
  exists st,
    Performance.findings
      (Samples.one_file "parameters.py" Samples.parameters_source
         Samples.parameters_tree) "parameters.py" = Ok st
    /\ map Performance.fn_name (Performance.functions st) = ["many"; "six"]
    /\ map Quality.fn_name
         (quality_functions
            (Samples.one_file "parameters.py" Samples.parameters_source
               Samples.parameters_tree) "parameters.py") = ["many"; "six"].
Proof.
  destruct (reports_agree_on_functions
              (Samples.one_file "parameters.py" Samples.parameters_source
                 Samples.parameters_tree)
              "parameters.py" Samples.parameters_source
              Samples.parameters_tree)
    as [st [Hp _]];
    [reflexivity | vm_compute; reflexivity | vm_compute; reflexivity |].
  exists st. split; [exact Hp|].
  vm_compute in Hp. injection Hp as <-.
  split; vm_compute; reflexivity.
Defined.

(** ** Nothing in the tree is missed *)

Lemma Permutation_filter_same {A} (p : A -> bool) (l l' : list A) :
  Permutation l l' -> Permutation (filter p l) (filter p l').
Proof.
  induction 1 as [|x l l' _ IH|x y l|l l' l'' _ IH1 _ IH2]; simpl.
  - constructor.
  - destruct (p x); [now constructor|assumption].
  - destruct (p x), (p y); try apply Permutation_refl. apply perm_swap.
  - now transitivity (filter p l').
Qed.

Lemma walk_selection {B} (p : ast -> bool) (g : ast -> B) tree :
  Permutation (map g (filter p (walk tree)))
              (map g (filter p (preorder tree))).
Proof.
  apply Permutation_map, Permutation_filter_same, walk_Permutation.
Qed.

(** On a parsed file the walk misses nothing and repeats nothing: the
    functions and the loops of the performance report are, up to
    order, exactly the function definitions and the [for] and [while]
    loops of the whole tree, nested ones included, each once, at its
    own line, and the loop stack is empty when the walk ends.  When
    every integer literal above 10 can be printed, the same holds of
    the functions and the magic numbers of the quality report; when one
    cannot, the quality report lists neither. *)
Theorem walk_misses_nothing E path content tree :
  open_read E path = Ok content -> ast_parse E content path = Ok tree ->
  parsed tree = true ->
  exists st,
    Performance.findings E path = Ok st
    /\ Permutation
         (map (fun f => (Performance.fn_name f, Performance.fn_line f))
            (Performance.functions st))
         (map (fun n => (name_of n, line_of n))
            (filter is_FunctionDef (preorder tree)))
    /\ Permutation
         (map (fun l => (Performance.loop_type l, Performance.loop_line l))
            (Performance.loops st))
         (map (fun n => (if isinstance n "For" then "for" else "while",
                         line_of n))
            (filter is_loop (preorder tree)))
    /\ Performance.loop_stack st = []
    /\ if literals_within_limit tree then
         Permutation
           (map (fun f => (Quality.fn_name f, Quality.fn_line f))
              (quality_functions E path))
           (map (fun n => (name_of n, line_of n))
              (filter is_FunctionDef (preorder tree)))
         /\ Permutation (quality_magic_numbers E path)
              (map (fun n => magic_smell_of (line_of n) (magic_value n))
                 (filter is_magic (preorder tree)))
       else quality_functions E path = []
            /\ quality_magic_numbers E path = [].
Proof.
  intros Hr Hp Ht.
  rewrite (performance_findings_parsed E path content tree) by assumption.
  rewrite performance_collect_parsed by assumption.
  eexists. split; [reflexivity|]. simpl.
  rewrite !map_map. simpl.
  split; [apply walk_selection|]. split; [apply walk_selection|].
  split; [reflexivity|].
  rewrite (quality_functions_within_limit E path content tree) by assumption.
  unfold quality_magic_numbers.
  rewrite (quality_findings_within_limit E path content tree) by assumption.
  destruct (literals_within_limit tree); [|split; reflexivity].
  rewrite map_map. split; apply walk_selection.
Qed.

Lemma walk_misses_nothing_witness :
  exists st,
    Performance.findings
      (Samples.one_file "sample.py" Samples.fixture_source
         Samples.fixture_tree) "sample.py" = Ok st
    /\ map Performance.loop_line (Performance.loops st) = [3; 13]
    /\ map Quality.smell_line
         (quality_magic_numbers
            (Samples.one_file "sample.py" Samples.fixture_source
               Samples.fixture_tree) "sample.py") = [13].
Proof.
  destruct (walk_misses_nothing
              (Samples.one_file "sample.py" Samples.fixture_source
                 Samples.fixture_tree)
              "sample.py" Samples.fixture_source Samples.fixture_tree)
    as [st [Hp _]];
    [reflexivity | vm_compute; reflexivity | vm_compute; reflexivity |].
  exists st. split; [exact Hp|].
  vm_compute in Hp. injection Hp as <-.
  split; vm_compute; reflexivity.
Defined.

(** ** The lines of a file *)

(** Splitting the content at newlines loses nothing: joining the lines
    with newlines gives the content back; no line contains a newline;
    and there is one line more than there are newlines, so the empty
    file has one (empty) line and a final newline adds an empty last
    line. *)
Theorem split_lines_round_trip content :
  join_lines (split_lines content) = content
  /\ Forall (fun line => count_char newline line = 0%nat)
       (split_lines content)
  /\ List.length (split_lines content) = S (count_char newline content).
Proof.
  induction content as [|c rest [IHjoin [IHclean IHlen]]]; simpl.
  - repeat split. repeat constructor.
  - destruct (Ascii.eqb_spec c newline) as [->|Hc].
    + destruct (split_lines rest) as [|line lines]; [discriminate|].
      split; [|split].
      * cbn [join_lines]. simpl. now rewrite <- IHjoin.
      * constructor; [reflexivity|assumption].
      * simpl in *. lia.
    + destruct (split_lines rest) as [|line lines]; [discriminate|].
      split; [|split].
      * cbn [join_lines] in *. destruct lines; simpl; now rewrite <- IHjoin.
      * inversion IHclean; subst. constructor; [|assumption].
        simpl. destruct (Ascii.eqb_spec c newline); [contradiction|].
        assumption.
      * simpl in *. lia.
Qed.

(** ** Comment lines *)


(** ** Trimming *)

Lemma lstrip_split s :
  exists lead,
    s = lead +++ lstrip s /\ whitespace lead = true
    /\ visible (first_char (lstrip s)) = true.
Proof.
  induction s as [|c rest [lead [Heq [Hlead Hfirst]]]].
  - exists EmptyString. now repeat split.
  - cbn [lstrip]. destruct (isspace c) eqn:Hc.
    + exists (String c lead). split; [simpl; now rewrite <- Heq|].
      split; [|assumption]. unfold whitespace in *. simpl. now rewrite Hc.
    + exists EmptyString. repeat split. simpl. now rewrite Hc.
Qed.

Lemma rstrip_split s :
  exists trail,
    s = rstrip s +++ trail /\ whitespace trail = true
    /\ visible (last_char (rstrip s)) = true.
Proof.
  induction s as [|c rest [trail [Heq [Htrail Hlast]]]].
  - exists EmptyString. now repeat split.
  - cbn [rstrip]. destruct (rstrip rest) as [|d kept] eqn:Hrest.
    + simpl in Heq. subst rest. destruct (isspace c) eqn:Hc.
      * exists (String c trail). split; [reflexivity|].
        split; [|reflexivity]. unfold whitespace in *. simpl.
        now rewrite Hc.
      * exists trail. split; [reflexivity|]. split; [assumption|].
        simpl. now rewrite Hc.
    + exists trail. split; [simpl; now rewrite Heq at 1|].
      split; [assumption|].
      cbn [last_char] in *. now destruct (last_char kept).
Qed.

Lemma rstrip_first s :
  visible (first_char s) = true -> visible (first_char (rstrip s)) = true.
Proof.
  destruct s as [|c rest]; [reflexivity|]. cbn [first_char visible].
  intros Hc. apply negb_true_iff in Hc.
  destruct (rstrip_head c rest Hc) as [kept ->]. simpl. now rewrite Hc.
Qed.

(** [s.strip()] takes whitespace away at both ends and nothing else:
    the text is some whitespace, the stripped text, and some
    whitespace; and the stripped text neither starts nor ends with
    whitespace. *)
Theorem strip_removes_surrounding_whitespace s :
  exists lead trail,
    s = lead +++ strip s +++ trail
    /\ whitespace lead = true /\ whitespace trail = true
    /\ visible (first_char (strip s)) = true
    /\ visible (last_char (strip s)) = true.
Proof.
  unfold strip.
  destruct (lstrip_split s) as [lead [Hlead [Hwhite Hfirst]]].
  destruct (rstrip_split (lstrip s)) as [trail [Htrail [Hwhite' Hlast]]].
  exists lead, trail. split; [now rewrite <- Htrail|].
  split; [assumption|]. split; [assumption|].
  split; [now apply rstrip_first|assumption].
Qed.

(** ** Fields the quality analyzer never fills *)

Lemma check_parameters_god sm n sm' :
  Quality.check_parameters sm n = Ok sm' ->
  Quality.godObjects sm' = Quality.godObjects sm.
Proof.
  unfold Quality.check_parameters. intros H.
  apply bind_Ok in H. destruct H as [params [_ H]].
  destruct (params >? 5); [|now injection H as <-].
  apply bind_Ok in H. destruct H as [line [_ H]].
  apply bind_Ok in H. destruct H as [name [_ H]].
  now injection H as <-.
Qed.

Lemma check_length_god sm n sm' :
  Quality.check_length sm n = Ok sm' ->
  Quality.godObjects sm' = Quality.godObjects sm.
Proof.
  unfold Quality.check_length. intros H.
  destruct (end_lineno n) as [last|]; [|now injection H as <-].
  destruct (last =? 0); [now injection H as <-|].
  apply bind_Ok in H. destruct H as [first [_ H]].
  destruct (last - first >? 50); [|now injection H as <-].
  apply bind_Ok in H. destruct H as [name [_ H]].
  now injection H as <-.
Qed.

Lemma check_handler_god sm h sm' :
  Quality.check_handler sm h = Ok sm' ->
  Quality.godObjects sm' = Quality.godObjects sm.
Proof.
  unfold Quality.check_handler. intros H.
  apply bind_Ok in H. destruct H as [body [_ H]].
  destruct (negb (truthy body)); now injection H as <-.
Qed.

Lemma check_constant_god sm n sm' :
  Quality.check_constant sm n = Ok sm' ->
  Quality.godObjects sm' = Quality.godObjects sm.
Proof.
  unfold Quality.check_constant. intros H.
  apply bind_Ok in H. destruct H as [v [_ H]].
  destruct v as [| |[|b|z|s|r]]; try (now injection H as <-).
  destruct (z >? 10); [|now injection H as <-].
  apply bind_Ok in H. destruct H as [shown [_ H]].
  now injection H as <-.
Qed.

Lemma visit_smell_god sm n sm' :
  Quality.godObjects sm = [] ->
  Quality.visit_smell sm n = Ok sm' ->
  Quality.godObjects sm' = [].
Proof.
  unfold Quality.visit_smell. intros Hsm H.
  destruct (isinstance n "FunctionDef").
  - apply bind_Ok in H. destruct H as [sm1 [H1 H2]].
    apply check_parameters_god in H1. apply check_length_god in H2.
    congruence.
  - destruct (isinstance n "Try").
    + apply bind_Ok in H. destruct H as [handlers [_ H]].
      apply bind_Ok in H. destruct H as [items [_ H]].
      revert H.
      apply (foldM_invariant (fun s => Quality.godObjects s = []));
        [|assumption].
      intros s h s' Hs Hh. apply check_handler_god in Hh. congruence.
    + destruct (isinstance n "Constant").
      * apply check_constant_god in H. congruence.
      * now injection H as <-.
Qed.

(** In every quality report [godObjects] is empty and [classMetrics]
    is zero: no path through the analyzer fills them.  The [total] of
    [functionMetrics] repeats [totalFunctions], and its [long] is the
    number of entries of [longMethods]. *)
Theorem reserved_fields_stay_empty E path :
  exists complexity smells total long_methods,
    member_of "complexity" (Quality.analyze_file E path) = Some complexity
    /\ member_of "smells" (Quality.analyze_file E path) = Some smells
    /\ member_of "godObjects" smells = Some (JList [])
    /\ member_of "classMetrics" smells
       = Some (JObj [ ("total", JInt 0); ("large", JInt 0) ])
    /\ member_of "totalFunctions" complexity = Some (JInt total)
    /\ member_of "longMethods" smells = Some (JList long_methods)
    /\ member_of "functionMetrics" smells
       = Some (JObj [ ("total", JInt total);
                      ("long", JInt (len long_methods)) ]).
Proof.
  unfold Quality.analyze_file.
  destruct (Quality.findings E path) as [[functions sm]|e] eqn:Hf.
  - assert (Hgod : Quality.godObjects sm = []).
    { unfold Quality.findings in Hf.
      apply bind_Ok in Hf. destruct Hf as [content [_ Hf]].
      apply bind_Ok in Hf. destruct Hf as [tree [_ Hf]].
      unfold Quality.collect in Hf.
      apply bind_Ok in Hf. destruct Hf as [functions' [_ Hf]].
      apply bind_Ok in Hf. destruct Hf as [sm' [Hsm Hf]].
      injection Hf as _ <-. revert Hsm.
      apply (foldM_invariant (fun s => Quality.godObjects s = []));
        [|reflexivity].
      intros s n s'. apply visit_smell_god. }
    unfold Quality.report. do 4 eexists. simpl. rewrite Hgod. simpl.
    repeat split. unfold len. now rewrite length_map.
  - unfold Quality.error_report. do 4 eexists. simpl. repeat split.
Qed.

(** ** Complexity grows towards the root *)

Lemma preorder_segment (fuel : nat) : forall t n,
  (size t <= fuel)%nat -> In n (preorder t) ->
  exists before after, preorder t = before ++ preorder n ++ after.
Proof.
  induction fuel as [|fuel IH]; intros t n Hsize Hin.
  - unfold size in Hsize. rewrite preorder_children in Hsize.
    simpl in Hsize. lia.
  - rewrite preorder_children in Hin. destruct Hin as [->|Hin].
    + exists [], []. now rewrite app_nil_r.
    + apply in_flat_map in Hin. destruct Hin as [c [Hc Hn]].
      destruct (in_split c _ Hc) as [left_children [right_children Hsplit]].
      assert (Hsmall : (size c <= fuel)%nat).
      { unfold size in *. rewrite (preorder_children t) in Hsize.
        simpl in Hsize. rewrite Hsplit, flat_map_app in Hsize. simpl in Hsize.
        rewrite !length_app in Hsize. lia. }
      destruct (IH c n Hsmall Hn) as [before [after Heq]].
      exists (t :: flat_map preorder left_children ++ before),
        (after ++ flat_map preorder right_children).
      rewrite (preorder_children t), Hsplit, flat_map_app. simpl.
      rewrite Heq. now rewrite <- !app_assoc.
Qed.

Lemma sum_app l1 l2 : sum (l1 ++ l2) = sum l1 + sum l2.
Proof.
  induction l1 as [|x l1 IH]; simpl; [reflexivity|].
  rewrite !sum_cons, IH. lia.
Qed.

Lemma sum_nonnegative l : Forall (fun x => 0 <= x) l -> 0 <= sum l.
Proof.
  induction 1 as [|x l Hx _ IH]; [reflexivity|]. rewrite sum_cons. lia.
Qed.

Lemma decision_points_nonnegative n :
  well_formed_node n = true -> 0 <= decision_points n.
Proof.
  intros Hwf. unfold decision_points.
  destruct (is_branch n); [lia|].
  destruct (isinstance n "BoolOp") eqn:Hcls; [|lia].
  apply well_formed_parts in Hwf. destruct Hwf as (_ & _ & _ & Hwf & _).
  specialize (Hwf Hcls). unfold grammar_BoolOp, attr_is in Hwf.
  unfold operands.
  destruct (assoc "values" (fields n)) as [[|l|]|]; try discriminate.
  apply Z.leb_le in Hwf. lia.
Qed.

(** On a parsed tree the complexity of a node is at least that of
    every node of its subtree: the decision points of a nested function
    are counted again in each function that encloses it. *)
Theorem complexity_includes_nested tree outer inner :
  parsed tree = true ->
  In outer (preorder tree) -> In inner (preorder outer) ->
  exists of_outer of_inner,
    Quality.calculate_cyclomatic_complexity outer = Ok of_outer
    /\ Quality.calculate_cyclomatic_complexity inner = Ok of_inner
    /\ 1 <= of_inner <= of_outer.
Proof.
  intros Ht Houter Hinner.
  apply in_walk_preorder in Houter.
  assert (Hin : In inner (walk tree))
    by (apply (walk_subtree tree outer); [|apply in_walk_preorder];
        assumption).
  rewrite (cyclomatic_parsed tree outer), (cyclomatic_parsed tree inner)
    by assumption.
  do 2 eexists. split; [reflexivity|]. split; [reflexivity|].
  unfold spec_cyclomatic.
  assert (Hnonneg : forall m, In m (preorder outer) ->
                              0 <= decision_points m).
  { intros m Hm. apply decision_points_nonnegative, (parsed_node tree);
      [assumption|].
    apply (walk_subtree tree outer); [|apply in_walk_preorder]; assumption. }
  destruct (preorder_segment (size outer) outer inner (Nat.le_refl _) Hinner)
    as [before [after Heq]].
  rewrite Heq in *. rewrite !map_app, !sum_app.
  assert (0 <= sum (map decision_points before)).
  { apply sum_nonnegative, Forall_forall. intros x Hx.
    apply in_map_iff in Hx. destruct Hx as [m [<- Hm]]. apply Hnonneg.
    apply in_or_app. now left. }
  assert (0 <= sum (map decision_points after)).
  { apply sum_nonnegative, Forall_forall. intros x Hx.
    apply in_map_iff in Hx. destruct Hx as [m [<- Hm]]. apply Hnonneg.
    apply in_or_app. right. apply in_or_app. now right. }
  assert (0 <= sum (map decision_points (preorder inner))).
  { apply sum_nonnegative, Forall_forall. intros x Hx.
    apply in_map_iff in Hx. destruct Hx as [m [<- Hm]]. apply Hnonneg.
    apply in_or_app. right. apply in_or_app. now left. }
  lia.
Qed.

Lemma complexity_includes_nested_witness :
  exists of_outer of_inner,
    Quality.calculate_cyclomatic_complexity Samples.fixture_tree = Ok of_outer
    /\ Quality.calculate_cyclomatic_complexity Samples.calculate_total
       = Ok of_inner
    /\ 1 <= of_inner <= of_outer.
Proof.
  apply (complexity_includes_nested Samples.fixture_tree);
    [vm_compute; reflexivity
    | simpl; left; reflexivity
    | simpl; right; left; reflexivity].
Defined.
